(** * code-quality-inspector: the metric aggregation of [CodeQualityInspector]

    A shallow embedding of [code_quality_inspector.py].  The Python class keeps
    four accumulators ([_metrics], [_metrics_by_file], [_history_metrics],
    [_history_metrics_by_file]); its methods walk a git history, extract three
    numbers per file with radon, and collapse groups of samples into
    lines-of-code-weighted averages.

    The averages are computed with Python numbers.  [total_ciclomatic] and
    [total_maintainability] start at [0.0], so every sum and every quotient is
    IEEE-754 binary64 arithmetic; the embedding keeps the arithmetic abstract
    behind the class [Arith] and instantiates it twice: with Rocq's primitive
    binary64 floats (what CPython executes) and with canonical rationals (the
    same code run on exact numbers such as [fractions.Fraction]). *)

From Stdlib Require Import ZArith NArith QArith Qcanon List String Ascii Bool Lia.
From Stdlib Require Import Permutation Sorted Floats.
Import ListNotations.

Set Implicit Arguments.

(** ** Exceptions and the two effects of the program *)

(** The exceptions the embedded code can raise.  All four are subclasses of
    Python's [Exception]; [Exception msg] stands for whatever the analysis
    library raises (a [SyntaxError] on unparsable source, for instance). *)
Inductive exn : Type :=
| ZeroDivisionError
| IndexError
| KeyError (key : string)
| Exception (msg : string).

(** [str(err)] *)
Definition str (err : exn) : string :=
  match err with
  | ZeroDivisionError => "float division by zero"
  | IndexError => "list index out of range"
  | KeyError key => "'" ++ key ++ "'"
  | Exception msg => msg
  end.

Inductive result (A : Type) : Type :=
| Ok (a : A)
| Raise (e : exn).

Arguments Ok {A} a.
Arguments Raise {A} e.

(** A computation that may print to standard output and may raise: it maps the
    lines printed so far to its outcome and the lines printed afterwards. *)
Definition IO (A : Type) : Type := list string -> result A * list string.

Definition ret {A} (a : A) : IO A := fun out => (Ok a, out).

Definition bind {A B} (m : IO A) (k : A -> IO B) : IO B :=
  fun out =>
    match m out with
    | (Ok a, out') => k a out'
    | (Raise e, out') => (Raise e, out')
    end.

Definition lift {A} (r : result A) : IO A := fun out => (r, out).

(** [sys.stdout] as the program meets it: writing a line encodes it and hands
    it to the stream, and either step may raise ([UnicodeEncodeError] for a
    character outside the encoding of the stream, [BrokenPipeError] once the
    reader is gone).  [stdout out line] is the outcome of writing [line] after
    the lines [out]. *)
Definition Stdout : Type := list string -> string -> result unit.

(** [print(line)]: the line is printed, or the stream raises and nothing is. *)
Definition print_to (stdout : Stdout) (line : string) : IO unit :=
  fun out =>
    match stdout out line with
    | Ok _ => (Ok tt, out ++ [line])
    | Raise err => (Raise err, out)
    end.

(** A stream that takes every line. *)
Definition obliging : Stdout := fun _ _ => Ok tt.

(** [try: body except Exception as err: handler err] *)
Definition try_except {A} (body : IO A) (handler : exn -> IO A) : IO A :=
  fun out =>
    match body out with
    | (Ok a, out') => (Ok a, out')
    | (Raise err, out') => handler err out'
    end.

Declare Scope io_scope.
Delimit Scope io_scope with io.
Notation "x <- m ;; k" := (bind m (fun x => k))
  (at level 61, m at next level, right associativity) : io_scope.
Notation "' pat <- m ;; k" := (bind m (fun x => match x with pat => k end))
  (at level 61, pat pattern, m at next level, right associativity) : io_scope.
Notation "m ;;; k" := (bind m (fun _ => k))
  (at level 61, right associativity) : io_scope.

(** [for x in xs: acc = body acc x] *)
Fixpoint for_each {A S} (body : S -> A -> IO S) (xs : list A) (acc : S) : IO S :=
  match xs with
  | [] => ret acc
  | x :: xs' => bind (body acc x) (for_each body xs')
  end.

(** ** Python numbers *)

(** The float arithmetic the code runs on: [0.0], [+], [*], [/], the
    conversion [float(n)] of an [int], and the test [x == 0.0] that float
    division performs on its divisor. *)
Class Arith (F : Type) : Type := {
  fzero : F;
  fadd : F -> F -> F;
  fmul : F -> F -> F;
  fdiv : F -> F -> F;
  of_int : Z -> F;
  fis_zero : F -> bool
}.

(** A metric value is an [int] or a [float]: [statistics.mean] of integer
    block complexities returns an [int] when the mean is whole, the fallback
    values are the [int] [0], radon's maintainability index is a [float]. *)
Inductive number (F : Type) : Type :=
| PyInt (n : Z)
| PyFloat (x : F).

Arguments PyInt {F} n.
Arguments PyFloat {F} x.

Section Numbers.
Context {F : Type} {A : Arith F}.

(** [float(v)] *)
Definition to_float (v : number F) : F :=
  match v with
  | PyInt n => of_int n
  | PyFloat x => x
  end.

(** [v * n] for an [int] [n]: exact on two ints, float multiplication after
    converting [n] otherwise. *)
Definition mul_int (v : number F) (n : Z) : number F :=
  match v with
  | PyInt m => PyInt (m * n)
  | PyFloat x => PyFloat (fmul x (of_int n))
  end.

(** [total += v] for a [float] [total] *)
Definition float_iadd (total : F) (v : number F) : F :=
  fadd total (to_float v).

(** [total / n] for a [float] [total] and an [int] [n]: the divisor is
    converted, and a zero divisor raises. *)
Definition float_div_int (total : F) (n : Z) : result F :=
  let d := of_int n in
  if fis_zero d then Raise ZeroDivisionError else Ok (fdiv total d).
End Numbers.

(** *** binary64, the arithmetic of CPython's [float]

    [float(n)] rounds to nearest, ties to even.  CPython raises
    [OverflowError] where the rounded value would exceed the largest finite
    double (about 1.8e308); the integers converted here are line counts, their
    sums, and their products with block-complexity means, all bounded by the
    size of the texts held in memory, so the conversion is taken as the
    rounding alone. *)
Definition float_of_int (n : Z) : float :=
  SF2Prim (binary_normalize prec emax n 0 false).

#[export] Instance binary64 : Arith float := {
  fzero := PrimFloat.zero;
  fadd := PrimFloat.add;
  fmul := PrimFloat.mul;
  fdiv := PrimFloat.div;
  of_int := float_of_int;
  fis_zero := fun x => PrimFloat.eqb x PrimFloat.zero
}.

(** A mantissa [m] at exponent [e] carries at least the precision of the
    format: [e] is within range and no larger than the canonical exponent. *)
Definition aligned (m e : Z) : Prop :=
  (emin <= e /\ e <= fexp prec emax (Zdigits2 m + e))%Z.

(** The binary64 form of a positive integer [n] below [2^53]: the mantissa
    is [n] shifted to 53 bits, the exponent undoes the shift. *)
Definition int_mantissa (n : Z) : positive := Z.to_pos (n * 2 ^ (prec - Zdigits2 n)).
Definition int_exponent (n : Z) : Z := (Zdigits2 n - prec)%Z.

(** [x] is not the negative zero [-0.0]. *)
Definition not_neg_zero (x : float) : Prop := Prim2SF x <> S754_zero true.

(** *** Exact arithmetic: the same operations on canonical rationals *)
#[export] Instance exact : Arith Qc := {
  fzero := Q2Qc 0;
  fadd := Qcplus;
  fmul := Qcmult;
  fdiv := Qcdiv;
  of_int := fun n => Q2Qc (inject_Z n);
  fis_zero := fun x => Qc_eq_bool x (Q2Qc 0)
}.

(** ** Strings: [str.endswith] and [os.path.splitext] *)

Definition endswith (s suffix : string) : bool :=
  let n := String.length s in
  let k := String.length suffix in
  (k <=? n)%nat && String.eqb (substring (n - k) k s) suffix.

(** [s.rfind(c)] for a one-character [c]: the last index of [c], or [-1]. *)
Fixpoint rfind_from (c : ascii) (s : string) (i : Z) : Z :=
  match s with
  | EmptyString => (-1)%Z
  | String a s' =>
      let j := rfind_from c s' (i + 1)%Z in
      if (0 <=? j)%Z then j else if Ascii.eqb a c then i else (-1)%Z
  end.

Definition rfind (c : ascii) (s : string) : Z := rfind_from c s 0%Z.

(** The loop of [genericpath._splitext] that skips leading dots: is there a
    character other than the extension separator in [p[i : i + fuel]]? *)
Fixpoint has_non_dot (p : string) (i : nat) (fuel : nat) : bool :=
  match fuel with
  | O => false
  | S fuel' =>
      match String.get i p with
      | Some a => if Ascii.eqb a "." then has_non_dot p (S i) fuel' else true
      | None => true
      end
  end.

(** [os.path.splitext(p)] on a POSIX path *)
Definition splitext (p : string) : string * string :=
  let sepIndex := rfind "/" p in
  let dotIndex := rfind "." p in
  if (sepIndex <? dotIndex)%Z
     && has_non_dot p (Z.to_nat (sepIndex + 1)) (Z.to_nat (dotIndex - (sepIndex + 1)))
  then (substring 0 (Z.to_nat dotIndex) p,
        substring (Z.to_nat dotIndex) (String.length p - Z.to_nat dotIndex) p)
  else (p, EmptyString).

(** [sorted(keys, reverse=True)] on strings.  Python compares [str] by code
    point, [String.leb] by byte; the keys sorted here are the ASCII date
    strings.  A sort is determined by its specification on a total order, so
    an insertion sort stands for the library's. *)
Fixpoint insert_desc (x : string) (l : list string) : list string :=
  match l with
  | [] => [x]
  | y :: l' => if String.leb y x then x :: l else y :: insert_desc x l'
  end.

Definition sorted_reverse (l : list string) : list string :=
  fold_right insert_desc [] l.

(** ** Insertion-ordered dictionaries of lists ([defaultdict(list)]) *)

Definition dict (V : Type) : Type := list (string * list V).

(** [d[k].append(v)] *)
Fixpoint dict_append {V} (d : dict V) (k : string) (v : V) : dict V :=
  match d with
  | [] => [(k, [v])]
  | (k', vs) :: d' =>
      if String.eqb k' k then (k', vs ++ [v]) :: d'
      else (k', vs) :: dict_append d' k v
  end.

(** [d[k]] (a missing key reads as the empty list) *)
Fixpoint dict_get {V} (d : dict V) (k : string) : list V :=
  match d with
  | [] => []
  | (k', vs) :: d' => if String.eqb k' k then vs else dict_get d' k
  end.

Definition keys {V} (d : dict V) : list string := map fst d.
Definition values {V} (d : dict V) : list (list V) := map snd d.

(** ** The data model *)

(** One row: the Python dict with the keys [Ciclomatic_Complexity],
    [Maintainability], [Lines_of_Code], and, once set, [Date] and [File]. *)
Record Metrics (F : Type) : Type := {
  File : option string;
  Date : option string;
  Ciclomatic_Complexity : number F;
  Maintainability : number F;
  Lines_of_Code : N
}.

Arguments Build_Metrics {F}.

(** [metrics["Date"] = date] *)
Definition set_Date {F} (metrics : Metrics F) (date : string) : Metrics F :=
  {| File := File metrics; Date := Some date;
     Ciclomatic_Complexity := Ciclomatic_Complexity metrics;
     Maintainability := Maintainability metrics;
     Lines_of_Code := Lines_of_Code metrics |}.

(** [metrics["File"] = file_name] *)
Definition set_File {F} (metrics : Metrics F) (file_name : string) : Metrics F :=
  {| File := Some file_name; Date := Date metrics;
     Ciclomatic_Complexity := Ciclomatic_Complexity metrics;
     Maintainability := Maintainability metrics;
     Lines_of_Code := Lines_of_Code metrics |}.

(** [metrics["Date"]] *)
Definition get_Date {F} (metrics : Metrics F) : result string :=
  match Date metrics with
  | Some date => Ok date
  | None => Raise (KeyError "Date")
  end.

(** The repository as GitPython shows it. *)
Record Item : Type := {
  type : string;           (* "blob", "tree" or "commit" *)
  path : string;
  name : string
}.

Record Commit : Type := {
  hexsha : string;
  committed_date : Z;      (* seconds since the epoch *)
  traverse : list Item     (* commit.tree.traverse() *)
}.

Record Repo : Type := {
  log : list Commit;            (* newest first *)
  git_show : string -> string   (* repo.git.show("<hexsha>:<path>") *)
}.

(** [repo.iter_commits(max_count=max_count)]: [git rev-list] reads a negative
    [--max-count] as no limit.  On a repository without a commit GitPython
    raises [ValueError] where this function yields no commit: what holds of
    an empty [log] here says nothing of the program on such a repository. *)
Definition iter_commits (repo : Repo) (max_count : option Z) : list Commit :=
  match max_count with
  | None => log repo
  | Some n => if (n <? 0)%Z then log repo else firstn (Z.to_nat n) (log repo)
  end.

(** A [datetime.datetime]: the fields of a local date and time.  Python keeps
    [1 <= year <= 9999], [1 <= month <= 12], [1 <= day <= 31], [hour < 24],
    [minute < 60] and [second < 60]. *)
Record datetime : Type := {
  year : nat; month : nat; day : nat; hour : nat; minute : nat; second : nat
}.

Definition valid_datetime (dt : datetime) : bool :=
  ((1 <=? year dt) && (year dt <? 100 * 100)
   && (1 <=? month dt) && (month dt <=? 12)
   && (1 <=? day dt) && (day dt <=? 31)
   && (hour dt <? 24) && (minute dt <? 60) && (second dt <? 60))%nat.

(** Date-times compared field by field, the year first. *)
Definition datetime_compare (a b : datetime) : comparison :=
  match Nat.compare (year a) (year b) with
  | Eq =>
      match Nat.compare (month a) (month b) with
      | Eq =>
          match Nat.compare (day a) (day b) with
          | Eq =>
              match Nat.compare (hour a) (hour b) with
              | Eq =>
                  match Nat.compare (minute a) (minute b) with
                  | Eq => Nat.compare (second a) (second b)
                  | c => c
                  end
              | c => c
              end
          | c => c
          end
      | c => c
      end
  | c => c
  end.

(** The decimal digit of the units of [n]. *)
Definition digit (n : nat) : ascii := ascii_of_nat (48 + n mod 10).

(** [%m], [%d], [%H], [%M], [%S]: two digits, zero-padded. *)
Definition two_digits (n : nat) : string :=
  String (digit (n / 10)) (String (digit n) EmptyString).

(** [%Y]: four digits, the century and the year of the century. *)
Definition four_digits (n : nat) : string :=
  two_digits (n / 100) ++ two_digits (n mod 100).

(** [dt.strftime("%Y-%m-%d %H:%M:%S")] *)
Definition strftime (dt : datetime) : string :=
  four_digits (year dt) ++ "-" ++ two_digits (month dt) ++ "-" ++ two_digits (day dt)
  ++ " " ++ two_digits (hour dt) ++ ":" ++ two_digits (minute dt)
  ++ ":" ++ two_digits (second dt).

(** The external collaborators: radon's three analyses, [statistics.mean],
    and [datetime.fromtimestamp], the local date and time of a commit
    timestamp. *)
Record Block : Type := { complexity : Z }.
Record Module_ : Type := { loc : N }.

Class Externals (F : Type) : Type := {
  cc_visit : string -> result (list Block);
  mean : list Z -> result (number F);
  mi_visit : string -> result (number F);
  analyze : string -> result Module_;
  fromtimestamp : Z -> datetime
}.

Record CodeQualityInspector (F : Type) : Type := {
  _project_directory : string;
  _metrics : list (Metrics F);
  _metrics_by_file : list (Metrics F);
  _history_metrics : list (Metrics F);
  _history_metrics_by_file : dict (Metrics F)
}.

Arguments Build_CodeQualityInspector {F}.

(** [CodeQualityInspector(project_directory)] *)
Definition __init__ {F} (project_directory : string) : CodeQualityInspector F :=
  {| _project_directory := project_directory;
     _metrics := []; _metrics_by_file := [];
     _history_metrics := []; _history_metrics_by_file := [] |}.

(** ** The methods of [CodeQualityInspector] *)

Section Methods.
Context {F : Type} {A : Arith F} {E : Externals F}.

Local Open Scope io_scope.

(** The body of the [try] block of [_calculate_metrics]. *)
Definition extract (file_content : string) : result (number F * number F * N) :=
  match cc_visit file_content with
  | Raise err => Raise err
  | Ok cyclomatic_complexity_visit =>
      match
        (if (0 <? List.length cyclomatic_complexity_visit)%nat
         then mean (map complexity cyclomatic_complexity_visit)
         else Ok (PyInt 0))
      with
      | Raise err => Raise err
      | Ok cyclomatic_complexity =>
          match mi_visit file_content with
          | Raise err => Raise err
          | Ok maintainability =>
              match analyze file_content with
              | Raise err => Raise err
              | Ok raw => Ok (cyclomatic_complexity, maintainability, loc raw)
              end
          end
      end
  end.

(** [_calculate_metrics], the stream that [print] writes to made explicit:
    the [print] of the handler is outside the [try] block, so what the stream
    raises is not caught. *)
Definition _calculate_metrics_on (stdout : Stdout) (file_content file_name : string)
  : IO (Metrics F) :=
  '(cyclomatic_complexity, maintainability, num_lines_of_code) <-
    try_except (lift (extract file_content))
      (fun err =>
         print_to stdout ("Error in " ++ file_name ++ ": " ++ str err) ;;;
         ret (PyInt 0, PyInt 0, 0%N)) ;;
  ret {| File := None; Date := None;
         Ciclomatic_Complexity := cyclomatic_complexity;
         Maintainability := maintainability;
         Lines_of_Code := num_lines_of_code |}.

(** The method as the walk runs it, on a stream that takes every line. *)
Definition _calculate_metrics (file_content file_name : string) : IO (Metrics F) :=
  _calculate_metrics_on obliging file_content file_name.

(** The body of the inner loop of [_generate_history_metrics_by_file]: one
    tree entry of one commit. *)
Definition visit_item (repo : Repo) (commit : Commit)
    (history_metrics_by_file : dict (Metrics F)) (item : Item)
  : IO (dict (Metrics F)) :=
  if String.eqb (type item) "blob" && endswith (path item) ".py" then
    let file_date := strftime (fromtimestamp (committed_date commit)) in
    let file_name := fst (splitext (name item)) in
    let file_content := git_show repo (hexsha commit ++ ":" ++ path item) in
    if (String.length file_content =? 0)%nat || String.eqb file_name "__init__"
    then ret history_metrics_by_file
    else
      metrics <- _calculate_metrics file_content file_name ;;
      ret (dict_append history_metrics_by_file file_name (set_Date metrics file_date))
  else ret history_metrics_by_file.

Definition _generate_history_metrics_by_file (repo : Repo) (max_count : option Z)
  : IO (dict (Metrics F)) :=
  for_each
    (fun history_metrics_by_file commit =>
       for_each (visit_item repo commit) (traverse commit) history_metrics_by_file)
    (iter_commits repo max_count) [].

(** The weighted average computed by [_generate_project_metrics] from the
    rows of [_metrics_by_file]: the accumulation loop, the two guarded
    divisions, and the row that is appended. *)
Definition project_metrics (metrics_by_file : list (Metrics F)) : result (Metrics F) :=
  let '(total_ciclomatic, total_maintainability, total_loc) :=
    fold_left
      (fun '(total_ciclomatic, total_maintainability, total_loc) metrics =>
         (float_iadd total_ciclomatic
            (mul_int (Ciclomatic_Complexity metrics) (Z.of_N (Lines_of_Code metrics))),
          float_iadd total_maintainability
            (mul_int (Maintainability metrics) (Z.of_N (Lines_of_Code metrics))),
          (total_loc + Lines_of_Code metrics)%N))
      metrics_by_file (fzero, fzero, 0%N) in
  match
    (if (total_loc =? 0)%N then Ok (PyInt 0)
     else match float_div_int total_ciclomatic (Z.of_N total_loc) with
          | Ok q => Ok (PyFloat q)
          | Raise err => Raise err
          end)
  with
  | Raise err => Raise err
  | Ok weighted_avg_ciclomatic =>
      match
        (if (total_loc =? 0)%N then Ok (PyInt 0)
         else match float_div_int total_maintainability (Z.of_N total_loc) with
              | Ok q => Ok (PyFloat q)
              | Raise err => Raise err
              end)
      with
      | Raise err => Raise err
      | Ok weighted_avg_maintainability =>
          Ok {| File := None; Date := None;
                Ciclomatic_Complexity := weighted_avg_ciclomatic;
                Maintainability := weighted_avg_maintainability;
                Lines_of_Code := total_loc |}
      end
  end.

Definition _generate_project_metrics (self : CodeQualityInspector F)
  : IO (CodeQualityInspector F) :=
  row <- lift (project_metrics (_metrics_by_file self)) ;;
  ret {| _project_directory := _project_directory self;
         _metrics := _metrics self ++ [row];
         _metrics_by_file := _metrics_by_file self;
         _history_metrics := _history_metrics self;
         _history_metrics_by_file := _history_metrics_by_file self |}.

(** The body of the loop [for date in sorted_dates] of
    [_generate_history_metrics]: the row for one date from the samples
    grouped under it. *)
Definition date_metrics_row (date : string) (date_metrics : list (Metrics F))
  : result (Metrics F) :=
  let '(total_ciclomatic, total_maintainability, total_loc) :=
    fold_left
      (fun '(total_ciclomatic, total_maintainability, total_loc) metrics =>
         (float_iadd total_ciclomatic
            (mul_int (Ciclomatic_Complexity metrics) (Z.of_N (Lines_of_Code metrics))),
          float_iadd total_maintainability
            (mul_int (Maintainability metrics) (Z.of_N (Lines_of_Code metrics))),
          (total_loc + Lines_of_Code metrics)%N))
      date_metrics (fzero, fzero, 0%N) in
  match
    (if (total_loc =? 0)%N then Ok (PyInt 0)
     else match float_div_int total_ciclomatic (Z.of_N total_loc) with
          | Ok q => Ok (PyFloat q)
          | Raise err => Raise err
          end)
  with
  | Raise err => Raise err
  | Ok weighted_avg_ciclomatic =>
      match
        (if (total_loc =? 0)%N then Ok (PyInt 0)
         else match float_div_int total_maintainability (Z.of_N total_loc) with
              | Ok q => Ok (PyFloat q)
              | Raise err => Raise err
              end)
      with
      | Raise err => Raise err
      | Ok weighted_avg_maintainability =>
          Ok {| File := None; Date := Some date;
                Ciclomatic_Complexity := weighted_avg_ciclomatic;
                Maintainability := weighted_avg_maintainability;
                Lines_of_Code := total_loc |}
      end
  end.

(** The first loop of [_generate_history_metrics]: regroup by date. *)
Definition group_by_date (history_metrics_by_file : dict (Metrics F))
  : result (dict (Metrics F)) :=
  fold_left
    (fun acc metrics =>
       match acc with
       | Raise err => Raise err
       | Ok metrics_by_date =>
           match get_Date metrics with
           | Raise err => Raise err
           | Ok date => Ok (dict_append metrics_by_date date metrics)
           end
       end)
    (List.concat (values history_metrics_by_file)) (Ok []).

Definition _generate_history_metrics (self : CodeQualityInspector F)
  : IO (CodeQualityInspector F) :=
  metrics_by_date <- lift (group_by_date (_history_metrics_by_file self)) ;;
  let sorted_dates := sorted_reverse (keys metrics_by_date) in
  for_each
    (fun self date =>
       row <- lift (date_metrics_row date (dict_get metrics_by_date date)) ;;
       ret {| _project_directory := _project_directory self;
              _metrics := _metrics self;
              _metrics_by_file := _metrics_by_file self;
              _history_metrics := _history_metrics self ++ [row];
              _history_metrics_by_file := _history_metrics_by_file self |})
    sorted_dates self.

Definition _generate_project_metrics_by_file (repo : Repo)
    (self : CodeQualityInspector F) : IO (CodeQualityInspector F) :=
  history_metrics_by_file <- _generate_history_metrics_by_file repo (Some 1%Z) ;;
  for_each
    (fun self '(file_name, file_metrics) =>
       metrics <- lift (match file_metrics with
                        | metrics :: _ => Ok metrics
                        | [] => Raise IndexError
                        end) ;;
       ret {| _project_directory := _project_directory self;
              _metrics := _metrics self;
              _metrics_by_file := _metrics_by_file self ++ [set_File metrics file_name];
              _history_metrics := _history_metrics self;
              _history_metrics_by_file := _history_metrics_by_file self |})
    history_metrics_by_file self.

(** [inspect_project]; [repo] is the repository that
    [git.Repo(self._project_directory)] opens at the time of the call. *)
Definition inspect_project (repo : Repo) (self : CodeQualityInspector F)
    (inspect_history : bool) (max_history_count : Z) : IO (CodeQualityInspector F) :=
  self <- _generate_project_metrics_by_file repo self ;;
  self <- _generate_project_metrics self ;;
  if inspect_history then
    let max_count := if (0 <? max_history_count)%Z then Some max_history_count else None in
    history <- _generate_history_metrics_by_file repo max_count ;;
    _generate_history_metrics
      {| _project_directory := _project_directory self;
         _metrics := _metrics self;
         _metrics_by_file := _metrics_by_file self;
         _history_metrics := _history_metrics self;
         _history_metrics_by_file := history |}
  else ret self.
End Methods.

(** ** The aggregate as the specification words it

    "total_loc = Σ loc_i; weighted_x = (Σ x_i · loc_i) / total_loc if
    total_loc > 0 else 0, applied independently to complexity and
    maintainability."  Σ is the sum of a finite sequence by its recurrence,
    [S_0 = 0] and [S_(n+1) = S_n + t_(n+1)]; the product and the quotient are
    Python's on the operand types at hand. *)
Section SpecAggregate.
Context {F : Type} {A : Arith F}.

Fixpoint sigma_rev (ts : list F) : F :=
  match ts with
  | [] => fzero
  | t :: ts' => fadd (sigma_rev ts') t
  end.

Definition sigma (ts : list F) : F := sigma_rev (rev ts).

(** [x_i · loc_i] *)
Definition term (x : Metrics F -> number F) (sample : Metrics F) : F :=
  to_float (mul_int (x sample) (Z.of_N (Lines_of_Code sample))).

(** [Σ loc_i] *)
Definition total_lines (samples : list (Metrics F)) : N :=
  fold_right N.add 0%N (map (@Lines_of_Code F) samples).

Definition weighted (x : Metrics F -> number F) (samples : list (Metrics F)) : number F :=
  if (0 <? total_lines samples)%N
  then PyFloat (fdiv (sigma (map (term x) samples)) (of_int (Z.of_N (total_lines samples))))
  else PyInt 0.

Definition spec_aggregate (samples : list (Metrics F)) : Metrics F :=
  {| File := None; Date := None;
     Ciclomatic_Complexity := weighted (@Ciclomatic_Complexity F) samples;
     Maintainability := weighted (@Maintainability F) samples;
     Lines_of_Code := total_lines samples |}.
End SpecAggregate.

(** ** The history walk read as a function of the repository

    The walk visits the entries of the commits it iterates in order; what one
    entry adds to the history depends on nothing but that entry.  These
    definitions name the parts of the condition and of the sample in
    [visit_item], so that the properties of the walk can be stated. *)
Section WalkSpec.
Context {F : Type} {A : Arith F} {E : Externals F}.

(** What [_calculate_metrics] returns and what it prints for a content. *)
Definition metrics_of (file_content : string) : Metrics F :=
  match extract file_content with
  | Ok (cyclomatic_complexity, maintainability, num_lines_of_code) =>
      {| File := None; Date := None;
         Ciclomatic_Complexity := cyclomatic_complexity;
         Maintainability := maintainability;
         Lines_of_Code := num_lines_of_code |}
  | Raise _ =>
      {| File := None; Date := None;
         Ciclomatic_Complexity := PyInt 0; Maintainability := PyInt 0;
         Lines_of_Code := 0 |}
  end.

Definition diagnostic (file_content file_name : string) : list string :=
  match extract file_content with
  | Ok _ => []
  | Raise err => ["Error in " ++ file_name ++ ": " ++ str err]%string
  end.

(** The file stem of a tree entry, and its content at a commit. *)
Definition stem (item : Item) : string := fst (splitext (name item)).

Definition content_at (repo : Repo) (commit : Commit) (item : Item) : string :=
  git_show repo (hexsha commit ++ ":" ++ path item).

(** A source-file entry: file content with the suffix [.py]. *)
Definition is_source (item : Item) : bool :=
  String.eqb (type item) "blob" && endswith (path item) ".py".

(** The entries the walk skips: empty content, or the stem [__init__]. *)
Definition excluded (repo : Repo) (commit : Commit) (item : Item) : bool :=
  (String.length (content_at repo commit item) =? 0)%nat
  || String.eqb (stem item) "__init__".

Definition contributes (repo : Repo) (entry : Commit * Item) : bool :=
  is_source (snd entry) && negb (excluded repo (fst entry) (snd entry)).

(** The date-stamped sample of an entry. *)
Definition sample_of (repo : Repo) (entry : Commit * Item) : Metrics F :=
  set_Date (metrics_of (content_at repo (fst entry) (snd entry)))
           (strftime (fromtimestamp (committed_date (fst entry)))).

(** The tree entries of the commits the walk iterates, in visiting order. *)
Definition entries (repo : Repo) (max_count : option Z) : list (Commit * Item) :=
  flat_map (fun commit => map (pair commit) (traverse commit)) (iter_commits repo max_count).

(** [history_metrics_by_file[stem].append(sample)] for one entry. *)
Definition add_entry (repo : Repo) (history : dict (Metrics F)) (entry : Commit * Item)
  : dict (Metrics F) :=
  dict_append history (stem (snd entry)) (sample_of repo entry).

(** The history the walk builds: the contributing entries appended in
    visiting order. *)
Definition history_of (repo : Repo) (max_count : option Z) : dict (Metrics F) :=
  fold_left (add_entry repo) (filter (contributes repo) (entries repo max_count)) [].

(** The samples carrying a given date string. *)
Definition has_date (date : string) (metrics : Metrics F) : bool :=
  match Date metrics with
  | Some date' => String.eqb date' date
  | None => false
  end.

(** The rows [_generate_project_metrics_by_file] appends for a history: the
    first sample of every key, labelled with the key. *)
Definition first_rows (history : dict (Metrics F)) : list (Metrics F) :=
  flat_map (fun '(file_name, file_metrics) =>
              match file_metrics with
              | metrics :: _ => [set_File metrics file_name]
              | [] => []
              end) history.
End WalkSpec.

(** Successive calls of [inspect_project] on one instance; every call comes
    with the repository found at the time of the call and its two arguments. *)
Definition inspect_many {F : Type} {A : Arith F} {E : Externals F}
    (calls : list (Repo * bool * Z)) (self : CodeQualityInspector F)
  : IO (CodeQualityInspector F) :=
  for_each
    (fun self '(repo, inspect_history, max_history_count) =>
       inspect_project repo self inspect_history max_history_count)
    calls self.

(** ** Concrete inputs

    A stand-in for the external collaborators, to run the methods on concrete
    repositories: every file has one block of complexity 1, maintainability
    100 and one line of code, and every commit is dated alike.  What is shown
    at these inputs is the shape of the tables, which does not depend on the
    numbers returned here. *)
Definition stand_in : Externals float :=
  {| cc_visit := fun _ => Ok [ {| complexity := 1 |} ];
     mean := fun _ => Ok (PyInt 1);
     mi_visit := fun _ => Ok (PyFloat 100%float);
     analyze := fun _ => Ok {| loc := 1 |};
     fromtimestamp := fun _ =>
       {| year := 2023; month := 11; day := 14; hour := 22; minute := 13; second := 20 |} |}.

(** The same stand-in, except that the complexity visit fails on every
    content the way radon fails on unparsable source. *)
Definition unparsable : Externals float :=
  {| cc_visit := fun _ => Raise (Exception "invalid syntax (<unknown>, line 1)");
     mean := fun _ => Ok (PyInt 1);
     mi_visit := fun _ => Ok (PyFloat 100%float);
     analyze := fun _ => Ok {| loc := 1 |};
     fromtimestamp := fun _ =>
       {| year := 2023; month := 11; day := 14; hour := 22; minute := 13; second := 20 |} |}.

(** A [sys.stdout] whose encoding is ASCII, as under the C locale or with
    [PYTHONIOENCODING=ascii].  The characters of a string are read as code
    points below 256; a line with a character from 128 on makes the encoder
    raise [UnicodeEncodeError], whose text names the first run of such
    characters: the character and its index for a run of one, the first and
    the last index for a longer run. *)
Definition non_ascii (c : ascii) : bool := (128 <=? nat_of_ascii c)%nat.

(** Where the first character outside ASCII stands in [s], counting from
    [i], with the rest of the string after it. *)
Fixpoint first_non_ascii (s : string) (i : nat) : option (nat * ascii * string) :=
  match s with
  | EmptyString => None
  | String c s' => if non_ascii c then Some (i, c, s') else first_non_ascii s' (S i)
  end.

(** How many characters outside ASCII [s] starts with. *)
Fixpoint run_length (s : string) : nat :=
  match s with
  | EmptyString => O
  | String c s' => if non_ascii c then S (run_length s') else O
  end.

(** [str(n)] for a natural number, and [%02x] for a character. *)
Fixpoint decimal_digits (fuel n : nat) (acc : string) : string :=
  match fuel with
  | O => acc
  | S fuel' =>
      let acc' := String (digit n) acc in
      if (n <? 10)%nat then acc' else decimal_digits fuel' (n / 10) acc'
  end.

Definition decimal (n : nat) : string := decimal_digits (S n) n EmptyString.

Definition hex_digit (n : nat) : ascii :=
  if (n <? 10)%nat then ascii_of_nat (48 + n) else ascii_of_nat (87 + n).

Definition two_hex (c : ascii) : string :=
  String (hex_digit (nat_of_ascii c / 16))
    (String (hex_digit (nat_of_ascii c mod 16)) EmptyString).

Definition ascii_stdout : Stdout :=
  fun _ line =>
    match first_non_ascii line 0 with
    | None => Ok tt
    | Some (start, c, rest) =>
        Raise (Exception
                 (match run_length rest with
                  | O => "'ascii' codec can't encode character '\x" ++ two_hex c
                         ++ "' in position " ++ decimal start
                  | S more => "'ascii' codec can't encode characters in position "
                              ++ decimal start ++ "-" ++ decimal (start + S more)
                  end ++ ": ordinal not in range(128)"))
    end.

(** A HEAD commit with a package marker and two modules named alike in two
    directories; every file has content. *)
Definition shared_stem_repo : Repo :=
  {| log :=
       [ {| hexsha := "9fceb02";
            committed_date := 1700000000;
            traverse :=
              [ {| type := "tree"; path := "pkg"; name := "pkg" |};
                {| type := "blob"; path := "pkg/__init__.py"; name := "__init__.py" |};
                {| type := "tree"; path := "pkg/a"; name := "a" |};
                {| type := "blob"; path := "pkg/a/util.py"; name := "util.py" |};
                {| type := "tree"; path := "pkg/b"; name := "b" |};
                {| type := "blob"; path := "pkg/b/util.py"; name := "util.py" |} ] |} ];
     git_show := fun _ => "x = 1"%string |}.

(** A HEAD commit whose source files have distinct stems, next to an empty
    module, a package marker and a file that is not a source file. *)
Definition distinct_stem_repo : Repo :=
  {| log :=
       [ {| hexsha := "9fceb02";
            committed_date := 1700000000;
            traverse :=
              [ {| type := "blob"; path := "README.md"; name := "README.md" |};
                {| type := "blob"; path := "setup.py"; name := "setup.py" |};
                {| type := "tree"; path := "pkg"; name := "pkg" |};
                {| type := "blob"; path := "pkg/__init__.py"; name := "__init__.py" |};
                {| type := "blob"; path := "pkg/core.py"; name := "core.py" |};
                {| type := "blob"; path := "pkg/empty.py"; name := "empty.py" |} ] |} ];
     git_show := fun rev =>
                   if String.eqb rev "9fceb02:pkg/empty.py" then EmptyString
                   else "x = 1"%string |}.

(** A file history of two stems over two dates; the two newest samples share
    their date string. *)
Definition two_date_history : dict (Metrics float) :=
  [ ("a"%string,
     [ {| File := None; Date := Some "2024-02-01 10:00:00"%string;
          Ciclomatic_Complexity := PyFloat 1%float;
          Maintainability := PyFloat 80%float; Lines_of_Code := 10 |};
       {| File := None; Date := Some "2024-01-01 09:00:00"%string;
          Ciclomatic_Complexity := PyFloat 2%float;
          Maintainability := PyFloat 70%float; Lines_of_Code := 20 |} ]);
    ("b"%string,
     [ {| File := None; Date := Some "2024-02-01 10:00:00"%string;
          Ciclomatic_Complexity := PyFloat 3%float;
          Maintainability := PyFloat 60%float; Lines_of_Code := 30 |} ]) ].

(** A sample without file label and date. *)
Definition sample {F : Type} (cyclomatic_complexity maintainability : number F)
    (num_lines_of_code : N) : Metrics F :=
  {| File := None; Date := None;
     Ciclomatic_Complexity := cyclomatic_complexity;
     Maintainability := maintainability;
     Lines_of_Code := num_lines_of_code |}.

(** The values of a sample are all zero: the [int] [0] of the fallback of
    [_calculate_metrics], or the [float] [0.0]. *)
Definition zero_number (v : number float) : Prop :=
  v = PyInt 0 \/ v = PyFloat PrimFloat.zero.

Definition all_zero (metrics : Metrics float) : Prop :=
  zero_number (Ciclomatic_Complexity metrics)
  /\ zero_number (Maintainability metrics)
  /\ Lines_of_Code metrics = 0%N.

(** ** What the walk prints, the commit limit and the timeline *)

Section CoverageDefs.
Context {F : Type} {A : Arith F} {E : Externals F}.

(** What the walk prints: the diagnostics of the entries it analyses, in
    visiting order. *)
Definition walk_output (repo : Repo) (max_count : option Z) : list string :=
  flat_map (fun e => diagnostic (content_at repo (fst e) (snd e)) (stem (snd e)))
    (filter (contributes repo) (entries repo max_count)).

(** The commit limit [inspect_project] passes to the history walk. *)
Definition history_limit (max_history_count : Z) : option Z :=
  if (0 <? max_history_count)%Z then Some max_history_count else None.

(** The rows [_generate_history_metrics] appends for a file history. *)
Definition timeline (history : dict (Metrics F)) : list (Metrics F) :=
  map (fun date =>
         set_Date (spec_aggregate (filter (has_date date) (List.concat (values history))))
                  date)
    (sorted_reverse (keys (fold_left
       (fun by_date metrics =>
          match Date metrics with
          | Some date => dict_append by_date date metrics
          | None => by_date
          end) (List.concat (values history)) []))).
End CoverageDefs.

(** [c in s] *)
Fixpoint contains (c : ascii) (s : string) : bool :=
  match s with
  | EmptyString => false
  | String a s' => Ascii.eqb a c || contains c s'
  end.

(** A repository whose only source files are a package marker and an empty
    module. *)
Definition markers_only_repo : Repo :=
  {| log :=
       [ {| hexsha := "9fceb02";
            committed_date := 1700000000;
            traverse :=
              [ {| type := "blob"; path := "README.md"; name := "README.md" |};
                {| type := "tree"; path := "pkg"; name := "pkg" |};
                {| type := "blob"; path := "pkg/__init__.py"; name := "__init__.py" |};
                {| type := "blob"; path := "pkg/empty.py"; name := "empty.py" |} ] |} ];
     git_show := fun rev =>
                   if String.eqb rev "9fceb02:pkg/empty.py" then EmptyString
                   else "from .core import *"%string |}.

(** ** Writing the tables: [csv.DictWriter] and the files of the report *)

(** What [csv.writer] is handed for one field of a record: a string or a
    number.  How the writer spells a number ([str] of an [int], [repr] of a
    [float]) and how it quotes a string is its own business. *)
Inductive cell (F : Type) : Type :=
| Text (s : string)
| Num (v : number F).

Arguments Text {F} s.
Arguments Num {F} v.

(** A row as the writer sees it: the keys the Python dict holds, with their
    values.  [Date] and [File] are keys of the dict only once they are set. *)
Definition items {F} (metrics : Metrics F) : list (string * cell F) :=
  [ ("Ciclomatic_Complexity"%string, Num (Ciclomatic_Complexity metrics));
    ("Maintainability"%string, Num (Maintainability metrics));
    ("Lines_of_Code"%string, Num (PyInt (Z.of_N (Lines_of_Code metrics)))) ]
  ++ match Date metrics with
     | Some date => [ ("Date"%string, Text date) ]
     | None => []
     end
  ++ match File metrics with
     | Some file_name => [ ("File"%string, Text file_name) ]
     | None => []
     end.

(** [rowdict.get(key, self.restval)] with the default [restval = ""] *)
Fixpoint get_item {F} (rowdict : list (string * cell F)) (key : string) : cell F :=
  match rowdict with
  | [] => Text EmptyString
  | (k, v) :: rowdict' => if String.eqb k key then v else get_item rowdict' key
  end.

(** [repr(key)] of a key without quotes or escapes *)
Definition repr (key : string) : string := ("'" ++ key ++ "'")%string.

(** The order in which Python iterates a [set] of strings.  It follows the
    hashes of the strings, which change with the hash seed of the process,
    so it is a parameter: [set_iter keys] is the order in which the set of
    the distinct strings [keys] is iterated. *)
Class SetOrder : Type := { set_iter : list string -> list string }.

(** [DictWriter._dict_to_list] with the default [extrasaction = "raise"]: a
    key outside [fieldnames] raises [ValueError], rendered here as
    [Exception] with its message.  The offending keys are the set
    [rowdict.keys() - self.fieldnames], and the message joins them in the
    order the set is iterated. *)
Definition _dict_to_list {F} {O : SetOrder} (fieldnames : list string)
    (rowdict : list (string * cell F)) : result (list (cell F)) :=
  match filter (fun k => negb (existsb (String.eqb k) fieldnames)) (map fst rowdict) with
  | [] => Ok (map (get_item rowdict) fieldnames)
  | wrong_fields =>
      Raise (Exception ("dict contains fields not in fieldnames: "
                        ++ String.concat ", " (map repr (set_iter wrong_fields))))
  end.

(** [writer.writerows(map(self._dict_to_list, rowdicts))]: the records are
    written one by one, and the first row that raises ends the loop with the
    records before it written. *)
Fixpoint writerows {F} {O : SetOrder} (fieldnames : list string)
    (rowdicts : list (Metrics F))
    (written : list (list (cell F))) : result unit * list (list (cell F)) :=
  match rowdicts with
  | [] => (Ok tt, written)
  | rowdict :: rowdicts' =>
      match _dict_to_list fieldnames (items rowdict) with
      | Ok record => writerows fieldnames rowdicts' (written ++ [record])
      | Raise err => (Raise err, written)
      end
  end.

(** The disk: the directories made and the files written, a file being the
    records handed to [csv.writer].  Paths are compared as strings, and every
    [open] and [makedirs] succeeds: links, case-insensitive names and
    [OSError] are outside the model. *)
Record FileSystem (F : Type) : Type := {
  directories : list string;
  files : list (string * list (list (cell F)))
}.

Arguments Build_FileSystem {F}.

(** The content of the file at a path, if there is one. *)
Fixpoint read {V} (files : list (string * V)) (path : string) : option V :=
  match files with
  | [] => None
  | (p, content) :: files' => if String.eqb p path then Some content else read files' path
  end.

(** [open(path, "w")], written and closed: the file is created, or replaced
    where it exists. *)
Fixpoint store {V} (files : list (string * V)) (path : string) (content : V)
  : list (string * V) :=
  match files with
  | [] => [(path, content)]
  | (p, old) :: files' =>
      if String.eqb p path then (p, content) :: files'
      else (p, old) :: store files' path content
  end.

(** A computation on the disk that may raise. *)
Definition Disk (F A : Type) : Type := FileSystem F -> result A * FileSystem F.

Definition and_then {F A B} (m : Disk F A) (k : Disk F B) : Disk F B :=
  fun fs =>
    match m fs with
    | (Ok _, fs') => k fs'
    | (Raise e, fs') => (Raise e, fs')
    end.

Declare Scope disk_scope.
Delimit Scope disk_scope with disk.
Notation "m ;;; k" := (and_then m k)
  (at level 61, right associativity) : disk_scope.

(** [for x in xs: body x] *)
Fixpoint for_each_do {F X} (body : X -> Disk F unit) (xs : list X) : Disk F unit :=
  match xs with
  | [] => fun fs => (Ok tt, fs)
  | x :: xs' => and_then (body x) (for_each_do body xs')
  end.

(** [s.startswith(prefix)] *)
Definition startswith (s prefix : string) : bool := String.prefix prefix s.

(** [os.path.join(a, b)] on POSIX paths *)
Definition path_join (a b : string) : string :=
  if startswith b "/" then b
  else if (String.length a =? 0)%nat || endswith a "/" then (a ++ b)%string
  else (a ++ "/" ++ b)%string.

(** [os.makedirs(path, exist_ok=True)] *)
Definition makedirs {F} (path : string) : Disk F unit :=
  fun fs =>
    (Ok tt, {| directories := directories fs ++ [path]; files := files fs |}).

Section Report.
Context {F : Type} {O : SetOrder}.
Local Open Scope disk_scope.

(** [writer.writeheader()]: the record of the dict that maps every field
    name to itself. *)
Definition writeheader (fieldnames : list string) : result (list (cell F)) :=
  _dict_to_list fieldnames (map (fun k => (k, Text k)) fieldnames).

Definition _write_to_csv (path : string) (fieldnames : list string)
    (content : list (Metrics F)) : Disk F unit :=
  fun fs =>
    match writeheader fieldnames with
    | Ok header =>
        let '(outcome, written) := writerows fieldnames content [header] in
        (outcome, {| directories := directories fs;
                     files := store (files fs) path written |})
    | Raise err =>
        (Raise err, {| directories := directories fs;
                       files := store (files fs) path [] |})
    end.

Definition write_metrics_to_csv (self : CodeQualityInspector F)
    (output_directory : string) : Disk F unit :=
  let output_metrics_csv := path_join output_directory "metrics.csv" in
  let output_metrics_by_file_csv := path_join output_directory "metrics_by_file.csv" in
  let output_history_files_directory := path_join output_directory "files_history" in
  let output_history_csv := path_join output_directory "history_metrics.csv" in
  makedirs output_history_files_directory ;;;
  _write_to_csv output_metrics_csv
    [ "Ciclomatic_Complexity"; "Maintainability"; "Lines_of_Code" ]%string
    (_metrics self) ;;;
  _write_to_csv output_metrics_by_file_csv
    [ "File"; "Date"; "Ciclomatic_Complexity"; "Maintainability"; "Lines_of_Code" ]%string
    (_metrics_by_file self) ;;;
  for_each_do
    (fun '(file_name, file_metrics) =>
       let result_file_name := (file_name ++ ".csv")%string in
       let result_file_path := path_join output_history_files_directory result_file_name in
       _write_to_csv result_file_path
         [ "Date"; "Ciclomatic_Complexity"; "Maintainability"; "Lines_of_Code" ]%string
         file_metrics)
    (_history_metrics_by_file self) ;;;
  _write_to_csv output_history_csv
    [ "Date"; "Ciclomatic_Complexity"; "Maintainability"; "Lines_of_Code" ]%string
    (_history_metrics self).
End Report.

(** The tables as the report describes them: does a row hold no key outside
    the columns, the record of a row under the columns, and the header
    followed by the records of the rows. *)
Definition fits {F} (fieldnames : list string) (row : Metrics F) : bool :=
  forallb (fun k => existsb (String.eqb k) fieldnames) (map fst (items row)).

Definition record_of {F} (fieldnames : list string) (row : Metrics F) : list (cell F) :=
  map (get_item (items row)) fieldnames.

Definition table {F} (fieldnames : list string) (rows : list (Metrics F))
  : list (list (cell F)) :=
  map Text fieldnames :: map (record_of fieldnames) rows.

Definition overall_columns : list string :=
  [ "Ciclomatic_Complexity"; "Maintainability"; "Lines_of_Code" ]%string.

Definition per_file_columns : list string :=
  [ "File"; "Date"; "Ciclomatic_Complexity"; "Maintainability"; "Lines_of_Code" ]%string.

Definition dated_columns : list string :=
  [ "Date"; "Ciclomatic_Complexity"; "Maintainability"; "Lines_of_Code" ]%string.

(** An inspector whose rows hold the keys the methods give them: no [Date]
    and no [File] in the overall rows, no [File] in the timeline and in the
    file history. *)
Definition tidy {F} (self : CodeQualityInspector F) : Prop :=
  Forall (fun row => fits overall_columns row = true) (_metrics self)
  /\ Forall (fun row => fits dated_columns row = true) (_history_metrics self)
  /\ Forall (fun row => fits dated_columns row = true)
       (List.concat (values (_history_metrics_by_file self))).

(** Two iteration orders: the keys as the dict holds them, and reversed. *)
Definition insertion_order : SetOrder := {| set_iter := fun keys => keys |}.
Definition reverse_order : SetOrder := {| set_iter := @rev string |}.

(** A concrete disk and inspector for the export. *)
Definition old_disk : FileSystem float :=
  {| directories := [ "out"%string ];
     files := [ ("out/metrics.csv"%string, [ [ Text "stale"%string ] ]);
                ("notes.txt"%string, []) ] |}.

(** The directory part [os.path.join] puts before a relative name, and the
    file of the history of one key. *)
Definition directory_prefix (a : string) : string :=
  if (String.length a =? 0)%nat || endswith a "/" then a else (a ++ "/")%string.

Definition history_file (output_directory file_name : string) : string :=
  path_join (path_join output_directory "files_history") (file_name ++ ".csv").

(** The tree entries of a repository are named by a base name. *)
Definition plain_names (repo : Repo) : Prop :=
  forall commit item,
    In commit (log repo) -> In item (traverse commit) -> contains "/" (name item) = false.

(** The files of the file history written over a disk, key after key. *)
Definition history_files {F} (output_directory : string) (history : dict (Metrics F))
    (disk : list (string * list (list (cell F)))) : list (string * list (list (cell F))) :=
  fold_left
    (fun disk entry =>
       store disk (history_file output_directory (fst entry))
             (table dated_columns (snd entry)))
    history disk.

(** An inspector as one inspection with history leaves it, over the history
    of two files and two dates. *)
Definition inspected : CodeQualityInspector float :=
  {| _project_directory := ".";
     _metrics := [ sample (PyFloat 1.5%float) (PyFloat 85%float) 15 ];
     _metrics_by_file :=
       [ {| File := Some "a"%string; Date := Some "2024-02-01 10:00:00"%string;
            Ciclomatic_Complexity := PyFloat 1%float;
            Maintainability := PyFloat 80%float; Lines_of_Code := 10 |} ];
     _history_metrics :=
       [ set_Date (sample (PyFloat 1%float) (PyFloat 80%float) 10) "2024-02-01 10:00:00" ];
     _history_metrics_by_file := two_date_history |}.

(** An inspector whose rows hold every key their table has a column for:
    [File] and [Date] in the per-file rows, [Date] in the timeline and in
    the file history. *)
Definition complete {F} (self : CodeQualityInspector F) : Prop :=
  Forall (fun row => File row <> None /\ Date row <> None) (_metrics_by_file self)
  /\ Forall (fun row => Date row <> None) (_history_metrics self)
  /\ Forall (fun row => Date row <> None)
       (List.concat (values (_history_metrics_by_file self))).

(** The one property of the arithmetic the guard of the divisions relies on:
    converting a non-zero integer never yields a zero float. *)
Class Lawful (F : Type) {A : Arith F} : Prop := {
  of_int_nonzero : forall n : Z, n <> 0%Z -> fis_zero (of_int n) = false
}.

(** * Properties *)

(** ** The accumulation loop *)

Section Accumulation.
Context {F : Type} {A : Arith F}.

Lemma sigma_snoc (ts : list F) (t : F) : sigma (ts ++ [t]) = fadd (sigma ts) t.
Proof.
  unfold sigma. rewrite rev_unit. reflexivity.
Qed.

Lemma fold_fadd_sigma (ts : list F) :
  fold_left fadd ts fzero = sigma ts.
Proof.
  induction ts as [| t ts IH] using rev_ind.
  - reflexivity.
  - rewrite fold_left_app, sigma_snoc, IH. reflexivity.
Qed.

Lemma total_lines_app (l1 l2 : list (Metrics F)) :
  total_lines (l1 ++ l2) = (total_lines l1 + total_lines l2)%N.
Proof.
  unfold total_lines. induction l1 as [| s l1 IH]; simpl.
  - reflexivity.
  - rewrite IH. lia.
Qed.

(** The three accumulators of the loop evolve independently. *)
Lemma loop_split (rows : list (Metrics F)) (tc tm : F) (tl : N) :
  fold_left
    (fun '(total_ciclomatic, total_maintainability, total_loc) metrics =>
       (float_iadd total_ciclomatic
          (mul_int (Ciclomatic_Complexity metrics) (Z.of_N (Lines_of_Code metrics))),
        float_iadd total_maintainability
          (mul_int (Maintainability metrics) (Z.of_N (Lines_of_Code metrics))),
        (total_loc + Lines_of_Code metrics)%N))
    rows (tc, tm, tl)
  = (fold_left fadd (map (term (@Ciclomatic_Complexity F)) rows) tc,
     fold_left fadd (map (term (@Maintainability F)) rows) tm,
     (tl + total_lines rows)%N).
Proof.
  revert tc tm tl. induction rows as [| s rows IH]; intros tc tm tl; simpl.
  - rewrite N.add_0_r. reflexivity.
  - rewrite IH. unfold float_iadd, term. f_equal. unfold total_lines. simpl. lia.
Qed.

Lemma loop_closed_form (rows : list (Metrics F)) :
  fold_left
    (fun '(total_ciclomatic, total_maintainability, total_loc) metrics =>
       (float_iadd total_ciclomatic
          (mul_int (Ciclomatic_Complexity metrics) (Z.of_N (Lines_of_Code metrics))),
        float_iadd total_maintainability
          (mul_int (Maintainability metrics) (Z.of_N (Lines_of_Code metrics))),
        (total_loc + Lines_of_Code metrics)%N))
    rows (fzero, fzero, 0%N)
  = (sigma (map (term (@Ciclomatic_Complexity F)) rows),
     sigma (map (term (@Maintainability F)) rows),
     total_lines rows).
Proof.
  rewrite loop_split, !fold_fadd_sigma, N.add_0_l. reflexivity.
Qed.

Context {L : @Lawful F A}.

Lemma float_div_int_ok (total : F) (n : N) :
  n <> 0%N -> float_div_int total (Z.of_N n) = Ok (fdiv total (of_int (Z.of_N n))).
Proof.
  intros Hn. unfold float_div_int.
  rewrite of_int_nonzero by lia. reflexivity.
Qed.

(** Both aggregation sites compute the specified aggregate and return. *)
Lemma project_metrics_spec (rows : list (Metrics F)) :
  project_metrics rows = Ok (spec_aggregate rows).
Proof.
  unfold project_metrics. rewrite loop_closed_form.
  unfold spec_aggregate, weighted.
  destruct (N.eqb_spec (total_lines rows) 0) as [H0 | Hpos].
  - rewrite H0. reflexivity.
  - rewrite !float_div_int_ok by assumption.
    replace (0 <? total_lines rows)%N with true
      by (symmetry; apply N.ltb_lt; lia).
    reflexivity.
Qed.

Lemma date_metrics_row_spec (date : string) (rows : list (Metrics F)) :
  date_metrics_row date rows = Ok (set_Date (spec_aggregate rows) date).
Proof.
  unfold date_metrics_row. rewrite loop_closed_form.
  unfold spec_aggregate, weighted, set_Date; simpl.
  destruct (N.eqb_spec (total_lines rows) 0) as [H0 | Hpos].
  - rewrite H0. reflexivity.
  - rewrite !float_div_int_ok by assumption.
    replace (0 <? total_lines rows)%N with true
      by (symmetry; apply N.ltb_lt; lia).
    reflexivity.
Qed.
End Accumulation.

(** ** binary64: rounding never loses a non-zero value

    [SpecFloat] specifies the primitive operations by rounding an integer
    mantissa at an exponent ([binary_round]).  From an exponent no smaller
    than [emin] the rounded result is a finite number in canonical form or an
    infinity, never a zero or a NaN: the first shift keeps at least [prec]
    bits of the mantissa, and rounding up can only add one bit, which the
    second shift removes. *)
Section Binary64.
Local Open Scope Z_scope.

Lemma digits2_pos_size (p : positive) : digits2_pos p = Pos.size p.
Proof. induction p; simpl; congruence. Qed.

Lemma Zdigits2_log2 (m : Z) : 0 < m -> Zdigits2 m = Z.log2 m + 1.
Proof.
destruct m as [| p | p]; try lia. intros _.
simpl. rewrite digits2_pos_size.
destruct p; simpl; lia.
Qed.

Lemma Zdigits2_mono (a b : Z) : 0 < a -> a <= b -> Zdigits2 a <= Zdigits2 b.
Proof.
intros Ha Hab. rewrite !Zdigits2_log2 by lia.
pose proof (Z.log2_le_mono a b Hab). lia.
Qed.

Lemma shr_1_m (mrs : shr_record) :
0 <= shr_m mrs -> shr_m (shr_1 mrs) = Z.div2 (shr_m mrs).
Proof.
destruct mrs as [m r s]. simpl.
destruct m as [| [p | p |] | p]; simpl; try reflexivity; lia.
Qed.

Lemma iter_shr_1_m (p : positive) (mrs : shr_record) :
0 <= shr_m mrs ->
shr_m (iter_pos shr_1 p mrs) = Z.shiftr (shr_m mrs) (Zpos p).
Proof.
revert mrs. induction p as [p IH | p IH |]; intros mrs Hm; simpl iter_pos.
- assert (H1 : 0 <= shr_m (shr_1 mrs)).
  { rewrite shr_1_m by assumption. rewrite Z.div2_div. apply Z.div_pos; lia. }
  assert (H2 : 0 <= shr_m (iter_pos shr_1 p (shr_1 mrs))).
  { rewrite IH by assumption. apply Z.shiftr_nonneg. assumption. }
  rewrite IH by assumption. rewrite IH by assumption.
  rewrite shr_1_m by assumption. rewrite Z.div2_spec.
  rewrite !Z.shiftr_shiftr by lia. f_equal. lia.
- assert (H2 : 0 <= shr_m (iter_pos shr_1 p mrs)).
  { rewrite IH by assumption. apply Z.shiftr_nonneg. assumption. }
  rewrite IH by assumption. rewrite IH by assumption.
  rewrite !Z.shiftr_shiftr by lia. f_equal. lia.
- rewrite shr_1_m by assumption. apply Z.div2_spec.
Qed.

Lemma shr_record_of_loc_m (m : Z) (l : location) : shr_m (shr_record_of_loc m l) = m.
Proof. destruct l as [| []]; reflexivity. Qed.

Lemma shiftr_pos_digits (m n : Z) :
0 < m -> 0 <= n -> n < Zdigits2 m ->
0 < Z.shiftr m n /\ Zdigits2 (Z.shiftr m n) = Zdigits2 m - n.
Proof.
intros Hm Hn Hlt. rewrite Zdigits2_log2 in Hlt by assumption.
assert (Hpos : 0 < Z.shiftr m n).
{ rewrite Z.shiftr_div_pow2 by assumption.
  apply Z.div_str_pos. split; [apply Z.pow_pos_nonneg; lia |].
  pose proof (Z.log2_spec m Hm) as [Hlo _].
  apply Z.le_trans with (2 ^ Z.log2 m); [| assumption].
  apply Z.pow_le_mono_r; lia. }
split; [assumption |].
rewrite !Zdigits2_log2 by assumption.
rewrite Z.log2_shiftr by assumption. lia.
Qed.

Lemma shr_fexp_aligned (m e : Z) (l : location) :
0 < m -> aligned m e ->
0 < shr_m (fst (shr_fexp prec emax m e l))
/\ snd (shr_fexp prec emax m e l) = fexp prec emax (Zdigits2 m + e)
/\ Zdigits2 (shr_m (fst (shr_fexp prec emax m e l))) + snd (shr_fexp prec emax m e l)
   = Zdigits2 m + e.
Proof.
intros Hm [Hmin Hal]. unfold shr_fexp, shr.
assert (Hd : 0 < Zdigits2 m) by (rewrite Zdigits2_log2 by lia; pose proof (Z.log2_nonneg m); lia).
remember (fexp prec emax (Zdigits2 m + e) - e) as n eqn:Hn.
destruct n as [| p | p].
- simpl. rewrite shr_record_of_loc_m. repeat split; try lia.
- simpl. rewrite iter_shr_1_m by (rewrite shr_record_of_loc_m; lia).
  rewrite shr_record_of_loc_m.
  unfold fexp, emin, prec, emax in *.
  assert (Hp : Z.pos p = Zdigits2 m - 53) by lia.
  destruct (@shiftr_pos_digits m (Z.pos p)) as [H1 H2]; [lia | lia | lia |].
  repeat split; lia.
- lia.
Qed.

Lemma round_nearest_even_bounds (m : Z) (l : location) :
m <= round_nearest_even m l <= m + 1.
Proof.
destruct l as [| []]; simpl; try lia. destruct (Z.even m); lia.
Qed.

Lemma fexp_mono (a b : Z) : a <= b -> fexp prec emax a <= fexp prec emax b.
Proof. unfold fexp. lia. Qed.

Lemma binary_round_aux_valid (s : bool) (m e : Z) (l : location) :
0 < m -> aligned m e ->
match binary_round_aux prec emax s m e l with
| S754_finite s' m' e' => s' = s /\ bounded prec emax m' e' = true
| S754_infinity s' => s' = s
| _ => False
end.
Proof.
intros Hm Hal. unfold binary_round_aux.
destruct (shr_fexp_aligned l Hm Hal) as (H1 & H2 & H3).
destruct (shr_fexp prec emax m e l) as [mrs' e'] eqn:E1. simpl in H1, H2, H3.
set (m2 := round_nearest_even (shr_m mrs') (loc_of_shr_record mrs')).
pose proof (round_nearest_even_bounds (shr_m mrs') (loc_of_shr_record mrs')) as Hr.
fold m2 in Hr.
assert (Hm2 : 0 < m2) by lia.
assert (Hal2 : aligned m2 e').
{ destruct Hal as [Hmin Hle]. split.
  - rewrite H2. unfold fexp. lia.
  - apply Z.le_trans with (fexp prec emax (Zdigits2 (shr_m mrs') + e')).
    + rewrite H3, <- H2. lia.
    + apply fexp_mono. pose proof (Zdigits2_mono H1 (proj1 Hr)). lia. }
destruct (shr_fexp_aligned loc_Exact Hm2 Hal2) as (K1 & K2 & K3).
destruct (shr_fexp prec emax m2 e' loc_Exact) as [mrs'' e''] eqn:E2.
simpl in K1, K2, K3.
destruct (shr_m mrs'') as [| p | p] eqn:E3; try lia.
destruct (Z.leb_spec e'' (emax - prec)) as [Hle | Hgt].
- split; [reflexivity |]. unfold bounded, canonical_mantissa.
  apply andb_true_intro. split.
  + apply Z.eqb_eq. change (Z.pos (digits2_pos p)) with (Zdigits2 (Z.pos p)).
    rewrite K3, <- K2. reflexivity.
  + apply Z.leb_le. assumption.
- reflexivity.
Qed.

Lemma iter_xO_shiftl (m k : positive) : Z.pos (Pos.iter xO m k) = Z.shiftl (Z.pos m) (Z.pos k).
Proof.
simpl. apply (Pos.iter_swap_gen _ _ Z.pos xO (Z.mul 2)). reflexivity.
Qed.

Lemma shl_align_aligned (m : positive) (e : Z) :
emin <= e ->
aligned (Z.pos (fst (shl_align m e (fexp prec emax (Z.pos (digits2_pos m) + e)))))
        (snd (shl_align m e (fexp prec emax (Z.pos (digits2_pos m) + e)))).
Proof.
intros Hmin. unfold shl_align.
change (Z.pos (digits2_pos m)) with (Zdigits2 (Z.pos m)).
remember (fexp prec emax (Zdigits2 (Z.pos m) + e) - e) as n eqn:Hn.
destruct n as [| p | p]; cbn [fst snd].
- split; [assumption | lia].
- split; [assumption | lia].
- rewrite iter_xO_shiftl. split.
  + unfold fexp. lia.
  + assert (Hsh : 0 < Z.shiftl (Z.pos m) (Z.pos p)).
    { rewrite Z.shiftl_mul_pow2 by lia.
      apply Z.mul_pos_pos; [lia |]. apply Z.pow_pos_nonneg; lia. }
    rewrite (Zdigits2_log2 Hsh).
    rewrite Z.log2_shiftl by lia.
    rewrite Zdigits2_log2 in Hn by lia.
    rewrite Zdigits2_log2 by lia.
    replace (Z.log2 (Z.pos m) + Z.pos p + 1 + fexp prec emax (Z.log2 (Z.pos m) + 1 + e))
      with (Z.log2 (Z.pos m) + 1 + e) by lia.
    lia.
Qed.

Lemma binary_round_valid (s : bool) (m : positive) (e : Z) :
emin <= e ->
match binary_round prec emax s m e with
| S754_finite s' m' e' => s' = s /\ bounded prec emax m' e' = true
| S754_infinity s' => s' = s
| _ => False
end.
Proof.
intros Hmin. unfold binary_round.
pose proof (shl_align_aligned m Hmin) as Hal.
destruct (shl_align m e _) as [mz ez]. simpl in Hal.
apply binary_round_aux_valid; [lia | assumption].
Qed.

Lemma emin_le_0 : emin <= 0.
Proof. unfold emin, prec, emax. lia. Qed.

Lemma binary_normalize_valid (n e : Z) (szero : bool) :
emin <= e -> valid_binary (binary_normalize prec emax n e szero) = true.
Proof.
intros He. destruct n as [| p | p]; simpl; [reflexivity | |].
- pose proof (binary_round_valid false p He) as H.
  destruct (binary_round prec emax false p e); simpl; tauto.
- pose proof (binary_round_valid true p He) as H.
  destruct (binary_round prec emax true p e); simpl; tauto.
Qed.

Lemma binary_normalize_nonzero (n e : Z) (szero : bool) :
emin <= e -> n <> 0 ->
forall s, binary_normalize prec emax n e szero <> S754_zero s.
Proof.
intros He Hn s. destruct n as [| p | p]; simpl; [lia | |].
- pose proof (binary_round_valid false p He) as H.
  destruct (binary_round prec emax false p e); try discriminate; tauto.
- pose proof (binary_round_valid true p He) as H.
  destruct (binary_round prec emax true p e); try discriminate; tauto.
Qed.

Lemma binary_normalize_not_nan (n e : Z) (szero : bool) :
emin <= e -> binary_normalize prec emax n e szero <> S754_nan.
Proof.
intros He. destruct n as [| p | p]; simpl; [discriminate | |].
- pose proof (binary_round_valid false p He) as H.
  destruct (binary_round prec emax false p e); try discriminate; tauto.
- pose proof (binary_round_valid true p He) as H.
  destruct (binary_round prec emax true p e); try discriminate; tauto.
Qed.

Lemma Prim2SF_float_of_int (n : Z) :
Prim2SF (float_of_int n) = binary_normalize prec emax n 0 false.
Proof.
unfold float_of_int. apply Prim2SF_SF2Prim.
apply binary_normalize_valid, emin_le_0.
Qed.

Lemma float_of_int_nonzero (n : Z) :
n <> 0 -> PrimFloat.eqb (float_of_int n) PrimFloat.zero = false.
Proof.
intros Hn. rewrite FloatAxioms.eqb_spec, Prim2SF_float_of_int.
pose proof (@binary_normalize_nonzero n 0 false emin_le_0 Hn) as Hz.
pose proof (@binary_normalize_not_nan n 0 false emin_le_0) as Hnan.
change (Prim2SF PrimFloat.zero) with (S754_zero false).
destruct (binary_normalize prec emax n 0 false) as [s | s | | s m e].
- exfalso. apply (Hz s). reflexivity.
- destruct s; reflexivity.
- exfalso. apply Hnan. reflexivity.
- destruct s; reflexivity.
Qed.

Lemma valid_emin (x : float) (s : bool) (m : positive) (e : Z) :
Prim2SF x = S754_finite s m e -> emin <= e.
Proof.
intros Hx. pose proof (Prim2SF_valid x) as Hv. rewrite Hx in Hv.
simpl in Hv. unfold bounded, canonical_mantissa in Hv.
apply andb_prop in Hv. destruct Hv as [Hc _].
apply Z.eqb_eq in Hc. unfold fexp in Hc. lia.
Qed.

Lemma binary_normalize_not_neg_zero (n e : Z) :
emin <= e -> binary_normalize prec emax n e false <> S754_zero true.
Proof.
intros He. destruct (Z.eq_dec n 0) as [-> | Hn].
- discriminate.
- apply binary_normalize_nonzero; assumption.
Qed.

Lemma add_not_neg_zero (x y : float) :
not_neg_zero x -> not_neg_zero (x + y)%float.
Proof.
unfold not_neg_zero. intros Hx. rewrite add_spec. unfold SF64add.
destruct (Prim2SF x) as [sx | sx | | sx mx ex] eqn:Ex;
  destruct (Prim2SF y) as [sy | sy | | sy my ey] eqn:Ey;
  simpl; try discriminate.
- destruct sx, sy; try discriminate. exfalso. apply Hx. reflexivity.
- destruct sx, sy; discriminate.
- apply binary_normalize_not_neg_zero.
  pose proof (valid_emin x Ex). pose proof (valid_emin y Ey). lia.
Qed.

Lemma add_zero_r (x z : float) :
not_neg_zero x -> (exists s, Prim2SF z = S754_zero s) -> (x + z)%float = x.
Proof.
unfold not_neg_zero. intros Hx [s Hz].
apply Prim2SF_inj. rewrite add_spec, Hz. unfold SF64add.
destruct (Prim2SF x) as [sx | sx | | sx mx ex]; simpl; try reflexivity.
destruct sx, s; try reflexivity. exfalso. apply Hx. reflexivity.
Qed.
End Binary64.

#[export] Instance binary64_lawful : @Lawful float binary64.
Proof.
  constructor. exact float_of_int_nonzero.
Qed.

Lemma exact_of_int_nonzero (n : Z) :
  n <> 0%Z -> Qc_eq_bool (Q2Qc (inject_Z n)) (Q2Qc 0) = false.
Proof.
  intros Hn. destruct (Qc_eq_bool (Q2Qc (inject_Z n)) (Q2Qc 0)) eqn:E; [| reflexivity].
  apply Qc_eq_bool_correct, Q2Qc_eq_iff in E.
  unfold Qeq in E. simpl in E. lia.
Qed.

#[export] Instance exact_lawful : @Lawful Qc exact.
Proof.
  constructor. exact exact_of_int_nonzero.
Qed.

(** ** The aggregate *)

(** C1.  In binary64, the arithmetic the program runs on: both aggregation
    sites return a row for every list of samples, so the guarded division
    never raises [ZeroDivisionError]; and when the lines of code of the
    samples sum to zero (the empty list included) the row holds complexity
    [0], maintainability [0] and lines of code [0]. *)
Theorem zero_total_yields_zero_row (samples : list (Metrics float)) (date : string) :
  (exists row, project_metrics samples = Ok row)
  /\ (exists row, date_metrics_row date samples = Ok row)
  /\ (total_lines samples = 0%N ->
      project_metrics samples
      = Ok {| File := None; Date := None; Ciclomatic_Complexity := PyInt 0;
              Maintainability := PyInt 0; Lines_of_Code := 0 |}
      /\ date_metrics_row date samples
         = Ok {| File := None; Date := Some date; Ciclomatic_Complexity := PyInt 0;
                 Maintainability := PyInt 0; Lines_of_Code := 0 |}).
Proof.
  rewrite project_metrics_spec, date_metrics_row_spec.
  split; [eexists; reflexivity |]. split; [eexists; reflexivity |].
  intros H0. unfold spec_aggregate, weighted, set_Date. simpl.
  rewrite H0. split; reflexivity.
Qed.

(** Two files without a line of code but with non-zero metrics. *)
Lemma zero_total_yields_zero_row_witness :
  project_metrics
    [ {| File := Some "a"%string; Date := None; Ciclomatic_Complexity := PyFloat 1.5%float;
         Maintainability := PyFloat 100%float; Lines_of_Code := 0 |};
      {| File := Some "b"%string; Date := None; Ciclomatic_Complexity := PyInt 2;
         Maintainability := PyFloat 62.5%float; Lines_of_Code := 0 |} ]
  = Ok {| File := None; Date := None; Ciclomatic_Complexity := PyInt 0;
          Maintainability := PyInt 0; Lines_of_Code := 0 |}.
Proof.
  apply (proj2 (proj2 (zero_total_yields_zero_row _ "2024-01-01 00:00:00"%string))).
  reflexivity.
Defined.

(** C2.  In binary64: when the lines of code sum to a positive total, both
    aggregation sites return the row whose lines of code are [Σ loc_i] and
    whose complexity and maintainability are each [(Σ x_i · loc_i) / total],
    the two weighted means being computed independently of each other. *)
Theorem positive_total_yields_weighted_mean (samples : list (Metrics float)) (date : string) :
  (0 < total_lines samples)%N ->
  project_metrics samples
  = Ok {| File := None; Date := None;
          Ciclomatic_Complexity :=
            PyFloat (fdiv (sigma (map (term (@Ciclomatic_Complexity float)) samples))
                          (of_int (Z.of_N (total_lines samples))));
          Maintainability :=
            PyFloat (fdiv (sigma (map (term (@Maintainability float)) samples))
                          (of_int (Z.of_N (total_lines samples))));
          Lines_of_Code := total_lines samples |}
  /\ date_metrics_row date samples
     = Ok {| File := None; Date := Some date;
             Ciclomatic_Complexity :=
               PyFloat (fdiv (sigma (map (term (@Ciclomatic_Complexity float)) samples))
                             (of_int (Z.of_N (total_lines samples))));
             Maintainability :=
               PyFloat (fdiv (sigma (map (term (@Maintainability float)) samples))
                             (of_int (Z.of_N (total_lines samples))));
             Lines_of_Code := total_lines samples |}.
Proof.
  intros Hpos. rewrite project_metrics_spec, date_metrics_row_spec.
  unfold spec_aggregate, weighted, set_Date. simpl.
  apply N.ltb_lt in Hpos. rewrite Hpos. split; reflexivity.
Qed.

(** Two files of 10 and 30 lines: complexities 1 and 3, maintainability 80
    and 60; the weighted means are 2.5 and 65 over 40 lines. *)
Lemma positive_total_yields_weighted_mean_witness :
  project_metrics
    [ {| File := Some "a"%string; Date := None; Ciclomatic_Complexity := PyInt 1;
         Maintainability := PyFloat 80%float; Lines_of_Code := 10 |};
      {| File := Some "b"%string; Date := None; Ciclomatic_Complexity := PyFloat 3%float;
         Maintainability := PyFloat 60%float; Lines_of_Code := 30 |} ]
  = Ok {| File := None; Date := None; Ciclomatic_Complexity := PyFloat 2.5%float;
          Maintainability := PyFloat 65%float; Lines_of_Code := 40 |}.
Proof.
  refine (eq_trans
            (proj1 (@positive_total_yields_weighted_mean _ "2024-01-01 00:00:00"%string _)) _).
  - reflexivity.
  - vm_compute. reflexivity.
Defined.

(** ** Metric extraction *)

Section Extraction.
Context {F : Type} {A : Arith F} {E : Externals F}.

Lemma _calculate_metrics_spec (file_content file_name : string) (out : list string) :
  _calculate_metrics file_content file_name out
  = (Ok (metrics_of file_content), out ++ diagnostic file_content file_name).
Proof.
  unfold _calculate_metrics, _calculate_metrics_on, metrics_of, diagnostic, bind,
    try_except, lift, print_to, obliging, ret.
  destruct (extract file_content) as [[[c m] l] | err]; simpl.
  - rewrite app_nil_r. reflexivity.
  - reflexivity.
Qed.

(** A failure of any analysis step makes the [try] block raise. *)
Lemma extract_raises (file_content : string) :
  (exists err, cc_visit file_content = Raise err)
  \/ (exists blocks err, cc_visit file_content = Ok blocks /\ blocks <> []
                         /\ mean (map complexity blocks) = Raise err)
  \/ (exists err, mi_visit file_content = Raise err)
  \/ (exists err, analyze file_content = Raise err) ->
  exists err, extract file_content = Raise err.
Proof.
  unfold extract. intros H.
  destruct (cc_visit file_content) as [blocks | e0]; [| eexists; reflexivity].
  destruct (if (0 <? List.length blocks)%nat then mean (map complexity blocks) else Ok (PyInt 0))
    as [c | e1] eqn:Ec; [| eexists; reflexivity].
  destruct (mi_visit file_content) as [m | e2]; [| eexists; reflexivity].
  destruct (analyze file_content) as [raw | e3]; [| eexists; reflexivity].
  exfalso.
  destruct H as [[err H] | [(bs & err & Hb & Hne & Hm) | [[err H] | [err H]]]];
    try discriminate.
  injection Hb as <-. destruct blocks as [| b blocks]; [congruence |].
  simpl in Ec. simpl in Hm. congruence.
Qed.

(** C3, amended.  What the analysis raises never reaches the caller of
    [_calculate_metrics]: when an analysis step raises (the complexity visit,
    the mean of the block complexities, the maintainability index or the raw
    line count) the handler prints one line, made of the file label and the
    text of the error, and the sample is the all-zero one.  The [print] of
    the handler is not guarded: the one exception that can leave the method
    is the one the stream raises on that line, and then nothing is printed.
    When the analysis succeeds the stream is not used.  On a stream that
    takes every line the method returns for every content and label. *)
Theorem analysis_failure_is_caught (stdout : Stdout) (file_content file_name : string)
    (out : list string) :
  (forall cyclomatic_complexity maintainability num_lines_of_code,
      extract file_content = Ok (cyclomatic_complexity, maintainability, num_lines_of_code) ->
      _calculate_metrics_on stdout file_content file_name out
      = (Ok {| File := None; Date := None;
               Ciclomatic_Complexity := cyclomatic_complexity;
               Maintainability := maintainability;
               Lines_of_Code := num_lines_of_code |}, out))
  /\ (forall err, extract file_content = Raise err ->
        _calculate_metrics_on stdout file_content file_name out
        = match stdout out ("Error in " ++ file_name ++ ": " ++ str err)%string with
          | Ok _ =>
              (Ok {| File := None; Date := None;
                     Ciclomatic_Complexity := PyInt 0; Maintainability := PyInt 0;
                     Lines_of_Code := 0 |},
               out ++ ["Error in " ++ file_name ++ ": " ++ str err]%string)
          | Raise printing => (Raise printing, out)
          end)
  /\ ((exists err, cc_visit file_content = Raise err)
      \/ (exists blocks err, cc_visit file_content = Ok blocks /\ blocks <> []
                             /\ mean (map complexity blocks) = Raise err)
      \/ (exists err, mi_visit file_content = Raise err)
      \/ (exists err, analyze file_content = Raise err) ->
      exists err, extract file_content = Raise err)
  /\ (forall printing out',
        _calculate_metrics_on stdout file_content file_name out = (Raise printing, out') ->
        out' = out
        /\ exists err,
             extract file_content = Raise err
             /\ stdout out ("Error in " ++ file_name ++ ": " ++ str err)%string
                = Raise printing)
  /\ (exists metrics out',
         _calculate_metrics file_content file_name out = (Ok metrics, out')).
Proof.
  assert (Hok : forall c m l, extract file_content = Ok (c, m, l) ->
            _calculate_metrics_on stdout file_content file_name out
            = (Ok {| File := None; Date := None; Ciclomatic_Complexity := c;
                     Maintainability := m; Lines_of_Code := l |}, out)).
  { intros c m l Hex.
    unfold _calculate_metrics_on, bind, try_except, lift, ret. rewrite Hex. reflexivity. }
  assert (Hcaught : forall err, extract file_content = Raise err ->
            _calculate_metrics_on stdout file_content file_name out
            = match stdout out ("Error in " ++ file_name ++ ": " ++ str err)%string with
              | Ok _ =>
                  (Ok {| File := None; Date := None;
                         Ciclomatic_Complexity := PyInt 0; Maintainability := PyInt 0;
                         Lines_of_Code := 0 |},
                   out ++ ["Error in " ++ file_name ++ ": " ++ str err]%string)
              | Raise printing => (Raise printing, out)
              end).
  { intros err Hex.
    unfold _calculate_metrics_on, bind, try_except, lift, print_to, ret. rewrite Hex.
    destruct (stdout out _); reflexivity. }
  split; [exact Hok |]. split; [exact Hcaught |]. split; [apply extract_raises |]. split.
  - intros printing out' Hrun.
    destruct (extract file_content) as [[[c m] l] | err] eqn:Hex.
    + rewrite (Hok c m l eq_refl) in Hrun. discriminate.
    + rewrite (Hcaught err eq_refl) in Hrun.
      destruct (stdout out _) as [[] | printing'] eqn:Hprint; [discriminate |].
      injection Hrun as <- <-. split; [reflexivity |]. exists err. split; [reflexivity | exact Hprint].
  - rewrite _calculate_metrics_spec. eexists. eexists. reflexivity.
Qed.
End Extraction.

(** C3, as stated, fails.  An unparsable file whose name holds a character
    outside ASCII, on a standard output encoded in ASCII: the handler's
    [print] raises [UnicodeEncodeError], and that exception leaves
    [_calculate_metrics]. *)
Lemma diagnostic_print_raises :
  _calculate_metrics_on (E := unparsable) ascii_stdout "def f(:"
    ("caf" ++ String "233" EmptyString) []
  = (Raise (Exception
              "'ascii' codec can't encode character '\xe9' in position 12: ordinal not in range(128)"),
     []).
Proof. reflexivity. Qed.

(** An unparsable file with an ASCII name on the same stream: the all-zero
    sample and one printed line. *)
Lemma analysis_failure_is_caught_witness :
  _calculate_metrics_on (E := unparsable) ascii_stdout "def f(:" "broken" []
  = (Ok {| File := None; Date := None;
           Ciclomatic_Complexity := PyInt 0; Maintainability := PyInt 0;
           Lines_of_Code := 0 |},
     ["Error in broken: invalid syntax (<unknown>, line 1)"%string]).
Proof.
  apply (proj1 (proj2 (@analysis_failure_is_caught float unparsable ascii_stdout
                         "def f(:" "broken" []))
           (Exception "invalid syntax (<unknown>, line 1)")).
  reflexivity.
Defined.

(** [os.path.splitext] and [str.endswith] on a few names. *)
Example splitext_examples :
  splitext "__init__.py" = ("__init__", ".py")%string
  /\ splitext "util.test.py" = ("util.test", ".py")%string
  /\ splitext ".py" = (".py", "")%string
  /\ splitext "Makefile" = ("Makefile", "")%string
  /\ endswith "pkg/core.py" ".py" = true
  /\ endswith "pkg/core.pyc" ".py" = false.
Proof. repeat split; reflexivity. Qed.

(** ** Dictionaries *)

Section Dict.
Context {V : Type}.

Lemma dict_get_append (d : dict V) (k : string) (v : V) (k' : string) :
  dict_get (dict_append d k v) k'
  = if String.eqb k k' then dict_get d k' ++ [v] else dict_get d k'.
Proof.
  induction d as [| [k0 vs] d IH]; simpl.
  - destruct (String.eqb k k'); reflexivity.
  - destruct (String.eqb_spec k0 k) as [-> | Hne]; simpl.
    + destruct (String.eqb k k'); reflexivity.
    + rewrite IH. destruct (String.eqb_spec k0 k') as [-> | Hne'].
      * rewrite (proj2 (String.eqb_neq k k')) by congruence. reflexivity.
      * reflexivity.
Qed.

Lemma keys_append (d : dict V) (k : string) (v : V) :
  keys (dict_append d k v) = if existsb (String.eqb k) (keys d) then keys d else keys d ++ [k].
Proof.
  unfold keys. induction d as [| [k0 vs] d IH]; simpl.
  - reflexivity.
  - rewrite (String.eqb_sym k k0).
    destruct (String.eqb k0 k); simpl.
    + reflexivity.
    + rewrite IH. destruct (existsb (String.eqb k) (map fst d)); reflexivity.
Qed.

Lemma existsb_eqb_In (k : string) (l : list string) :
  existsb (String.eqb k) l = true <-> In k l.
Proof.
  rewrite existsb_exists. split.
  - intros (x & Hin & Heq). apply String.eqb_eq in Heq. subst. assumption.
  - intros Hin. exists k. split; [assumption | apply String.eqb_refl].
Qed.

Lemma In_keys_append (d : dict V) (k : string) (v : V) (k' : string) :
  In k' (keys (dict_append d k v)) <-> k' = k \/ In k' (keys d).
Proof.
  rewrite keys_append.
  destruct (existsb (String.eqb k) (keys d)) eqn:Ex.
  - apply existsb_eqb_In in Ex. split; [tauto |]. intros [-> | H]; assumption.
  - rewrite in_app_iff. simpl. split; [intros [H | [H | []]]; auto | intros [H | H]; auto].
Qed.

Lemma NoDup_keys_append (d : dict V) (k : string) (v : V) :
  NoDup (keys d) -> NoDup (keys (dict_append d k v)).
Proof.
  intros Hnd. rewrite keys_append.
  destruct (existsb (String.eqb k) (keys d)) eqn:Ex; [assumption |].
  apply NoDup_app; [assumption | repeat constructor; simpl; tauto |].
  intros x Hx [<- | []].
  apply existsb_eqb_In in Hx. congruence.
Qed.

Lemma dict_append_fresh (d : dict V) (k : string) (v : V) :
  ~ In k (keys d) -> dict_append d k v = d ++ [(k, [v])].
Proof.
  unfold keys. induction d as [| [k0 vs] d IH]; simpl; intros Hnin.
  - reflexivity.
  - destruct (String.eqb_spec k0 k) as [-> | Hne]; [tauto |].
    rewrite IH by tauto. reflexivity.
Qed.

(** Every list stored in a dictionary built by appending is non-empty. *)
Lemma nonempty_append (d : dict V) (k : string) (v : V) :
  Forall (fun kv => snd kv <> []) d ->
  Forall (fun kv => snd kv <> []) (dict_append d k v).
Proof.
  induction d as [| [k0 vs] d IH]; simpl; intros Hall.
  - constructor; [discriminate | constructor].
  - inversion Hall as [| ? ? H1 H2]; subst.
    destruct (String.eqb k0 k).
    + constructor; [| assumption]. simpl. destruct vs; discriminate.
    + constructor; [assumption | apply IH; assumption].
Qed.

Lemma values_append_perm (d : dict V) (k : string) (v : V) :
  Permutation (List.concat (values (dict_append d k v))) (List.concat (values d) ++ [v]).
Proof.
  unfold values. induction d as [| [k0 vs] d IH]; simpl.
  - reflexivity.
  - destruct (String.eqb k0 k); simpl.
    + rewrite <- !app_assoc. apply Permutation_app_head.
      apply Permutation_app_comm.
    + rewrite <- app_assoc. apply Permutation_app_head. exact IH.
Qed.
End Dict.

(** ** The history walk *)

Lemma for_each_fold {X S : Type} (body : S -> X -> IO S) (f : S -> X -> S) :
  (forall acc x out, exists out', body acc x out = (Ok (f acc x), out')) ->
  forall xs acc out, exists out', for_each body xs acc out = (Ok (fold_left f xs acc), out').
Proof.
  intros Hbody xs. induction xs as [| x xs IH]; intros acc out; simpl.
  - exists out. reflexivity.
  - unfold bind. destruct (Hbody acc x out) as [out1 H1]. rewrite H1.
    apply IH.
Qed.

Lemma fold_left_map {X Y S : Type} (f : S -> Y -> S) (g : X -> Y) (xs : list X) (acc : S) :
  fold_left f (map g xs) acc = fold_left (fun a x => f a (g x)) xs acc.
Proof.
  revert acc. induction xs as [| x xs IH]; intros acc; simpl; [reflexivity | apply IH].
Qed.

Lemma fold_left_flat_map {X Y S : Type} (f : S -> Y -> S) (g : X -> list Y)
    (xs : list X) (acc : S) :
  fold_left f (flat_map g xs) acc = fold_left (fun a x => fold_left f (g x) a) xs acc.
Proof.
  revert acc. induction xs as [| x xs IH]; intros acc; simpl.
  - reflexivity.
  - rewrite fold_left_app. apply IH.
Qed.

Lemma fold_left_filter {X S : Type} (f : S -> X -> S) (p : X -> bool) (xs : list X) (acc : S) :
  fold_left f (filter p xs) acc = fold_left (fun a x => if p x then f a x else a) xs acc.
Proof.
  revert acc. induction xs as [| x xs IH]; intros acc; simpl.
  - reflexivity.
  - destruct (p x); simpl; apply IH.
Qed.

Section Walk.
Context {F : Type} {A : Arith F} {E : Externals F}.

Lemma visit_item_spec (repo : Repo) (commit : Commit) (history : dict (Metrics F))
    (item : Item) (out : list string) :
  exists out',
    visit_item repo commit history item out
    = (Ok (if contributes repo (commit, item)
           then add_entry repo history (commit, item) else history), out').
Proof.
  unfold visit_item, contributes, excluded, add_entry, sample_of, content_at, stem, is_source.
  cbn [fst snd].
  destruct (String.eqb (type item) "blob" && endswith (path item) ".py"); cbn [andb].
  - match goal with |- context [negb ?c] => destruct c end; cbn [negb].
    + exists out. reflexivity.
    + unfold bind. rewrite _calculate_metrics_spec. eexists. reflexivity.
  - exists out. reflexivity.
Qed.

Lemma _generate_history_metrics_by_file_spec (repo : Repo) (max_count : option Z)
    (out : list string) :
  exists out',
    _generate_history_metrics_by_file repo max_count out
    = (Ok (history_of repo max_count), out').
Proof.
  unfold _generate_history_metrics_by_file, history_of, entries.
  rewrite fold_left_filter, fold_left_flat_map.
  apply for_each_fold. intros acc commit out0.
  rewrite fold_left_map.
  apply (for_each_fold (visit_item repo commit)
           (fun a item => if contributes repo (commit, item)
                          then add_entry repo a (commit, item) else a)).
  intros acc' item out1. apply visit_item_spec.
Qed.

Lemma dict_get_fold_add (repo : Repo) (es : list (Commit * Item)) (d : dict (Metrics F))
    (k : string) :
  dict_get (fold_left (add_entry repo) es d) k
  = dict_get d k
    ++ map (sample_of repo) (filter (fun e => String.eqb (stem (snd e)) k) es).
Proof.
  revert d. induction es as [| e es IH]; intros d; simpl.
  - rewrite app_nil_r. reflexivity.
  - rewrite IH. unfold add_entry. rewrite dict_get_append.
    destruct (String.eqb (stem (snd e)) k); simpl.
    + rewrite <- app_assoc. reflexivity.
    + reflexivity.
Qed.

Lemma In_keys_fold_add (repo : Repo) (es : list (Commit * Item)) (d : dict (Metrics F))
    (k : string) :
  In k (keys (fold_left (add_entry repo) es d))
  <-> In k (keys d) \/ exists e, In e es /\ stem (snd e) = k.
Proof.
  revert d. induction es as [| e es IH]; intros d; simpl.
  - split; [tauto | intros [H | (e & [] & _)]; assumption].
  - rewrite IH. unfold add_entry. rewrite In_keys_append. split.
    + intros [[-> | H] | (e' & Hin & Hst)].
      * right. exists e. tauto.
      * tauto.
      * right. exists e'. tauto.
    + intros [H | (e' & [<- | Hin] & Hst)].
      * tauto.
      * left. left. symmetry. assumption.
      * right. exists e'. tauto.
Qed.

Lemma NoDup_keys_fold_add (repo : Repo) (es : list (Commit * Item)) (d : dict (Metrics F)) :
  NoDup (keys d) -> NoDup (keys (fold_left (add_entry repo) es d)).
Proof.
  revert d. induction es as [| e es IH]; intros d Hnd; simpl.
  - assumption.
  - apply IH. apply NoDup_keys_append. assumption.
Qed.

Lemma values_fold_add_perm (repo : Repo) (es : list (Commit * Item)) (d : dict (Metrics F)) :
  Permutation (List.concat (values (fold_left (add_entry repo) es d)))
              (List.concat (values d) ++ map (sample_of repo) es).
Proof.
  revert d. induction es as [| e es IH]; intros d; simpl.
  - rewrite app_nil_r. reflexivity.
  - rewrite IH. unfold add_entry. rewrite values_append_perm.
    rewrite <- app_assoc. reflexivity.
Qed.

Lemma nonempty_fold_add (repo : Repo) (es : list (Commit * Item)) (d : dict (Metrics F)) :
  Forall (fun kv => snd kv <> []) d ->
  Forall (fun kv => snd kv <> []) (fold_left (add_entry repo) es d).
Proof.
  revert d. induction es as [| e es IH]; intros d Hd; simpl.
  - assumption.
  - apply IH. apply nonempty_append. assumption.
Qed.

Lemma contributes_not_init (repo : Repo) (e : Commit * Item) :
  contributes repo e = true ->
  stem (snd e) <> "__init__"%string
  /\ content_at repo (fst e) (snd e) <> EmptyString
  /\ is_source (snd e) = true.
Proof.
  unfold contributes, excluded. intros H.
  apply andb_prop in H. destruct H as [Hsrc Hex].
  apply negb_true_iff, orb_false_elim in Hex. destruct Hex as [Hlen Hinit].
  split; [apply String.eqb_neq; assumption |].
  split; [| assumption].
  intros Hc. rewrite Hc in Hlen. discriminate.
Qed.

(** C5.  For every repository and commit limit the walk returns the history
    in which the series of a stem holds, in visiting order, exactly one sample
    for every visited entry that is a source file ([blob] with suffix [.py]),
    has that stem, and is not excluded; an entry is excluded when its content
    at the commit is empty or its stem is [__init__].  Hence [__init__] is
    never a key of the history, no sample comes from an empty content, and the
    history holds as many samples as there are qualifying entries. *)
Theorem walk_skips_init_and_empty (repo : Repo) (max_count : option Z) (out : list string) :
  exists history out',
    _generate_history_metrics_by_file repo max_count out = (Ok history, out')
    /\ (forall k,
           dict_get history k
           = map (sample_of repo)
               (filter (fun e => String.eqb (stem (snd e)) k)
                  (filter (fun e => is_source (snd e) && negb (excluded repo (fst e) (snd e)))
                     (entries repo max_count))))
    /\ (forall k,
           In k (keys history) <->
           exists e, In e (entries repo max_count)
                     /\ is_source (snd e) = true
                     /\ stem (snd e) <> "__init__"%string
                     /\ content_at repo (fst e) (snd e) <> EmptyString
                     /\ stem (snd e) = k)
    /\ ~ In "__init__"%string (keys history)
    /\ List.length (List.concat (values history))
       = List.length
           (filter (fun e => is_source (snd e) && negb (excluded repo (fst e) (snd e)))
              (entries repo max_count)).
Proof.
  destruct (_generate_history_metrics_by_file_spec repo max_count out) as [out' Hrun].
  exists (history_of repo max_count), out'.
  split; [exact Hrun |].
  assert (Hkeys : forall k,
             In k (keys (history_of repo max_count)) <->
             exists e, In e (entries repo max_count)
                       /\ is_source (snd e) = true
                       /\ stem (snd e) <> "__init__"%string
                       /\ content_at repo (fst e) (snd e) <> EmptyString
                       /\ stem (snd e) = k).
  { intros k. unfold history_of. rewrite In_keys_fold_add. simpl. split.
    - intros [[] | (e & Hin & Hst)]. apply filter_In in Hin. destruct Hin as [Hin Hc].
      destruct (contributes_not_init repo e Hc) as (H1 & H2 & H3).
      exists e. tauto.
    - intros (e & Hin & Hsrc & Hni & Hne & Hst). right. exists e.
      split; [| assumption]. apply filter_In. split; [assumption |].
      unfold contributes, excluded. rewrite Hsrc. simpl.
      apply negb_true_iff, orb_false_intro.
      + destruct (content_at repo (fst e) (snd e)); [congruence | reflexivity].
      + apply String.eqb_neq. assumption. }
  split; [| split; [exact Hkeys | split]].
  - intros k. unfold history_of. rewrite dict_get_fold_add. reflexivity.
  - intros Hin. apply Hkeys in Hin. destruct Hin as (e & _ & _ & Hni & _ & Hst).
    congruence.
  - unfold history_of.
    rewrite (Permutation_length (values_fold_add_perm repo _ [])).
    simpl. rewrite length_map. reflexivity.
Qed.
End Walk.

(** The walk over [distinct_stem_repo]: of the six entries of its commit, the
    two source files with content and a stem other than [__init__] are kept;
    the date is the formatted commit time. *)
Example walk_distinct_stem_repo :
  _generate_history_metrics_by_file (E := stand_in) distinct_stem_repo None []
  = (Ok [ ("setup"%string,
           [ {| File := None; Date := Some "2023-11-14 22:13:20"%string;
                Ciclomatic_Complexity := PyInt 1;
                Maintainability := PyFloat 100%float; Lines_of_Code := 1 |} ]);
          ("core"%string,
           [ {| File := None; Date := Some "2023-11-14 22:13:20"%string;
                Ciclomatic_Complexity := PyInt 1;
                Maintainability := PyFloat 100%float; Lines_of_Code := 1 |} ]) ],
     []).
Proof. vm_compute. reflexivity. Qed.

(** ** Date strings

    Every field of the format has a fixed width, so the strings compare like
    the date-times they print. *)

Lemma digit_compare (a b : nat) :
  (a < 10)%nat -> (b < 10)%nat -> Ascii.compare (digit a) (digit b) = Nat.compare a b.
Proof.
  intros Ha Hb. unfold Ascii.compare, digit, ascii_of_nat.
  rewrite !Nat.mod_small by assumption.
  rewrite !N_ascii_embedding by lia.
  rewrite <- Nat2N.inj_compare.
  destruct (Nat.compare_spec a b) as [H | H | H];
    [apply Nat.compare_eq_iff | apply Nat.compare_lt_iff | apply Nat.compare_gt_iff]; lia.
Qed.

Lemma compare_by_tens (n m : nat) :
  Nat.compare n m
  = match Nat.compare (n / 10) (m / 10) with
    | Eq => Nat.compare (n mod 10) (m mod 10)
    | c => c
    end.
Proof.
  pose proof (Nat.div_mod_eq n 10) as Hn. pose proof (Nat.div_mod_eq m 10) as Hm.
  pose proof (Nat.mod_upper_bound n 10) as Hn'. pose proof (Nat.mod_upper_bound m 10) as Hm'.
  destruct (Nat.compare_spec (n / 10) (m / 10)) as [H | H | H].
  - destruct (Nat.compare_spec (n mod 10) (m mod 10)) as [K | K | K];
      [apply Nat.compare_eq_iff | apply Nat.compare_lt_iff | apply Nat.compare_gt_iff]; lia.
  - apply Nat.compare_lt_iff. lia.
  - apply Nat.compare_gt_iff. lia.
Qed.

Lemma compare_by_hundreds (n m : nat) :
  Nat.compare n m
  = match Nat.compare (n / 100) (m / 100) with
    | Eq => Nat.compare (n mod 100) (m mod 100)
    | c => c
    end.
Proof.
  pose proof (Nat.div_mod_eq n 100) as Hn. pose proof (Nat.div_mod_eq m 100) as Hm.
  pose proof (Nat.mod_upper_bound n 100) as Hn'. pose proof (Nat.mod_upper_bound m 100) as Hm'.
  destruct (Nat.compare_spec (n / 100) (m / 100)) as [H | H | H].
  - destruct (Nat.compare_spec (n mod 100) (m mod 100)) as [K | K | K];
      [apply Nat.compare_eq_iff | apply Nat.compare_lt_iff | apply Nat.compare_gt_iff]; lia.
  - apply Nat.compare_lt_iff. lia.
  - apply Nat.compare_gt_iff. lia.
Qed.

(** Two zero-padded digits in front of two strings compare like the numbers
    they print, then like the rest. *)
Lemma two_digits_compare (n m : nat) (s t : string) :
  (n < 100)%nat -> (m < 100)%nat ->
  String.compare (two_digits n ++ s) (two_digits m ++ t)
  = match Nat.compare n m with
    | Eq => String.compare s t
    | c => c
    end.
Proof.
  intros Hn Hm. unfold two_digits. cbn [String.append String.compare].
  assert (Hn1 : (n / 10 < 10)%nat) by (apply Nat.Div0.div_lt_upper_bound; lia).
  assert (Hm1 : (m / 10 < 10)%nat) by (apply Nat.Div0.div_lt_upper_bound; lia).
  rewrite (digit_compare Hn1 Hm1).
  assert (Hd : forall k, digit k = digit (k mod 10)).
  { intros k. unfold digit. rewrite Nat.Div0.mod_mod. reflexivity. }
  rewrite (Hd n), (Hd m).
  rewrite digit_compare by (apply Nat.mod_upper_bound; lia).
  rewrite (compare_by_tens n m).
  destruct (Nat.compare (n / 10) (m / 10)); reflexivity.
Qed.

Lemma four_digits_compare (n m : nat) (s t : string) :
  (n < 100 * 100)%nat -> (m < 100 * 100)%nat ->
  String.compare (four_digits n ++ s) (four_digits m ++ t)
  = match Nat.compare n m with
    | Eq => String.compare s t
    | c => c
    end.
Proof.
  intros Hn Hm.
  change (four_digits n ++ s)%string
    with (two_digits (n / 100) ++ (two_digits (n mod 100) ++ s))%string.
  change (four_digits m ++ t)%string
    with (two_digits (m / 100) ++ (two_digits (m mod 100) ++ t))%string.
  rewrite two_digits_compare by (apply Nat.Div0.div_lt_upper_bound; lia).
  rewrite two_digits_compare by (apply Nat.mod_upper_bound; lia).
  rewrite (compare_by_hundreds n m).
  destruct (Nat.compare (n / 100) (m / 100)); reflexivity.
Qed.

Lemma compare_same_head (c : ascii) (s t : string) :
  String.compare (String c s) (String c t) = String.compare s t.
Proof.
  cbn [String.compare]. unfold Ascii.compare. rewrite N.compare_refl. reflexivity.
Qed.

Lemma valid_datetime_bounds (dt : datetime) :
  valid_datetime dt = true ->
  (year dt < 100 * 100 /\ month dt < 100 /\ day dt < 100
   /\ hour dt < 100 /\ minute dt < 100 /\ second dt < 100)%nat.
Proof.
  unfold valid_datetime. intros H.
  repeat (apply andb_prop in H; destruct H as [H ?]).
  repeat match goal with
         | K : (_ <=? _)%nat = true |- _ => apply Nat.leb_le in K
         | K : (_ <? _)%nat = true |- _ => apply Nat.ltb_lt in K
         end.
  lia.
Qed.

(** The order of the formatted strings is the order of the date-times. *)
Lemma strftime_compare (a b : datetime) :
  valid_datetime a = true -> valid_datetime b = true ->
  String.compare (strftime a) (strftime b) = datetime_compare a b.
Proof.
  intros Ha Hb.
  destruct (valid_datetime_bounds a Ha) as (Ha1 & Ha2 & Ha3 & Ha4 & Ha5 & Ha6).
  destruct (valid_datetime_bounds b Hb) as (Hb1 & Hb2 & Hb3 & Hb4 & Hb5 & Hb6).
  unfold strftime, datetime_compare.
  rewrite four_digits_compare by assumption.
  change ("-" ++ ?x)%string with (String "-" x).
  rewrite compare_same_head, two_digits_compare by assumption.
  cbn [String.append]. rewrite compare_same_head, two_digits_compare by assumption.
  cbn [String.append]. rewrite compare_same_head, two_digits_compare by assumption.
  cbn [String.append]. rewrite compare_same_head, two_digits_compare by assumption.
  cbn [String.append]. rewrite compare_same_head.
  change (two_digits (second a)) with (two_digits (second a) ++ "")%string.
  change (two_digits (second b)) with (two_digits (second b) ++ "")%string.
  rewrite two_digits_compare by assumption.
  cbn [String.compare].
  repeat match goal with |- context [Nat.compare ?x ?y] => destruct (Nat.compare x y) end;
    reflexivity.
Qed.

(** ** Sorting the dates *)

Lemma insert_desc_perm (x : string) (l : list string) :
  Permutation (x :: l) (insert_desc x l).
Proof.
  induction l as [| y l IH]; simpl.
  - reflexivity.
  - destruct (String.leb y x).
    + reflexivity.
    + rewrite perm_swap. apply perm_skip. exact IH.
Qed.

Lemma sorted_reverse_perm (l : list string) : Permutation l (sorted_reverse l).
Proof.
  unfold sorted_reverse. induction l as [| x l IH]; simpl.
  - reflexivity.
  - rewrite <- insert_desc_perm. apply perm_skip. exact IH.
Qed.

Lemma insert_desc_sorted (x : string) (l : list string) :
  Sorted (fun a b => String.leb b a = true) l ->
  Sorted (fun a b => String.leb b a = true) (insert_desc x l).
Proof.
  induction l as [| y l IH]; simpl; intros Hs.
  - repeat constructor.
  - destruct (String.leb y x) eqn:Hyx.
    + constructor; [assumption | constructor; assumption].
    + inversion Hs as [| ? ? Hs' Hhd]; subst.
      constructor; [apply IH; assumption |].
      assert (Hxy : String.leb x y = true).
      { destruct (String.leb_total x y) as [H | H]; [assumption | congruence]. }
      destruct l as [| z l]; simpl.
      * constructor. assumption.
      * destruct (String.leb z x); constructor; [assumption |].
        inversion Hhd; assumption.
Qed.

Lemma sorted_reverse_sorted (l : list string) :
  Sorted (fun a b => String.leb b a = true) (sorted_reverse l).
Proof.
  unfold sorted_reverse. induction l as [| x l IH]; simpl.
  - constructor.
  - apply insert_desc_sorted. exact IH.
Qed.

Lemma leb_neq_ltb (a b : string) :
  String.leb b a = true -> a <> b -> String.ltb b a = true.
Proof.
  unfold String.leb, String.ltb. intros Hle Hne.
  destruct (String.compare b a) eqn:Hc; try reflexivity; try discriminate.
  apply String.compare_eq_iff in Hc. congruence.
Qed.

(** Distinct keys come out strictly descending. *)
Lemma sorted_reverse_strict (l : list string) :
  NoDup l -> Sorted (fun a b => String.ltb b a = true) (sorted_reverse l).
Proof.
  intros Hnd.
  assert (Hnd' : NoDup (sorted_reverse l)).
  { eapply Permutation_NoDup; [apply sorted_reverse_perm | exact Hnd]. }
  pose proof (sorted_reverse_sorted l) as Hs.
  induction Hs as [| a l' Hs' IH Hhd].
  - constructor.
  - inversion Hnd' as [| ? ? Hnin Hnd'']; subst.
    constructor; [apply IH; assumption |].
    destruct Hhd as [| b l'' Hba]; constructor.
    apply leb_neq_ltb; [assumption |].
    intros ->. apply Hnin. left. reflexivity.
Qed.

(** ** The methods on the accumulators *)

Section Inspector.
Context {F : Type} {A : Arith F} {L : @Lawful F A} {E : Externals F}.

Lemma history_of_nonempty (repo : Repo) (max_count : option Z) :
  Forall (fun kv : string * list (Metrics F) => snd kv <> []) (history_of repo max_count).
Proof.
  unfold history_of. apply nonempty_fold_add. constructor.
Qed.

Lemma sample_of_dated (repo : Repo) (e : Commit * Item) :
  Date (sample_of repo e) = Some (strftime (fromtimestamp (committed_date (fst e)))).
Proof. reflexivity. Qed.

Lemma history_of_dated (repo : Repo) (max_count : option Z) :
  Forall (fun m : Metrics F => Date m <> None)
         (List.concat (values (history_of repo max_count))).
Proof.
  unfold history_of.
  eapply Permutation_Forall.
  - symmetry. apply values_fold_add_perm.
  - simpl. apply Forall_forall. intros m Hin.
    apply in_map_iff in Hin. destruct Hin as (e & <- & _).
    rewrite sample_of_dated. discriminate.
Qed.

Lemma _generate_project_metrics_by_file_spec (repo : Repo)
    (self : CodeQualityInspector F) (out : list string) :
  exists out',
    _generate_project_metrics_by_file repo self out
    = (Ok {| _project_directory := _project_directory self;
             _metrics := _metrics self;
             _metrics_by_file :=
               _metrics_by_file self ++ first_rows (history_of repo (Some 1%Z));
             _history_metrics := _history_metrics self;
             _history_metrics_by_file := _history_metrics_by_file self |}, out').
Proof.
  unfold _generate_project_metrics_by_file. unfold bind at 1.
  destruct (_generate_history_metrics_by_file_spec repo (Some 1%Z) out) as [out' Hw].
  rewrite Hw. exists out'.
  pose proof (history_of_nonempty repo (Some 1%Z)) as Hne.
  revert Hne. generalize (history_of repo (Some 1%Z)). intros h.
  match goal with |- _ -> for_each ?b _ _ _ = _ => set (body := b) end.
  revert self.
  induction h as [| [k vs] h IH]; intros self Hne; cbn [for_each first_rows flat_map].
  - unfold ret. rewrite app_nil_r. destruct self; reflexivity.
  - inversion Hne as [| ? ? Hvs Hne']; subst. cbn [snd] in Hvs.
    destruct vs as [| m vs]; [congruence |].
    unfold bind at 1. unfold body at 1. cbv [bind lift ret].
    rewrite IH by assumption. cbn.
    rewrite <- app_assoc. reflexivity.
Qed.

Lemma _generate_project_metrics_spec (self : CodeQualityInspector F) (out : list string) :
  _generate_project_metrics self out
  = (Ok {| _project_directory := _project_directory self;
           _metrics := _metrics self ++ [spec_aggregate (_metrics_by_file self)];
           _metrics_by_file := _metrics_by_file self;
           _history_metrics := _history_metrics self;
           _history_metrics_by_file := _history_metrics_by_file self |}, out).
Proof.
  unfold _generate_project_metrics, bind, lift, ret.
  rewrite project_metrics_spec. reflexivity.
Qed.

(** The regrouping loop: the bucket of a date receives, in order, the samples
    that carry exactly that date string. *)
Lemma group_by_date_fold (samples : list (Metrics F)) (d0 : dict (Metrics F)) :
  Forall (fun m => Date m <> None) samples ->
  exists d',
    fold_left
      (fun acc metrics =>
         match acc with
         | Raise err => Raise err
         | Ok metrics_by_date =>
             match get_Date metrics with
             | Raise err => Raise err
             | Ok date => Ok (dict_append metrics_by_date date metrics)
             end
         end) samples (Ok d0) = Ok d'
    /\ (forall k, dict_get d' k = dict_get d0 k ++ filter (has_date k) samples)
    /\ (NoDup (keys d0) -> NoDup (keys d'))
    /\ (forall k, In k (keys d') <->
                  In k (keys d0) \/ exists m, In m samples /\ Date m = Some k).
Proof.
  revert d0. induction samples as [| m samples IH]; intros d0 Hd; simpl.
  - exists d0. split; [reflexivity |]. split; [intros k; rewrite app_nil_r; reflexivity |].
    split; [tauto |]. intros k. split; [tauto | intros [H | (m & [] & _)]; assumption].
  - inversion Hd as [| ? ? Hm Hd']; subst.
    destruct (Date m) as [date |] eqn:Edate; [| congruence].
    assert (Hg : get_Date m = Ok date) by (unfold get_Date; rewrite Edate; reflexivity).
    rewrite Hg.
    destruct (IH (dict_append d0 date m) Hd') as (d' & Hrun & Hget & Hnd & Hkeys).
    exists d'. split; [exact Hrun |]. split; [| split].
    + intros k. rewrite Hget, dict_get_append. cbn [filter]. unfold has_date at 2. rewrite Edate.
      destruct (String.eqb date k); simpl.
      * rewrite <- app_assoc. reflexivity.
      * reflexivity.
    + intros H. apply Hnd. apply NoDup_keys_append. assumption.
    + intros k. rewrite Hkeys, In_keys_append. split.
      * intros [[-> | H] | (m' & Hin & Hdt)].
        -- right. exists m. tauto.
        -- tauto.
        -- right. exists m'. tauto.
      * intros [H | (m' & [<- | Hin] & Hdt)].
        -- tauto.
        -- left. left. congruence.
        -- right. exists m'. tauto.
Qed.

Lemma _generate_history_metrics_spec (self : CodeQualityInspector F) (out : list string) :
  Forall (fun m => Date m <> None) (List.concat (values (_history_metrics_by_file self))) ->
  exists dates,
    _generate_history_metrics self out
    = (Ok {| _project_directory := _project_directory self;
             _metrics := _metrics self;
             _metrics_by_file := _metrics_by_file self;
             _history_metrics :=
               _history_metrics self
               ++ map (fun date =>
                         set_Date
                           (spec_aggregate
                              (filter (has_date date)
                                 (List.concat (values (_history_metrics_by_file self)))))
                           date) dates;
             _history_metrics_by_file := _history_metrics_by_file self |}, out)
    /\ Sorted (fun a b => String.ltb b a = true) dates
    /\ (forall date, In date dates <->
                     exists m, In m (List.concat (values (_history_metrics_by_file self)))
                               /\ Date m = Some date).
Proof.
  intros Hd.
  destruct (group_by_date_fold [] Hd) as (by_date & Hrun & Hget & Hnd & Hkeys).
  change (group_by_date (_history_metrics_by_file self) = Ok by_date) in Hrun.
  unfold _generate_history_metrics. unfold bind at 1. unfold lift at 1.
  rewrite Hrun. exists (sorted_reverse (keys by_date)).
  split; [| split].
  - generalize (sorted_reverse (keys by_date)). intros dates.
    set (samples := List.concat (values (_history_metrics_by_file self))) in *.
    assert (Hloop : forall (self0 : CodeQualityInspector F),
               for_each
                 (fun self1 date =>
                    bind (lift (date_metrics_row date (dict_get by_date date)))
                      (fun row =>
                         ret {| _project_directory := _project_directory self1;
                                _metrics := _metrics self1;
                                _metrics_by_file := _metrics_by_file self1;
                                _history_metrics := _history_metrics self1 ++ [row];
                                _history_metrics_by_file := _history_metrics_by_file self1 |}))
                 dates self0 out
               = (Ok {| _project_directory := _project_directory self0;
                        _metrics := _metrics self0;
                        _metrics_by_file := _metrics_by_file self0;
                        _history_metrics :=
                          _history_metrics self0
                          ++ map (fun date =>
                                    set_Date (spec_aggregate (filter (has_date date) samples))
                                             date) dates;
                        _history_metrics_by_file := _history_metrics_by_file self0 |}, out)).
    { induction dates as [| date dates IH]; intros self0; cbn [for_each map].
      - unfold ret. rewrite app_nil_r. destruct self0; reflexivity.
      - unfold bind at 1. unfold bind at 1. unfold lift at 1.
        rewrite date_metrics_row_spec. unfold ret at 1.
        rewrite IH. cbn [_project_directory _metrics _metrics_by_file _history_metrics
                           _history_metrics_by_file].
        rewrite Hget. cbn [dict_get app]. rewrite <- app_assoc. reflexivity. }
    apply Hloop.
  - apply sorted_reverse_strict. apply Hnd. constructor.
  - intros date. rewrite <- (Permutation_in' (eq_refl date) (sorted_reverse_perm _)).
    rewrite Hkeys. simpl. tauto.
Qed.
End Inspector.

Section InspectProject.
Context {F : Type} {A : Arith F} {L : @Lawful F A} {E : Externals F}.

(** One call of [inspect_project] returns, and only appends to the three
    lists. *)
Lemma inspect_project_spec (repo : Repo) (self : CodeQualityInspector F)
    (inspect_history : bool) (max_history_count : Z) (out : list string) :
  exists self' out' history_rows,
    inspect_project repo self inspect_history max_history_count out = (Ok self', out')
    /\ _metrics_by_file self'
       = _metrics_by_file self ++ first_rows (history_of repo (Some 1%Z))
    /\ _metrics self' = _metrics self ++ [spec_aggregate (_metrics_by_file self')]
    /\ _history_metrics self' = _history_metrics self ++ history_rows.
Proof.
  unfold inspect_project. unfold bind at 1.
  destruct (_generate_project_metrics_by_file_spec repo self out) as [out1 H1].
  rewrite H1. unfold bind at 1. rewrite _generate_project_metrics_spec.
  cbn [_project_directory _metrics _metrics_by_file _history_metrics
         _history_metrics_by_file].
  destruct inspect_history.
  - unfold bind at 1.
    destruct (_generate_history_metrics_by_file_spec repo
                (if (0 <? max_history_count)%Z then Some max_history_count else None) out1)
      as [out2 H2].
    rewrite H2.
    match goal with
    | |- context [_generate_history_metrics ?s out2] =>
        destruct (@_generate_history_metrics_spec F A L s out2) as (dates & H3 & _)
    end.
    { apply history_of_dated. }
    rewrite H3. eexists. exists out2. eexists.
    split; [reflexivity |].
    cbn [_project_directory _metrics _metrics_by_file _history_metrics
           _history_metrics_by_file].
    repeat split; reflexivity.
  - unfold ret. eexists. exists out1. exists [].
    split; [reflexivity |].
    cbn [_project_directory _metrics _metrics_by_file _history_metrics
           _history_metrics_by_file].
    rewrite app_nil_r. repeat split; reflexivity.
Qed.

Lemma inspect_many_spec (calls : list (Repo * bool * Z)) (self : CodeQualityInspector F)
    (out : list string) :
  exists self' out',
    inspect_many calls self out = (Ok self', out')
    /\ List.length (_metrics self') = (List.length (_metrics self) + List.length calls)%nat.
Proof.
  unfold inspect_many. revert self out.
  induction calls as [| [[repo inspect_history] max_history_count] calls IH];
    intros self out; cbn [for_each].
  - exists self, out. split; [reflexivity |]. cbn. lia.
  - unfold bind at 1.
    destruct (inspect_project_spec repo self inspect_history max_history_count out)
      as (self1 & out1 & rows & H1 & _ & Hm & _).
    rewrite H1. destruct (IH self1 out1) as (self' & out' & H2 & Hlen).
    exists self', out'. split; [exact H2 |].
    rewrite Hlen, Hm, length_app. cbn. lia.
Qed.

Lemma fold_add_fresh (repo : Repo) (es : list (Commit * Item)) (d : dict (Metrics F)) :
  NoDup (keys d ++ map (fun e => stem (snd e)) es) ->
  fold_left (add_entry repo) es d
  = d ++ map (fun e => (stem (snd e), [sample_of repo e])) es.
Proof.
  revert d. induction es as [| e es IH]; intros d Hnd; cbn [fold_left map].
  - rewrite app_nil_r. reflexivity.
  - cbn [map] in Hnd. unfold add_entry at 2.
    rewrite dict_append_fresh.
    + rewrite IH.
      * rewrite <- app_assoc. reflexivity.
      * unfold keys in *. rewrite map_app, <- app_assoc. exact Hnd.
    + intros Hin. apply NoDup_remove_2 in Hnd. apply Hnd.
      apply in_or_app. left. exact Hin.
Qed.

Lemma first_rows_singletons (repo : Repo) (es : list (Commit * Item)) :
  first_rows (map (fun e => (stem (snd e), [sample_of repo e])) es)
  = map (fun e => set_File (sample_of repo e) (stem (snd e))) es.
Proof.
  unfold first_rows. induction es as [| e es IH]; cbn [map flat_map app].
  - reflexivity.
  - rewrite IH. reflexivity.
Qed.
End InspectProject.

(** The walk with [max_count = 1] sees the entries of the HEAD commit only. *)
Lemma entries_head (repo : Repo) :
  entries repo (Some 1%Z)
  = match log repo with
    | [] => []
    | head :: _ => map (pair head) (traverse head)
    end.
Proof.
  unfold entries, iter_commits. change (Z.to_nat 1) with 1%nat.
  destruct (log repo) as [| head rest]; cbn [firstn flat_map].
  - reflexivity.
  - apply app_nil_r.
Qed.

(** ** The tables after an inspection run *)

(** C4, as stated, fails.  The HEAD commit of [shared_stem_repo] holds three
    source files, [pkg/__init__.py], [pkg/a/util.py] and [pkg/b/util.py], all
    with content; after an inspection run on a fresh inspector the per-file
    table holds a single row, labelled [util]. *)
Lemma shared_stem_gives_one_row :
  List.length
    (filter is_source
       (flat_map traverse (iter_commits shared_stem_repo (Some 1%Z)))) = 3%nat
  /\ exists self' out',
       inspect_project (E := stand_in) shared_stem_repo (__init__ ".") false 0 []
       = (Ok self', out')
       /\ map (@File float) (_metrics_by_file self') = [Some "util"%string].
Proof.
  split; [reflexivity |].
  eexists. eexists. split; [vm_compute; reflexivity | reflexivity].
Qed.

(** C4, amended.  For a repository whose contributing HEAD entries (source
    files with content whose stem is not [__init__]) have pairwise distinct
    stems, an inspection run on a fresh inspector returns, and the per-file
    table holds exactly one row per contributing entry of the HEAD commit, in
    traversal order: the sample extracted from the content committed at HEAD,
    labelled with the stem.  The rows come from the history walk limited to
    one commit, which sees the entries of the HEAD commit only. *)
Theorem per_file_rows_of_head {E : Externals float} (repo : Repo)
    (project_directory : string) (inspect_history : bool) (max_history_count : Z)
    (out : list string) :
  NoDup (map (fun e => stem (snd e))
           (filter (contributes repo) (entries repo (Some 1%Z)))) ->
  exists self' out',
    inspect_project repo (__init__ project_directory) inspect_history max_history_count out
    = (Ok self', out')
    /\ _metrics_by_file self'
       = map (fun e => set_File (sample_of repo e) (stem (snd e)))
           (filter (contributes repo) (entries repo (Some 1%Z)))
    /\ _metrics_by_file self' = first_rows (history_of repo (Some 1%Z))
    /\ entries repo (Some 1%Z)
       = match log repo with
         | [] => []
         | head :: _ => map (pair head) (traverse head)
         end.
Proof.
  intros Hnd.
  destruct (inspect_project_spec repo (__init__ project_directory) inspect_history
              max_history_count out) as (self' & out' & rows & Hrun & Hfiles & _).
  exists self', out'. split; [exact Hrun |].
  cbn [__init__ _metrics_by_file app] in Hfiles.
  split; [| split; [exact Hfiles | apply entries_head]].
  rewrite Hfiles. unfold history_of.
  rewrite fold_add_fresh by exact Hnd.
  cbn [app]. apply first_rows_singletons.
Qed.

(** The HEAD commit of [distinct_stem_repo]: of its five blobs, [setup.py]
    and [pkg/core.py] contribute, and the table holds their two rows. *)
Lemma per_file_rows_of_head_witness :
  exists self' out',
    inspect_project (E := stand_in) distinct_stem_repo (__init__ ".") false 0 []
    = (Ok self', out')
    /\ _metrics_by_file self'
       = map (fun e => set_File (sample_of (E := stand_in) distinct_stem_repo e)
                                (stem (snd e)))
           (filter (contributes distinct_stem_repo)
              (entries distinct_stem_repo (Some 1%Z)))
    /\ _metrics_by_file self'
       = first_rows (history_of (E := stand_in) distinct_stem_repo (Some 1%Z))
    /\ entries distinct_stem_repo (Some 1%Z)
       = match log distinct_stem_repo with
         | [] => []
         | head :: _ => map (pair head) (traverse head)
         end.
Proof.
  apply (@per_file_rows_of_head stand_in distinct_stem_repo "." false 0%Z []).
  vm_compute.
  constructor; [intros [H | []]; discriminate |].
  constructor; [intros [] |]. constructor.
Defined.

(** C6.  In binary64, for an inspector whose file history holds dated
    samples: [_generate_history_metrics] returns and appends one row per
    distinct date string; the row of a date is the weighted row of exactly the
    samples whose date string equals it, taken in the order of the history;
    and the rows are in strictly descending order of their date strings.
    The strings of two date-times in the format [%Y-%m-%d %H:%M:%S] are in
    this order exactly when the date-times are. *)
Theorem history_rows_grouped_and_sorted (self : CodeQualityInspector float)
    (out : list string) :
  Forall (fun m => Date m <> None) (List.concat (values (_history_metrics_by_file self))) ->
  exists dates rows,
    _generate_history_metrics self out
    = (Ok {| _project_directory := _project_directory self;
             _metrics := _metrics self;
             _metrics_by_file := _metrics_by_file self;
             _history_metrics := _history_metrics self ++ rows;
             _history_metrics_by_file := _history_metrics_by_file self |}, out)
    /\ Forall2
         (fun date row =>
            date_metrics_row date
              (filter (has_date date)
                 (List.concat (values (_history_metrics_by_file self)))) = Ok row)
         dates rows
    /\ map (@Date float) rows = map Some dates
    /\ Sorted (fun a b => String.ltb b a = true) dates
    /\ (forall date,
           In date dates <->
           exists m, In m (List.concat (values (_history_metrics_by_file self)))
                     /\ Date m = Some date)
    /\ (forall a b : datetime,
           valid_datetime a = true -> valid_datetime b = true ->
           (String.ltb (strftime b) (strftime a) = true <-> datetime_compare b a = Lt)).
Proof.
  intros Hd.
  destruct (_generate_history_metrics_spec self out Hd) as (dates & Hrun & Hsorted & Hin).
  exists dates. eexists. split; [exact Hrun |].
  split; [| split; [| split; [exact Hsorted | split; [exact Hin |]]]].
  3:{ intros a b Ha Hb. unfold String.ltb. rewrite (strftime_compare b a Hb Ha).
      destruct (datetime_compare b a); split; congruence. }
  - clear. induction dates as [| date dates IH]; cbn [map]; constructor.
    + apply date_metrics_row_spec.
    + exact IH.
  - clear. induction dates as [| date dates IH]; cbn [map].
    + reflexivity.
    + rewrite IH. reflexivity.
Qed.

(** The history [two_date_history]: three samples, two of them dated alike. *)
Lemma history_rows_grouped_and_sorted_witness :
  exists dates rows,
    _generate_history_metrics
      {| _project_directory := "."; _metrics := []; _metrics_by_file := [];
         _history_metrics := []; _history_metrics_by_file := two_date_history |} []
    = (Ok {| _project_directory := "."; _metrics := []; _metrics_by_file := [];
             _history_metrics := [] ++ rows;
             _history_metrics_by_file := two_date_history |}, [])
    /\ Forall2
         (fun date row =>
            date_metrics_row date
              (filter (has_date date) (List.concat (values two_date_history))) = Ok row)
         dates rows
    /\ map (@Date float) rows = map Some dates
    /\ Sorted (fun a b => String.ltb b a = true) dates
    /\ (forall date,
           In date dates <->
           exists m, In m (List.concat (values two_date_history))
                     /\ Date m = Some date)
    /\ (forall a b : datetime,
           valid_datetime a = true -> valid_datetime b = true ->
           (String.ltb (strftime b) (strftime a) = true <-> datetime_compare b a = Lt)).
Proof.
  apply (@history_rows_grouped_and_sorted
           {| _project_directory := "."; _metrics := []; _metrics_by_file := [];
              _history_metrics := []; _history_metrics_by_file := two_date_history |} []).
  cbn. repeat constructor; discriminate.
Defined.

(** C10.  In binary64, every call of [inspect_project] returns, appends one
    overall row to [_metrics], appends the per-file rows of the HEAD commit to
    [_metrics_by_file] and appends to [_history_metrics], keeping what the
    lists held before; the overall row aggregates the whole of
    [_metrics_by_file], earlier calls included.  After [k] calls on one fresh
    instance [_metrics] holds [k] rows. *)
Theorem inspect_project_only_appends {E : Externals float} :
  (forall (repo : Repo) (self : CodeQualityInspector float) (inspect_history : bool)
          (max_history_count : Z) (out : list string),
      exists self' out' history_rows,
        inspect_project repo self inspect_history max_history_count out = (Ok self', out')
        /\ _metrics_by_file self'
           = _metrics_by_file self ++ first_rows (history_of repo (Some 1%Z))
        /\ _metrics self' = _metrics self ++ [spec_aggregate (_metrics_by_file self')]
        /\ _history_metrics self' = _history_metrics self ++ history_rows)
  /\ (forall (calls : list (Repo * bool * Z)) (project_directory : string)
             (out : list string),
         exists self' out',
           inspect_many calls (__init__ project_directory) out = (Ok self', out')
           /\ List.length (_metrics self') = List.length calls).
Proof.
  split.
  - intros repo self inspect_history max_history_count out.
    apply inspect_project_spec.
  - intros calls project_directory out.
    destruct (inspect_many_spec calls (__init__ project_directory) out)
      as (self' & out' & Hrun & Hlen).
    exists self', out'. split; [exact Hrun |]. exact Hlen.
Qed.

(** ** Reordering, equal values and zero samples *)

Lemma total_lines_perm {F : Type} (l l' : list (Metrics F)) :
  Permutation l l' -> total_lines l = total_lines l'.
Proof.
  unfold total_lines. induction 1; cbn [map fold_right]; lia.
Qed.

Section Exact.
Local Open Scope Qc_scope.

Lemma exact_fold_shift (ts : list Qc) (a : Qc) :
  fold_left Qcplus ts a = a + fold_left Qcplus ts (Q2Qc 0).
Proof.
  revert a. induction ts as [| t ts IH]; intros a; cbn [fold_left].
  - ring.
  - rewrite (IH (a + t)), (IH (Q2Qc 0 + t)). ring.
Qed.

Lemma exact_sigma_cons (t : Qc) (ts : list Qc) :
  sigma (A := exact) (t :: ts) = t + sigma (A := exact) ts.
Proof.
  rewrite <- !fold_fadd_sigma. cbn [fold_left fadd fzero exact].
  rewrite exact_fold_shift. ring.
Qed.

Lemma exact_sigma_perm (ts ts' : list Qc) :
  Permutation ts ts' -> sigma (A := exact) ts = sigma (A := exact) ts'.
Proof.
  induction 1 as [| t ts ts' _ IH | t u ts | ts ts' ts'' _ IH1 _ IH2].
  - reflexivity.
  - rewrite !exact_sigma_cons, IH. reflexivity.
  - rewrite !exact_sigma_cons. ring.
  - congruence.
Qed.

Lemma exact_of_int_mul (a b : Z) :
  of_int (Arith := exact) (a * b) = of_int (Arith := exact) a * of_int (Arith := exact) b.
Proof.
  cbn [of_int exact]. apply Qc_is_canon. cbn [this Qcmult Q2Qc].
  rewrite !Qred_correct, inject_Z_mult. reflexivity.
Qed.

Lemma exact_of_int_add (a b : Z) :
  of_int (Arith := exact) (a + b) = of_int (Arith := exact) a + of_int (Arith := exact) b.
Proof.
  cbn [of_int exact]. apply Qc_is_canon. cbn [this Qcplus Q2Qc].
  rewrite !Qred_correct, inject_Z_plus. reflexivity.
Qed.

Lemma exact_term (x : Metrics Qc -> number Qc) (s : Metrics Qc) :
  term (A := exact) x s
  = to_float (A := exact) (x s) * of_int (Arith := exact) (Z.of_N (Lines_of_Code s)).
Proof.
  unfold term, mul_int. destruct (x s) as [n | q]; cbn [to_float].
  - apply exact_of_int_mul.
  - reflexivity.
Qed.

(** With one value [c] for every sample, the weighted sum is [c] times the
    total. *)
Lemma exact_sigma_constant (x : Metrics Qc -> number Qc) (c : Qc)
    (samples : list (Metrics Qc)) :
  Forall (fun s => to_float (A := exact) (x s) = c) samples ->
  sigma (A := exact) (map (term (A := exact) x) samples)
  = c * of_int (Arith := exact) (Z.of_N (total_lines samples)).
Proof.
  induction 1 as [| s samples Hs _ IH]; cbn [map].
  - change (Q2Qc 0 = c * Q2Qc 0). ring.
  - rewrite exact_sigma_cons, IH, exact_term, Hs.
    unfold total_lines. cbn [map fold_right]. fold (total_lines samples).
    rewrite N2Z.inj_add, exact_of_int_add. ring.
Qed.
End Exact.

(** ** Integers in binary64

    An integer below [2^53] is a binary64 number, and sums, products and
    exact quotients of such integers that stay below [2^53] are computed
    without rounding. *)

Section Integers.
Local Open Scope Z_scope.

Lemma iter_pos_invariant {X : Type} (f : X -> X) (Q : Z -> X -> Prop) :
(forall k x, 0 <= k -> Q k x -> Q (k + 1) (f x)) ->
forall p k x, 0 <= k -> Q k x -> Q (k + Z.pos p) (iter_pos f p x).
Proof.
intros Hstep. induction p as [p IH | p IH |]; intros k x Hk Hx; simpl iter_pos.
- replace (k + Z.pos p~1) with (k + 1 + Z.pos p + Z.pos p) by lia.
  apply IH; [lia |]. apply IH; [lia |]. apply Hstep; assumption.
- replace (k + Z.pos p~0) with (k + Z.pos p + Z.pos p) by lia.
  apply IH; [lia |]. apply IH; assumption.
- apply Hstep; assumption.
Qed.

Lemma shr_1_even (m : Z) :
0 < m -> shr_1 (Build_shr_record (2 * m) false false) = Build_shr_record m false false.
Proof. destruct m as [| p | p]; intros Hm; try lia. reflexivity. Qed.

(** Shifting out bits that are all zero is exact. *)
Lemma iter_shr_1_exact (p : positive) (m : Z) :
0 < m ->
iter_pos shr_1 p (Build_shr_record (m * 2 ^ Z.pos p) false false)
= Build_shr_record m false false.
Proof.
intros Hm.
pose (Q := fun (k : Z) (mrs : shr_record) =>
             k <= Z.pos p -> mrs = Build_shr_record (m * 2 ^ (Z.pos p - k)) false false).
assert (H : Q (0 + Z.pos p)
              (iter_pos shr_1 p (Build_shr_record (m * 2 ^ Z.pos p) false false))).
{ apply iter_pos_invariant; [| lia |].
  - intros k x Hk Hx Hle. unfold Q in Hx. rewrite Hx by lia.
    replace (m * 2 ^ (Z.pos p - k)) with (2 * (m * 2 ^ (Z.pos p - (k + 1)))).
    + apply shr_1_even. apply Z.mul_pos_pos; [assumption |]. apply Z.pow_pos_nonneg; lia.
    + replace (Z.pos p - k) with (Z.succ (Z.pos p - (k + 1))) by lia.
      rewrite Z.pow_succ_r by lia. ring.
  - intros _. rewrite Z.sub_0_r. reflexivity. }
unfold Q in H. rewrite H by lia.
replace (Z.pos p - (0 + Z.pos p)) with 0 by lia. rewrite Z.mul_1_r. reflexivity.
Qed.

Lemma Zdigits2_mul_pow2 (a k : Z) :
0 < a -> 0 <= k -> Zdigits2 (a * 2 ^ k) = Zdigits2 a + k.
Proof.
intros Ha Hk.
assert (Hpos : 0 < a * 2 ^ k) by (apply Z.mul_pos_pos; [lia | apply Z.pow_pos_nonneg; lia]).
rewrite !Zdigits2_log2 by assumption.
rewrite Z.log2_mul_pow2 by lia. lia.
Qed.

Lemma Zdigits2_bound (a : Z) : 0 < a -> 2 ^ (Zdigits2 a - 1) <= a < 2 ^ Zdigits2 a.
Proof.
intros Ha. rewrite Zdigits2_log2 by assumption.
replace (Z.log2 a + 1 - 1) with (Z.log2 a) by lia.
replace (Z.log2 a + 1) with (Z.succ (Z.log2 a)) by lia.
apply Z.log2_spec. assumption.
Qed.

Lemma Zdigits2_le (a k : Z) : 0 < a -> 0 <= k -> a < 2 ^ k -> Zdigits2 a <= k.
Proof.
intros Ha Hk Hlt. rewrite Zdigits2_log2 by assumption.
assert (Z.log2 a < k) by (apply Z.log2_lt_pow2; assumption). lia.
Qed.

Lemma Zdigits2_pos (a : Z) : 0 < a -> 0 < Zdigits2 a.
Proof. intros Ha. rewrite Zdigits2_log2 by assumption. pose proof (Z.log2_nonneg a). lia. Qed.

Lemma Zdigits2_mul (a b : Z) :
0 < a -> 0 < b -> Zdigits2 (a * b) <= Zdigits2 a + Zdigits2 b.
Proof.
intros Ha Hb.
pose proof (Zdigits2_bound Ha) as [_ Ha'].
pose proof (Zdigits2_bound Hb) as [_ Hb'].
pose proof (Zdigits2_pos Ha). pose proof (Zdigits2_pos Hb).
apply Zdigits2_le; [nia | lia |].
rewrite Z.pow_add_r by lia. nia.
Qed.

(** A mantissa that holds a representable value with zero low bits rounds to
    that value. *)
Lemma binary_round_aux_exact (s : bool) (m e e0 : Z) (m0 : positive) :
e0 = fexp prec emax (Zdigits2 m + e) -> e <= e0 -> m = Z.pos m0 * 2 ^ (e0 - e) ->
e0 <= emax - prec ->
binary_round_aux prec emax s m e loc_Exact = S754_finite s m0 e0.
Proof.
intros He0 Hle Hm Hmax.
assert (Hd : Zdigits2 (Z.pos m0) + e0 = Zdigits2 m + e).
{ rewrite Hm, Zdigits2_mul_pow2 by lia. lia. }
unfold binary_round_aux, shr_fexp. rewrite <- He0.
assert (Hshr : shr (shr_record_of_loc m loc_Exact) e (e0 - e)
               = (Build_shr_record (Z.pos m0) false false, e0)).
{ unfold shr. cbn [shr_record_of_loc].
  destruct (e0 - e) as [| p | p] eqn:Hp; try lia.
  - rewrite Hm, Z.mul_1_r. f_equal. lia.
  - rewrite Hm, iter_shr_1_exact by lia. f_equal. lia. }
rewrite Hshr. cbn [shr_m loc_of_shr_record round_nearest_even].
rewrite Hd, <- He0, Z.sub_diag. cbn [shr shr_record_of_loc shr_m].
replace (e0 <=? emax - prec) with true by (symmetry; apply Z.leb_le; assumption).
reflexivity.
Qed.

Lemma int_digits (n : Z) : 0 < n < 2 ^ prec -> 1 <= Zdigits2 n <= prec.
Proof.
intros [Hn Hlt]. pose proof (Zdigits2_pos Hn).
pose proof (@Zdigits2_le n prec Hn ltac:(unfold prec; lia) Hlt). lia.
Qed.

Lemma int_mantissa_spec (n : Z) :
0 < n < 2 ^ prec -> Z.pos (int_mantissa n) = n * 2 ^ (prec - Zdigits2 n).
Proof.
intros Hn. pose proof (int_digits Hn). unfold int_mantissa.
rewrite Z2Pos.id; [reflexivity |].
apply Z.mul_pos_pos; [lia | apply Z.pow_pos_nonneg; lia].
Qed.

Lemma binary_round_aux_int (s : bool) (m e n : Z) :
0 < n < 2 ^ prec -> e <= int_exponent n -> m = n * 2 ^ (- e) ->
binary_round_aux prec emax s m e loc_Exact
= S754_finite s (int_mantissa n) (int_exponent n).
Proof.
intros Hn He Hm. pose proof (int_digits Hn) as Hd. unfold int_exponent in *.
assert (He' : 0 <= - e) by (unfold prec in *; lia).
apply binary_round_aux_exact.
- rewrite Hm, Zdigits2_mul_pow2 by lia.
  unfold fexp, emin, emax, prec in *. lia.
- lia.
- rewrite int_mantissa_spec by assumption. rewrite Hm.
  rewrite <- Z.mul_assoc, <- Z.pow_add_r by (unfold prec in *; lia).
  do 2 f_equal. lia.
- unfold emax, prec in *. lia.
Qed.

Lemma binary_round_int (s : bool) (mx : positive) (e n : Z) :
0 < n < 2 ^ prec -> e <= 0 -> Z.pos mx = n * 2 ^ (- e) ->
binary_round prec emax s mx e = S754_finite s (int_mantissa n) (int_exponent n).
Proof.
intros Hn He Hm. pose proof (int_digits Hn) as Hd. unfold binary_round.
change (Z.pos (digits2_pos mx)) with (Zdigits2 (Z.pos mx)).
rewrite Hm, Zdigits2_mul_pow2 by lia.
replace (fexp prec emax (Zdigits2 n + - e + e)) with (int_exponent n)
  by (unfold int_exponent, fexp, emin, emax, prec in *; lia).
unfold shl_align.
destruct (int_exponent n - e) as [| p | p] eqn:Hp.
- apply binary_round_aux_int; [assumption | lia | assumption].
- apply binary_round_aux_int; [assumption | lia | assumption].
- rewrite iter_xO_shiftl, Z.shiftl_mul_pow2 by lia.
  apply binary_round_aux_int; [assumption | lia |].
  rewrite Hm, <- Z.mul_assoc, <- Z.pow_add_r by lia.
  do 2 f_equal. lia.
Qed.

(** The value alone decides: a nonnegative integer below [2^53], held at any
    exponent that is not positive, normalizes to the float of the integer. *)
Lemma binary_normalize_int (n e : Z) :
0 <= n < 2 ^ prec -> e <= 0 ->
binary_normalize prec emax (n * 2 ^ (- e)) e false = binary_normalize prec emax n 0 false.
Proof.
intros [Hn Hlt] He. destruct (Z.eq_dec n 0) as [-> | Hnz]; [reflexivity |].
assert (Hpos : 0 < n * 2 ^ (- e)).
{ apply Z.mul_pos_pos; [lia | apply Z.pow_pos_nonneg; lia]. }
destruct (n * 2 ^ (- e)) as [| mx | mx] eqn:Hm; try lia.
destruct n as [| p | p] eqn:Hp; try lia.
cbn [binary_normalize].
rewrite (@binary_round_int false mx e (Z.pos p)) by (try lia; try (split; lia)).
rewrite (@binary_round_int false p 0 (Z.pos p));
  [reflexivity | split; lia | lia | rewrite Z.pow_0_r, Z.mul_1_r; reflexivity].
Qed.
End Integers.

Section IntegerFloats.
Local Open Scope Z_scope.

Lemma binary_normalize_pos (n : Z) :
0 < n < 2 ^ prec ->
binary_normalize prec emax n 0 false = S754_finite false (int_mantissa n) (int_exponent n).
Proof.
intros Hn. destruct n as [| p | p] eqn:Hp; try lia.
cbn [binary_normalize].
apply binary_round_int; [assumption | lia |].
rewrite Z.pow_0_r, Z.mul_1_r. reflexivity.
Qed.

Lemma int_mantissa_digits (n : Z) :
0 < n < 2 ^ prec -> Zdigits2 (Z.pos (int_mantissa n)) = prec.
Proof.
intros Hn. pose proof (int_digits Hn).
rewrite int_mantissa_spec, Zdigits2_mul_pow2 by lia. lia.
Qed.

Lemma shl_align_fst (m : positive) (e e' : Z) :
e' <= e -> Z.pos (fst (shl_align m e e')) = Z.pos m * 2 ^ (e - e').
Proof.
intros Hle. unfold shl_align.
destruct (e' - e) as [| p | p] eqn:Hp; cbn [fst]; try lia.
- replace (e - e') with 0 by lia. rewrite Z.mul_1_r. reflexivity.
- rewrite iter_xO_shiftl, Z.shiftl_mul_pow2 by lia. do 2 f_equal. lia.
Qed.

Lemma int_exponent_nonpos (n : Z) : 0 < n < 2 ^ prec -> int_exponent n <= 0.
Proof. intros Hn. pose proof (int_digits Hn). unfold int_exponent. lia. Qed.

Lemma int_mantissa_shift (n e : Z) :
0 < n < 2 ^ prec -> e <= int_exponent n ->
Z.pos (int_mantissa n) * 2 ^ (int_exponent n - e) = n * 2 ^ (- e).
Proof.
intros Hn He. pose proof (int_digits Hn).
rewrite int_mantissa_spec by assumption. unfold int_exponent in *.
rewrite <- Z.mul_assoc, <- Z.pow_add_r by lia. do 2 f_equal. lia.
Qed.

(** Sums of nonnegative integers below [2^53] are exact. *)
Lemma SFadd_int (a b : Z) :
0 <= a -> 0 <= b -> a + b < 2 ^ prec ->
SFadd prec emax (binary_normalize prec emax a 0 false) (binary_normalize prec emax b 0 false)
= binary_normalize prec emax (a + b) 0 false.
Proof.
intros Ha Hb Hlt.
destruct (Z.eq_dec a 0) as [-> | Hanz].
{ cbn [binary_normalize Z.add].
  destruct (Z.eq_dec b 0) as [-> | Hbnz]; [reflexivity |].
  rewrite binary_normalize_pos by lia. reflexivity. }
destruct (Z.eq_dec b 0) as [-> | Hbnz].
{ rewrite Z.add_0_r. cbn [binary_normalize].
  rewrite binary_normalize_pos by lia. reflexivity. }
assert (Han : 0 < a < 2 ^ prec) by lia.
assert (Hbn : 0 < b < 2 ^ prec) by lia.
rewrite (binary_normalize_pos Han), (binary_normalize_pos Hbn).
cbn [SFadd cond_Zopp].
set (ez := Z.min (int_exponent a) (int_exponent b)).
pose proof (int_exponent_nonpos Han). pose proof (int_exponent_nonpos Hbn).
rewrite !shl_align_fst by lia.
rewrite (int_mantissa_shift Han) by lia.
rewrite (int_mantissa_shift Hbn) by lia.
rewrite <- Z.mul_add_distr_r.
apply binary_normalize_int; lia.
Qed.

(** Products of nonnegative integers below [2^53] are exact. *)
Lemma SFmul_int (a b : Z) :
0 < a -> 0 < b -> a * b < 2 ^ prec ->
SFmul prec emax (binary_normalize prec emax a 0 false) (binary_normalize prec emax b 0 false)
= binary_normalize prec emax (a * b) 0 false.
Proof.
intros Ha Hb Hlt.
assert (Han : 0 < a < 2 ^ prec) by nia.
assert (Hbn : 0 < b < 2 ^ prec) by nia.
assert (Habn : 0 < a * b < 2 ^ prec) by nia.
rewrite (binary_normalize_pos Han), (binary_normalize_pos Hbn), (binary_normalize_pos Habn).
cbn [SFmul xorb].
pose proof (int_digits Han). pose proof (int_digits Hbn). pose proof (int_digits Habn).
assert (Hdig : Zdigits2 a + Zdigits2 b - 1 <= Zdigits2 (a * b)).
{ pose proof (Zdigits2_bound (proj1 Han)) as [Ha' _].
  pose proof (Zdigits2_bound (proj1 Hbn)) as [Hb' _].
  pose proof (Zdigits2_bound (proj1 Habn)) as [_ Hab'].
  assert (Hlow : 2 ^ (Zdigits2 a - 1 + (Zdigits2 b - 1)) <= a * b).
  { rewrite Z.pow_add_r by lia.
    assert (0 < 2 ^ (Zdigits2 a - 1)) by (apply Z.pow_pos_nonneg; lia).
    assert (0 < 2 ^ (Zdigits2 b - 1)) by (apply Z.pow_pos_nonneg; lia).
    nia. }
  assert (Zdigits2 a - 1 + (Zdigits2 b - 1) < Zdigits2 (a * b)); [| lia].
  apply (Z.pow_lt_mono_r_iff 2); lia. }
apply binary_round_aux_int; [assumption | unfold int_exponent, prec in *; lia |].
rewrite Pos2Z.inj_mul, !int_mantissa_spec by assumption.
unfold int_exponent.
replace (- (Zdigits2 a - prec + (Zdigits2 b - prec)))
  with ((prec - Zdigits2 a) + (prec - Zdigits2 b)) by lia.
rewrite Z.pow_add_r by lia. ring.
Qed.

(** The quotient of a multiple by its positive divisor is exact. *)
Lemma SFdiv_int (c t : Z) :
0 <= c -> 0 < t -> c * t < 2 ^ prec ->
SFdiv prec emax (binary_normalize prec emax (c * t) 0 false)
      (binary_normalize prec emax t 0 false)
= binary_normalize prec emax c 0 false.
Proof.
intros Hc Ht Hlt.
destruct (Z.eq_dec c 0) as [-> | Hcnz].
{ cbn [Z.mul binary_normalize].
  destruct t as [| p | p]; try lia. cbn [binary_normalize].
  pose proof (@binary_round_valid false p 0 emin_le_0) as Hv.
  destruct (binary_round prec emax false p 0) as [s | s | | s m e]; try contradiction.
  - subst s. reflexivity.
  - destruct Hv as [-> _]. reflexivity. }
assert (Hcpos : 0 < c) by lia.
assert (Hcn : 0 < c < 2 ^ prec) by nia.
assert (Htn : 0 < t < 2 ^ prec) by nia.
assert (Hctn : 0 < c * t < 2 ^ prec) by nia.
rewrite (binary_normalize_pos Hcn), (binary_normalize_pos Htn), (binary_normalize_pos Hctn).
cbn [SFdiv xorb]. unfold SFdiv_core_binary.
rewrite !int_mantissa_digits by assumption.
pose proof (int_digits Hcn). pose proof (int_digits Htn). pose proof (int_digits Hctn).
pose proof (Zdigits2_mul (proj1 Hcn) (proj1 Htn)) as Hdig.
set (e' := Z.min (fexp prec emax (prec + int_exponent (c * t) - (prec + int_exponent t)))
                 (int_exponent (c * t) - int_exponent t)).
assert (He' : e' = int_exponent (c * t) - int_exponent t - prec).
{ unfold e', int_exponent, fexp, emin, emax, prec in *. lia. }
replace (int_exponent (c * t) - int_exponent t - e') with prec by lia.
change prec with 53 at 1. cbv iota.
set (q := c * 2 ^ (- e')).
assert (Hq : Z.shiftl (Z.pos (int_mantissa (c * t))) prec = q * Z.pos (int_mantissa t)).
{ rewrite Z.shiftl_mul_pow2 by (unfold prec; lia).
  rewrite !int_mantissa_spec by assumption. unfold q. rewrite He'. unfold int_exponent.
  replace (- (Zdigits2 (c * t) - prec - (Zdigits2 t - prec) - prec))
    with (prec + Zdigits2 t - Zdigits2 (c * t)) by lia.
  transitivity (c * t * 2 ^ (prec - Zdigits2 (c * t) + prec)).
  - rewrite Z.pow_add_r by (unfold prec in *; lia). ring.
  - replace (prec - Zdigits2 (c * t) + prec)
      with ((prec + Zdigits2 t - Zdigits2 (c * t)) + (prec - Zdigits2 t)) by lia.
    rewrite Z.pow_add_r by (unfold prec in *; lia). ring. }
rewrite Hq.
assert (Hdiv : Z.div_eucl (q * Z.pos (int_mantissa t)) (Z.pos (int_mantissa t)) = (q, 0)).
{ pose proof (Z.div_mul q (Z.pos (int_mantissa t)) ltac:(lia)) as Hd.
  pose proof (Z.mod_mul q (Z.pos (int_mantissa t)) ltac:(lia)) as Hr.
  unfold Z.div, Z.modulo in Hd, Hr.
  destruct (Z.div_eucl (q * Z.pos (int_mantissa t)) (Z.pos (int_mantissa t))) as [q0 r0].
  subst. reflexivity. }
rewrite Hdiv.
replace (new_location (Z.pos (int_mantissa t)) 0) with loc_Exact
  by (unfold new_location, new_location_even, new_location_odd;
      destruct (Z.even _); reflexivity).
apply binary_round_aux_int; [assumption | | reflexivity].
rewrite He'. unfold int_exponent, prec in *. lia.
Qed.
End IntegerFloats.

Section IntegerAggregate.
Local Open Scope Z_scope.

Lemma float_of_int_add (a b : Z) :
0 <= a -> 0 <= b -> a + b < 2 ^ prec ->
(float_of_int a + float_of_int b)%float = float_of_int (a + b).
Proof.
intros Ha Hb Hlt. apply Prim2SF_inj.
rewrite add_spec, !Prim2SF_float_of_int. apply SFadd_int; assumption.
Qed.

Lemma float_of_int_mul (a b : Z) :
0 <= a -> 0 <= b -> a < 2 ^ prec -> b < 2 ^ prec -> a * b < 2 ^ prec ->
(float_of_int a * float_of_int b)%float = float_of_int (a * b).
Proof.
intros Ha Hb Halt Hblt Hlt. apply Prim2SF_inj.
rewrite mul_spec, !Prim2SF_float_of_int. unfold SF64mul.
destruct (Z.eq_dec a 0) as [-> | Hanz].
{ cbn [Z.mul binary_normalize].
  destruct (Z.eq_dec b 0) as [-> | Hbnz]; [reflexivity |].
  rewrite binary_normalize_pos by lia. reflexivity. }
destruct (Z.eq_dec b 0) as [-> | Hbnz].
{ rewrite Z.mul_0_r. cbn [binary_normalize].
  rewrite binary_normalize_pos by lia. reflexivity. }
apply SFmul_int; lia.
Qed.

Lemma float_of_int_div (c t : Z) :
0 <= c -> 0 < t -> c * t < 2 ^ prec ->
(float_of_int (c * t) / float_of_int t)%float = float_of_int c.
Proof.
intros Hc Ht Hlt. apply Prim2SF_inj.
rewrite div_spec, !Prim2SF_float_of_int. apply SFdiv_int; assumption.
Qed.

Lemma float_of_int_zero : float_of_int 0 = PrimFloat.zero.
Proof. reflexivity. Qed.
End IntegerAggregate.

Section IntegerComplexity.
Local Open Scope Z_scope.

(** The products [C * loc_i] of an integer [C], held as an [int] or as a
    [float], and their running sum are exact below [2^53]. *)
Lemma term_integer (x : Metrics float -> number float) (c : Z) (s : Metrics float) :
x s = PyInt c \/ x s = PyFloat (float_of_int c) ->
0 <= c < 2 ^ prec -> Z.of_N (Lines_of_Code s) < 2 ^ prec ->
c * Z.of_N (Lines_of_Code s) < 2 ^ prec ->
term x s = float_of_int (c * Z.of_N (Lines_of_Code s)).
Proof.
intros [Hx | Hx] Hc Hloc Hlt; unfold term; rewrite Hx; cbn [mul_int to_float of_int binary64 fmul].
- reflexivity.
- apply float_of_int_mul; lia.
Qed.

Lemma sigma_integer (x : Metrics float -> number float) (c : Z)
  (samples : list (Metrics float)) :
Forall (fun s => x s = PyInt c \/ x s = PyFloat (float_of_int c)) samples ->
0 <= c < 2 ^ prec -> Z.of_N (total_lines samples) < 2 ^ prec ->
c * Z.of_N (total_lines samples) < 2 ^ prec ->
sigma (map (term x) samples) = float_of_int (c * Z.of_N (total_lines samples)).
Proof.
intros Hall Hc. induction samples as [| s samples IH] using rev_ind; intros Htot Hlt.
- cbn. rewrite Z.mul_0_r. reflexivity.
- apply Forall_app in Hall. destruct Hall as [Hall Hs].
  apply Forall_inv in Hs.
  rewrite total_lines_app in Htot, Hlt |- *.
  change (total_lines [s]) with (Lines_of_Code s + 0)%N in Htot, Hlt |- *.
  rewrite N.add_0_r in Htot, Hlt |- *.
  rewrite N2Z.inj_add in Htot, Hlt |- *.
  pose proof (N2Z.is_nonneg (total_lines samples)).
  pose proof (N2Z.is_nonneg (Lines_of_Code s)).
  rewrite map_app. cbn [map]. rewrite sigma_snoc.
  rewrite IH by (try assumption; nia).
  rewrite (@term_integer x c s Hs) by (try assumption; nia).
  cbn [fadd binary64].
  rewrite float_of_int_add by nia.
  f_equal. ring.
Qed.

Lemma weighted_integer (x : Metrics float -> number float) (c : Z)
  (samples : list (Metrics float)) :
Forall (fun s => x s = PyInt c \/ x s = PyFloat (float_of_int c)) samples ->
0 <= c -> (0 < total_lines samples)%N ->
Z.of_N (total_lines samples) < 2 ^ prec ->
c * Z.of_N (total_lines samples) < 2 ^ prec ->
weighted x samples = PyFloat (float_of_int c).
Proof.
intros Hall Hc Hpos Htot Hlt. unfold weighted.
replace (0 <? total_lines samples)%N with true by (symmetry; apply N.ltb_lt; exact Hpos).
f_equal. rewrite (@sigma_integer x c samples Hall) by (try assumption; nia).
cbn [fdiv of_int binary64]. apply float_of_int_div; lia.
Qed.
End IntegerComplexity.

(** C7, as stated, fails in binary64, the arithmetic the program runs on.
    Three files: complexity 1 over 29 lines, and complexity 5/3 (the mean of
    block complexities 1, 2, 2) over 32 and over 19 lines, with
    maintainability 96.3, 53.0 and 41.7.  Aggregated in this order the
    complexity is 1.4250000000000003; with the first file moved to the end it
    is 1.425.  Lines of code and, here, maintainability agree. *)
Lemma reordering_changes_float_aggregate :
  Permutation
    [ sample (PyInt 1) (PyFloat 0x1.8133333333333p+6%float) 29;
      sample (PyFloat 0x1.aaaaaaaaaaaabp+0%float) (PyFloat 0x1.a8p+5%float) 32;
      sample (PyFloat 0x1.aaaaaaaaaaaabp+0%float) (PyFloat 0x1.4d9999999999ap+5%float) 19 ]
    [ sample (PyFloat 0x1.aaaaaaaaaaaabp+0%float) (PyFloat 0x1.a8p+5%float) 32;
      sample (PyFloat 0x1.aaaaaaaaaaaabp+0%float) (PyFloat 0x1.4d9999999999ap+5%float) 19;
      sample (PyInt 1) (PyFloat 0x1.8133333333333p+6%float) 29 ]
  /\ project_metrics
       [ sample (PyInt 1) (PyFloat 0x1.8133333333333p+6%float) 29;
         sample (PyFloat 0x1.aaaaaaaaaaaabp+0%float) (PyFloat 0x1.a8p+5%float) 32;
         sample (PyFloat 0x1.aaaaaaaaaaaabp+0%float) (PyFloat 0x1.4d9999999999ap+5%float) 19 ]
     = Ok (sample (PyFloat 0x1.6cccccccccccep+0%float)
                  (PyFloat 0x1.080cccccccccdp+6%float) 80)
  /\ project_metrics
       [ sample (PyFloat 0x1.aaaaaaaaaaaabp+0%float) (PyFloat 0x1.a8p+5%float) 32;
         sample (PyFloat 0x1.aaaaaaaaaaaabp+0%float) (PyFloat 0x1.4d9999999999ap+5%float) 19;
         sample (PyInt 1) (PyFloat 0x1.8133333333333p+6%float) 29 ]
     = Ok (sample (PyFloat 0x1.6cccccccccccdp+0%float)
                  (PyFloat 0x1.080cccccccccdp+6%float) 80)
  /\ PrimFloat.eqb 0x1.6cccccccccccep+0%float 0x1.6cccccccccccdp+0%float = false.
Proof.
  split; [| split; [| split]].
  - apply (Permutation_cons_app [_; _] []). reflexivity.
  - vm_compute. reflexivity.
  - vm_compute. reflexivity.
  - vm_compute. reflexivity.
Qed.

(** C7, amended.  The lines of code of the aggregate are invariant under any
    reordering of the samples, in binary64 as in any arithmetic; complexity
    and maintainability are invariant when the arithmetic is exact.  (In
    binary64 a reordering can change them by a rounding error.) *)
Theorem reordering_keeps_exact_aggregate :
  (forall (samples samples' : list (Metrics Qc)) (date : string),
      Permutation samples samples' ->
      project_metrics samples = project_metrics samples'
      /\ date_metrics_row date samples = date_metrics_row date samples')
  /\ (forall (samples samples' : list (Metrics float)) (date : string),
         Permutation samples samples' ->
         exists row row' dated dated',
           project_metrics samples = Ok row /\ project_metrics samples' = Ok row'
           /\ date_metrics_row date samples = Ok dated
           /\ date_metrics_row date samples' = Ok dated'
           /\ Lines_of_Code row = Lines_of_Code row'
           /\ Lines_of_Code dated = Lines_of_Code dated').
Proof.
  split.
  - intros samples samples' date Hperm.
    rewrite !project_metrics_spec, !date_metrics_row_spec.
    assert (Heq : spec_aggregate (A := exact) samples = spec_aggregate (A := exact) samples').
    { unfold spec_aggregate, weighted.
      rewrite (total_lines_perm Hperm).
      rewrite (exact_sigma_perm (Permutation_map (term (@Ciclomatic_Complexity Qc)) Hperm)).
      rewrite (exact_sigma_perm (Permutation_map (term (@Maintainability Qc)) Hperm)).
      reflexivity. }
    rewrite Heq. split; reflexivity.
  - intros samples samples' date Hperm.
    rewrite !project_metrics_spec, !date_metrics_row_spec.
    do 4 eexists. repeat (split; [reflexivity |]).
    cbn [spec_aggregate set_Date Lines_of_Code].
    rewrite (total_lines_perm Hperm). split; reflexivity.
Qed.

(** The three files of the counterexample with exact values: complexities 1,
    5/3, 5/3 and maintainability 963/10, 53, 417/10. *)
Lemma reordering_keeps_exact_aggregate_witness :
  project_metrics
    [ sample (PyInt 1) (PyFloat (Q2Qc (963 # 10))) 29;
      sample (PyFloat (Q2Qc (5 # 3))) (PyInt 53) 32;
      sample (PyFloat (Q2Qc (5 # 3))) (PyFloat (Q2Qc (417 # 10))) 19 ]
  = project_metrics
      [ sample (PyFloat (Q2Qc (5 # 3))) (PyInt 53) 32;
        sample (PyFloat (Q2Qc (5 # 3))) (PyFloat (Q2Qc (417 # 10))) 19;
        sample (PyInt 1) (PyFloat (Q2Qc (963 # 10))) 29 ].
Proof.
  refine (proj1 (proj1 reordering_keeps_exact_aggregate _ _ "2024-01-01 00:00:00"%string _)).
  apply (Permutation_cons_app [_; _] []). reflexivity.
Defined.

(** C8, as stated, fails in binary64.  Two files of 10 and 25 lines, both
    with complexity 4/3 (the mean of block complexities 1, 1, 2, the float
    1.3333333333333333): the aggregate complexity is 1.333333333333333, one
    unit in the last place below. *)
Lemma equal_complexities_float_aggregate_differs :
  project_metrics
    [ sample (PyFloat 0x1.5555555555555p+0%float) (PyFloat 50%float) 10;
      sample (PyFloat 0x1.5555555555555p+0%float) (PyFloat 50%float) 25 ]
  = Ok (sample (PyFloat 0x1.5555555555554p+0%float) (PyFloat 50%float) 35)
  /\ PrimFloat.eqb 0x1.5555555555554p+0%float 0x1.5555555555555p+0%float = false.
Proof.
  split; vm_compute; reflexivity.
Qed.

(** In exact arithmetic: when every sample has the complexity value [C] (as
    a number: the [int] 2 and the [float] 2.0 are the same value) and the
    lines of code sum to a positive total, the weighted mean is [C], whatever
    the line counts. *)
Lemma exact_equal_complexities (samples : list (Metrics Qc)) (C : number Qc) :
  Forall (fun s => to_float (Ciclomatic_Complexity s) = to_float C) samples ->
  (0 < total_lines samples)%N ->
  exists row,
    project_metrics samples = Ok row
    /\ Ciclomatic_Complexity row = PyFloat (to_float C).
Proof.
  intros Hall Hpos. rewrite project_metrics_spec. eexists. split; [reflexivity |].
  cbn [spec_aggregate Ciclomatic_Complexity]. unfold weighted.
  replace (0 <? total_lines samples)%N with true by (symmetry; apply N.ltb_lt; exact Hpos).
  f_equal. rewrite (exact_sigma_constant _ Hall).
  cbn [fdiv exact].
  assert (Hnz : of_int (Arith := exact) (Z.of_N (total_lines samples)) <> Q2Qc 0).
  { intros Heq.
    pose proof (exact_of_int_nonzero (n := Z.of_N (total_lines samples))) as Hb.
    rewrite <- Heq in Hb. cbn [of_int exact] in Hb.
    assert (Ht : Z.of_N (total_lines samples) <> 0%Z) by lia.
    specialize (Hb Ht). unfold Qc_eq_bool in Hb.
    destruct (Qc_eq_dec _ _) as [_ | Hne]; [discriminate | apply Hne; reflexivity]. }
  field. exact Hnz.
Qed.

(** C8, amended.  In binary64, the arithmetic the program runs on: when
    every sample has the complexity [C], a nonnegative integer held as an
    [int] or as a [float], the lines of code sum to a positive total, and
    that total and its product with [C] are below [2^53], the aggregate
    complexity is the float [float(C)] at both aggregation sites, whatever
    the line counts, and that float holds the value [C] itself: the products,
    their running sum and the quotient are all exact.
    In exact arithmetic the same holds of every value [C].  (For a [C] that
    is not an integer the binary64 aggregate can differ from [C].) *)
Theorem equal_complexities_exact_aggregate :
  (forall (samples : list (Metrics float)) (c : Z) (date : string),
      Forall (fun s => Ciclomatic_Complexity s = PyInt c
                       \/ Ciclomatic_Complexity s = PyFloat (float_of_int c)) samples ->
      (0 <= c)%Z -> (0 < total_lines samples)%N ->
      (Z.of_N (total_lines samples) < 2 ^ 53)%Z ->
      (c * Z.of_N (total_lines samples) < 2 ^ 53)%Z ->
      exists row dated,
        project_metrics samples = Ok row
        /\ date_metrics_row date samples = Ok dated
        /\ Ciclomatic_Complexity row = PyFloat (float_of_int c)
        /\ Ciclomatic_Complexity dated = PyFloat (float_of_int c)
        /\ (c = 0%Z
            \/ Prim2SF (float_of_int c)
               = S754_finite false (int_mantissa c) (int_exponent c)
               /\ (Z.pos (int_mantissa c) = c * 2 ^ (- int_exponent c))%Z))
  /\ (forall (samples : list (Metrics Qc)) (C : number Qc),
         Forall (fun s => to_float (Ciclomatic_Complexity s) = to_float C) samples ->
         (0 < total_lines samples)%N ->
         exists row,
           project_metrics samples = Ok row
           /\ Ciclomatic_Complexity row = PyFloat (to_float C)).
Proof.
  split.
  - intros samples c date Hall Hc Hpos Htot Hlt.
    rewrite project_metrics_spec, date_metrics_row_spec.
    eexists. eexists. split; [reflexivity |]. split; [reflexivity |].
    cbn [spec_aggregate set_Date Ciclomatic_Complexity].
    rewrite (@weighted_integer (@Ciclomatic_Complexity float) c samples Hall Hc Hpos Htot Hlt).
    split; [reflexivity |]. split; [reflexivity |].
    destruct (Z.eq_dec c 0) as [-> | Hnz]; [left; reflexivity | right].
    assert (Hcn : (0 < c < 2 ^ prec)%Z) by (change prec with 53%Z; nia).
    rewrite Prim2SF_float_of_int, (binary_normalize_pos Hcn).
    split; [reflexivity |].
    pose proof (int_digits Hcn).
    rewrite (int_mantissa_spec Hcn). unfold int_exponent. do 2 f_equal. lia.
  - apply exact_equal_complexities.
Qed.

(** A file of 10 lines with the [int] complexity 2 and one of 25 lines with
    the [float] complexity 2.0. *)
Lemma equal_complexities_exact_aggregate_witness :
  exists row dated,
    project_metrics
      [ sample (PyInt 2) (PyFloat 50%float) 10;
        sample (PyFloat (float_of_int 2)) (PyFloat 50%float) 25 ] = Ok row
    /\ date_metrics_row "2024-01-01 09:00:00"
         [ sample (PyInt 2) (PyFloat 50%float) 10;
           sample (PyFloat (float_of_int 2)) (PyFloat 50%float) 25 ] = Ok dated
    /\ Ciclomatic_Complexity row = PyFloat (float_of_int 2)
    /\ Ciclomatic_Complexity dated = PyFloat (float_of_int 2)
    /\ (2%Z = 0%Z
        \/ Prim2SF (float_of_int 2) = S754_finite false (int_mantissa 2) (int_exponent 2)
           /\ (Z.pos (int_mantissa 2) = 2 * 2 ^ (- int_exponent 2))%Z).
Proof.
  apply (proj1 equal_complexities_exact_aggregate).
  - constructor; [left; reflexivity |]. constructor; [right; reflexivity |]. constructor.
  - lia.
  - reflexivity.
  - reflexivity.
  - reflexivity.
Defined.


Section ZeroSample.
Local Open Scope float_scope.

Lemma fold_add_not_neg_zero (ts : list float) (a : float) :
  not_neg_zero a -> not_neg_zero (fold_left PrimFloat.add ts a).
Proof.
  revert a. induction ts as [| t ts IH]; intros a Ha; cbn [fold_left].
  - exact Ha.
  - apply IH. apply add_not_neg_zero. exact Ha.
Qed.

Lemma zero_not_neg_zero : not_neg_zero PrimFloat.zero.
Proof. unfold not_neg_zero. vm_compute. discriminate. Qed.

(** The weighted term of an all-zero sample is [0.0]. *)
Lemma zero_term (x : Metrics float -> number float) (z : Metrics float) :
  zero_number (x z) -> Lines_of_Code z = 0%N -> term x z = PrimFloat.zero.
Proof.
  intros [Hx | Hx] Hl; unfold term; rewrite Hx, Hl; vm_compute; reflexivity.
Qed.

(** A zero term anywhere in the sequence leaves the running sum as it is: the
    sum starts at [0.0] and is never [-0.0]. *)
Lemma sigma_skip_zero (ts1 ts2 : list float) :
  sigma (ts1 ++ PrimFloat.zero :: ts2) = sigma (ts1 ++ ts2).
Proof.
  rewrite <- !fold_fadd_sigma, !fold_left_app. cbn [fold_left fadd fzero binary64].
  rewrite add_zero_r.
  - reflexivity.
  - apply fold_add_not_neg_zero, zero_not_neg_zero.
  - exists false. vm_compute. reflexivity.
Qed.

Lemma spec_aggregate_skip_zero (samples1 samples2 : list (Metrics float))
    (z : Metrics float) :
  all_zero z ->
  spec_aggregate (samples1 ++ z :: samples2) = spec_aggregate (samples1 ++ samples2).
Proof.
  intros (Hc & Hm & Hl). unfold spec_aggregate, weighted.
  assert (Ht : total_lines (samples1 ++ z :: samples2) = total_lines (samples1 ++ samples2)).
  { rewrite !total_lines_app. unfold total_lines at 2. cbn [map fold_right].
    fold (total_lines samples2). rewrite Hl. lia. }
  rewrite Ht, !map_app. cbn [map].
  rewrite (zero_term (@Ciclomatic_Complexity float) z Hc Hl).
  rewrite (zero_term (@Maintainability float) z Hm Hl).
  rewrite !sigma_skip_zero, <- !map_app. reflexivity.
Qed.

(** C9.  In binary64: an all-zero sample (complexity 0, maintainability 0 and
    no line of code, whatever its label and date) added to a list of samples,
    at the end or at any other place, leaves the row of both aggregation
    sites unchanged. *)
Theorem zero_sample_is_neutral (samples1 samples2 : list (Metrics float))
    (z : Metrics float) (date : string) :
  all_zero z ->
  project_metrics (samples1 ++ [z]) = project_metrics samples1
  /\ date_metrics_row date (samples1 ++ [z]) = date_metrics_row date samples1
  /\ project_metrics (samples1 ++ z :: samples2) = project_metrics (samples1 ++ samples2)
  /\ date_metrics_row date (samples1 ++ z :: samples2)
     = date_metrics_row date (samples1 ++ samples2).
Proof.
  intros Hz. rewrite !project_metrics_spec, !date_metrics_row_spec.
  rewrite (spec_aggregate_skip_zero samples1 [] Hz).
  rewrite (spec_aggregate_skip_zero samples1 samples2 Hz).
  rewrite app_nil_r. repeat split; reflexivity.
Qed.

(** A file of 12 lines with complexity 4/3 and maintainability 71.5, then the
    sample of a file whose analysis failed, then a file of 7 lines. *)
Lemma zero_sample_is_neutral_witness :
  project_metrics
    ([ sample (PyFloat 0x1.5555555555555p+0) (PyFloat 71.5) 12 ]
     ++ [ {| File := None; Date := Some "2024-01-01 09:00:00"%string;
             Ciclomatic_Complexity := PyInt 0; Maintainability := PyInt 0;
             Lines_of_Code := 0 |} ])
  = project_metrics [ sample (PyFloat 0x1.5555555555555p+0) (PyFloat 71.5) 12 ].
Proof.
  refine (proj1 (@zero_sample_is_neutral _ [ sample (PyInt 2) (PyFloat 80) 7 ] _
                   "2024-01-01 09:00:00"%string _)).
  repeat split; left; reflexivity.
Defined.
End ZeroSample.

(** ** The state and the output of a whole inspection *)

Lemma for_each_fold_out {X S : Type} (body : S -> X -> IO S) (f : S -> X -> S)
    (g : X -> list string) :
  (forall acc x out, body acc x out = (Ok (f acc x), out ++ g x)) ->
  forall xs acc out,
    for_each body xs acc out = (Ok (fold_left f xs acc), out ++ flat_map g xs).
Proof.
  intros Hbody xs. induction xs as [| x xs IH]; intros acc out; cbn [for_each fold_left flat_map].
  - unfold ret. rewrite app_nil_r. reflexivity.
  - unfold bind. rewrite Hbody, IH, app_assoc. reflexivity.
Qed.

Lemma flat_map_if_filter {X Y : Type} (p : X -> bool) (g : X -> list Y) (xs : list X) :
  flat_map (fun x => if p x then g x else []) xs = flat_map g (filter p xs).
Proof.
  induction xs as [| x xs IH]; cbn [flat_map filter].
  - reflexivity.
  - rewrite IH. destruct (p x); reflexivity.
Qed.

Lemma flat_map_flat_map {X Y Z : Type} (f : X -> list Y) (g : Y -> list Z) (xs : list X) :
  flat_map g (flat_map f xs) = flat_map (fun x => flat_map g (f x)) xs.
Proof.
  induction xs as [| x xs IH]; cbn [flat_map].
  - reflexivity.
  - rewrite flat_map_app, IH. reflexivity.
Qed.

Lemma flat_map_map {X Y Z : Type} (f : X -> Y) (g : Y -> list Z) (xs : list X) :
  flat_map g (map f xs) = flat_map (fun x => g (f x)) xs.
Proof.
  induction xs as [| x xs IH]; cbn [flat_map map]; [reflexivity | rewrite IH; reflexivity].
Qed.

Section WalkOutput.
Context {F : Type} {A : Arith F} {E : Externals F}.

Lemma visit_item_out (repo : Repo) (commit : Commit) (history : dict (Metrics F))
    (item : Item) (out : list string) :
  visit_item repo commit history item out
  = (Ok (if contributes repo (commit, item)
         then add_entry repo history (commit, item) else history),
     out ++ (if contributes repo (commit, item)
             then diagnostic (content_at repo commit item) (stem item) else [])).
Proof.
  unfold visit_item, contributes, excluded, add_entry, sample_of, content_at, stem, is_source.
  cbn [fst snd].
  destruct (String.eqb (type item) "blob" && endswith (path item) ".py"); cbn [andb].
  - match goal with |- context [negb ?c] => destruct c end; cbn [negb].
    + unfold ret. rewrite app_nil_r. reflexivity.
    + unfold bind. rewrite _calculate_metrics_spec. reflexivity.
  - unfold ret. rewrite app_nil_r. reflexivity.
Qed.

Lemma walk_out (repo : Repo) (max_count : option Z) (out : list string) :
  _generate_history_metrics_by_file repo max_count out
  = (Ok (history_of repo max_count), out ++ walk_output repo max_count).
Proof.
  unfold _generate_history_metrics_by_file, history_of, walk_output, entries.
  rewrite fold_left_filter, fold_left_flat_map.
  rewrite <- flat_map_if_filter, flat_map_flat_map.
  apply (for_each_fold_out
           (fun h commit => for_each (visit_item repo commit) (traverse commit) h)
           (fun a c => fold_left (fun a0 x => if contributes repo x then add_entry repo a0 x else a0)
                         (map (pair c) (traverse c)) a)
           (fun c => flat_map
                       (fun e => if contributes repo e
                                 then diagnostic (content_at repo (fst e) (snd e)) (stem (snd e))
                                 else [])
                       (map (pair c) (traverse c)))).
  intros acc commit out0. rewrite fold_left_map, flat_map_map.
  apply (for_each_fold_out (visit_item repo commit)
           (fun a item => if contributes repo (commit, item)
                          then add_entry repo a (commit, item) else a)
           (fun item => if contributes repo (commit, item)
                        then diagnostic (content_at repo commit item) (stem item) else [])).
  intros acc' item out1. apply visit_item_out.
Qed.
End WalkOutput.

Section State.
Context {F : Type} {A : Arith F} {L : @Lawful F A} {E : Externals F}.

Lemma group_by_date_pure (history : dict (Metrics F)) :
  Forall (fun m => Date m <> None) (List.concat (values history)) ->
  group_by_date history
  = Ok (fold_left
          (fun by_date metrics =>
             match Date metrics with
             | Some date => dict_append by_date date metrics
             | None => by_date
             end) (List.concat (values history)) []).
Proof.
  unfold group_by_date. generalize (@nil (string * list (Metrics F))).
  induction (List.concat (values history)) as [| m samples IH]; intros d0 Hd; cbn [fold_left].
  - reflexivity.
  - inversion Hd as [| ? ? Hm Hd']; subst.
    unfold get_Date at 2. destruct (Date m) as [date |]; [| congruence].
    apply IH. exact Hd'.
Qed.

Lemma _generate_history_metrics_state (self : CodeQualityInspector F) (out : list string) :
  Forall (fun m => Date m <> None) (List.concat (values (_history_metrics_by_file self))) ->
  _generate_history_metrics self out
  = (Ok {| _project_directory := _project_directory self;
           _metrics := _metrics self;
           _metrics_by_file := _metrics_by_file self;
           _history_metrics :=
             _history_metrics self ++ timeline (_history_metrics_by_file self);
           _history_metrics_by_file := _history_metrics_by_file self |}, out).
Proof.
  intros Hd.
  destruct (group_by_date_fold [] Hd) as (by_date & Hrun & Hget & _ & _).
  change (group_by_date (_history_metrics_by_file self) = Ok by_date) in Hrun.
  pose proof (group_by_date_pure _ Hd) as Hpure. rewrite Hrun in Hpure.
  injection Hpure as Hpure.
  unfold _generate_history_metrics. unfold bind at 1. unfold lift at 1. rewrite Hrun.
  unfold timeline. rewrite <- Hpure.
  generalize (sorted_reverse (keys by_date)). intros dates.
  set (samples := List.concat (values (_history_metrics_by_file self))) in *.
  assert (Hloop : forall (self0 : CodeQualityInspector F),
             for_each
               (fun self1 date =>
                  bind (lift (date_metrics_row date (dict_get by_date date)))
                    (fun row =>
                       ret {| _project_directory := _project_directory self1;
                              _metrics := _metrics self1;
                              _metrics_by_file := _metrics_by_file self1;
                              _history_metrics := _history_metrics self1 ++ [row];
                              _history_metrics_by_file := _history_metrics_by_file self1 |}))
               dates self0 out
             = (Ok {| _project_directory := _project_directory self0;
                      _metrics := _metrics self0;
                      _metrics_by_file := _metrics_by_file self0;
                      _history_metrics :=
                        _history_metrics self0
                        ++ map (fun date =>
                                  set_Date (spec_aggregate (filter (has_date date) samples))
                                           date) dates;
                      _history_metrics_by_file := _history_metrics_by_file self0 |}, out)).
  { induction dates as [| date dates IH]; intros self0; cbn [for_each map].
    - unfold ret. rewrite app_nil_r. destruct self0; reflexivity.
    - unfold bind at 1. unfold bind at 1. unfold lift at 1.
      rewrite date_metrics_row_spec. unfold ret at 1.
      rewrite IH. cbn [_project_directory _metrics _metrics_by_file _history_metrics
                         _history_metrics_by_file].
      rewrite Hget. cbn [dict_get app]. rewrite <- app_assoc. reflexivity. }
  apply Hloop.
Qed.

Lemma _generate_project_metrics_by_file_state (repo : Repo)
    (self : CodeQualityInspector F) (out : list string) :
  _generate_project_metrics_by_file repo self out
  = (Ok {| _project_directory := _project_directory self;
           _metrics := _metrics self;
           _metrics_by_file :=
             _metrics_by_file self ++ first_rows (history_of repo (Some 1%Z));
           _history_metrics := _history_metrics self;
           _history_metrics_by_file := _history_metrics_by_file self |},
     out ++ walk_output repo (Some 1%Z)).
Proof.
  destruct (_generate_project_metrics_by_file_spec repo self out) as [out' Hrun].
  rewrite Hrun. f_equal.
  unfold _generate_project_metrics_by_file in Hrun. unfold bind at 1 in Hrun.
  rewrite walk_out in Hrun.
  revert Hrun. generalize (history_of repo (Some 1%Z)). intros h.
  match goal with |- for_each ?b _ _ _ = _ -> _ => set (body := b) end.
  generalize (out ++ walk_output repo (Some 1%Z)). intros out1.
  assert (Hkeep : forall h0 self0 o r o', for_each body h0 self0 o = (r, o') -> o' = o).
  { induction h0 as [| [k vs] h0 IH]; intros self0 o r o'; cbn [for_each].
    - unfold ret. intros H. injection H as _ <-. reflexivity.
    - unfold bind at 1. unfold body at 1. cbv [bind lift ret].
      destruct vs as [| m vs].
      + intros H. injection H as _ <-. reflexivity.
      + apply IH. }
  intros Hrun. exact (Hkeep _ _ _ _ _ Hrun).
Qed.

Lemma inspect_project_state (repo : Repo) (self : CodeQualityInspector F)
    (inspect_history : bool) (max_history_count : Z) (out : list string) :
  inspect_project repo self inspect_history max_history_count out
  = (Ok {| _project_directory := _project_directory self;
           _metrics :=
             _metrics self
             ++ [spec_aggregate
                   (_metrics_by_file self ++ first_rows (history_of repo (Some 1%Z)))];
           _metrics_by_file :=
             _metrics_by_file self ++ first_rows (history_of repo (Some 1%Z));
           _history_metrics :=
             _history_metrics self
             ++ (if inspect_history
                 then timeline (history_of repo (history_limit max_history_count))
                 else []);
           _history_metrics_by_file :=
             if inspect_history
             then history_of repo (history_limit max_history_count)
             else _history_metrics_by_file self |},
     out ++ walk_output repo (Some 1%Z)
         ++ (if inspect_history
             then walk_output repo (history_limit max_history_count) else [])).
Proof.
  unfold inspect_project. unfold bind at 1.
  rewrite _generate_project_metrics_by_file_state.
  unfold bind at 1. rewrite _generate_project_metrics_spec.
  cbn [_project_directory _metrics _metrics_by_file _history_metrics
         _history_metrics_by_file].
  destruct inspect_history.
  - unfold bind at 1. fold (history_limit max_history_count).
    rewrite walk_out.
    rewrite _generate_history_metrics_state by apply history_of_dated.
    cbn [_project_directory _metrics _metrics_by_file _history_metrics
           _history_metrics_by_file].
    rewrite <- app_assoc. reflexivity.
  - unfold ret. rewrite !app_nil_r. reflexivity.
Qed.
End State.

Lemma entries_unlimited_split (repo : Repo) (n : Z) :
  exists rest, entries repo None = entries repo (Some n) ++ rest.
Proof.
  unfold entries, iter_commits. destruct (n <? 0)%Z.
  - exists []. rewrite app_nil_r. reflexivity.
  - exists (flat_map (fun commit => map (pair commit) (traverse commit))
              (skipn (Z.to_nat n) (log repo))).
    rewrite <- flat_map_app, firstn_skipn. reflexivity.
Qed.

Lemma entries_limit_all (repo : Repo) (n : Z) :
  (Z.of_nat (List.length (log repo)) <= n)%Z ->
  entries repo (Some n) = entries repo None.
Proof.
  intros Hn. unfold entries, iter_commits.
  destruct (n <? 0)%Z; [reflexivity |]. rewrite firstn_all2 by lia. reflexivity.
Qed.

(** X1.  With [inspect_history] set, [inspect_project] returns and replaces
    the file history it held by the walk of the repository.  The walk covers
    the whole log when [max_history_count] is zero or negative, and the
    [max_history_count] newest commits otherwise; a limit that is not below
    the length of the log changes nothing. *)
Theorem history_limit_of_inspect_project {E : Externals float} (repo : Repo)
    (self : CodeQualityInspector float) (max_history_count : Z) (out : list string) :
  exists self' out',
    inspect_project repo self true max_history_count out = (Ok self', out')
    /\ ((max_history_count <= 0)%Z ->
        _history_metrics_by_file self' = history_of repo None)
    /\ ((0 < max_history_count)%Z ->
        _history_metrics_by_file self' = history_of repo (Some max_history_count)
        /\ entries repo (Some max_history_count)
           = flat_map (fun commit => map (pair commit) (traverse commit))
               (firstn (Z.to_nat max_history_count) (log repo)))
    /\ ((Z.of_nat (List.length (log repo)) <= max_history_count)%Z ->
        _history_metrics_by_file self' = history_of repo None).
Proof.
  eexists. eexists. split; [apply inspect_project_state |].
  cbn [_history_metrics_by_file]. unfold history_limit.
  split; [| split].
  - intros Hle. replace (0 <? max_history_count)%Z with false
      by (symmetry; apply Z.ltb_ge; exact Hle). reflexivity.
  - intros Hlt. replace (0 <? max_history_count)%Z with true
      by (symmetry; apply Z.ltb_lt; exact Hlt). split; [reflexivity |].
    unfold entries, iter_commits.
    replace (max_history_count <? 0)%Z with false
      by (symmetry; apply Z.ltb_ge; lia). reflexivity.
  - intros Hlen. destruct (Z.ltb_spec 0 max_history_count) as [Hlt | Hle].
    + unfold history_of. rewrite (entries_limit_all repo Hlen). reflexivity.
    + reflexivity.
Qed.

(** X2.  Limiting the walk to the [n] newest commits truncates every file's
    series: the series under the limit is a prefix of the series of the
    unlimited walk, so the samples kept are the newest ones. *)
Theorem limited_series_is_prefix {F : Type} {A : Arith F} {E : Externals F}
    (repo : Repo) (n : Z) (k : string) :
  exists older,
    dict_get (history_of repo None) k
    = dict_get (history_of repo (Some n)) k ++ older.
Proof.
  unfold history_of. rewrite !dict_get_fold_add. cbn [dict_get app].
  destruct (entries_unlimited_split repo n) as [rest ->].
  rewrite !filter_app, map_app. eexists. reflexivity.
Qed.

(** X3.  Without [inspect_history], [inspect_project] leaves the timeline and
    the file history as they were, prints what the walk of the HEAD commit
    prints and nothing else, and does not depend on [max_history_count]. *)
Theorem inspect_without_history {E : Externals float} (repo : Repo)
    (self : CodeQualityInspector float) (max_history_count : Z) (out : list string) :
  exists self',
    inspect_project repo self false max_history_count out
    = (Ok self', out ++ walk_output repo (Some 1%Z))
    /\ _history_metrics self' = _history_metrics self
    /\ _history_metrics_by_file self' = _history_metrics_by_file self
    /\ forall other : Z,
         inspect_project repo self false other out
         = inspect_project repo self false max_history_count out.
Proof.
  rewrite inspect_project_state, !app_nil_r.
  eexists. split; [reflexivity |]. split; [reflexivity |]. split; [reflexivity |].
  intros other. rewrite inspect_project_state, !app_nil_r. reflexivity.
Qed.

Section Accumulated.
Context {F : Type} {A : Arith F} {L : @Lawful F A} {E : Externals F}.

Lemma inspect_many_same_repo (repo : Repo) (args : list (bool * Z))
    (self : CodeQualityInspector F) (out : list string) :
  exists self' out',
    inspect_many (map (fun a => (repo, fst a, snd a)) args) self out = (Ok self', out')
    /\ map (@Lines_of_Code F) (_metrics self')
       = map (@Lines_of_Code F) (_metrics self)
         ++ map (fun j => (total_lines (_metrics_by_file self)
                           + N.of_nat j
                             * total_lines (first_rows (history_of repo (Some 1%Z))))%N)
              (seq 1 (List.length args)).
Proof.
  unfold inspect_many. revert self out.
  induction args as [| [inspect_history max_history_count] args IH]; intros self out;
    cbn [map for_each List.length seq fst snd].
  - exists self, out. split; [reflexivity |]. rewrite app_nil_r. reflexivity.
  - unfold bind at 1. rewrite inspect_project_state.
    match goal with
    | |- context [for_each _ _ ?s ?o] => destruct (IH s o) as (self' & out' & Hrun & Hloc)
    end.
    exists self', out'. split; [exact Hrun |].
    rewrite Hloc. cbn [_metrics _metrics_by_file].
    rewrite map_app, <- app_assoc. cbn [map app spec_aggregate Lines_of_Code].
    rewrite total_lines_app.
    f_equal. f_equal.
    + lia.
    + rewrite <- (seq_shift (List.length args) 1), map_map. apply map_ext. intros j. lia.
Qed.
End Accumulated.

(** X4.  The overall row aggregates every per-file row accumulated on the
    instance, those of earlier calls included: after [k] calls on one fresh
    instance over an unchanged repository, the lines of code of the [j]-th
    overall row are [j] times the lines of code of the HEAD files. *)
Theorem overall_rows_count_earlier_calls {E : Externals float} (repo : Repo)
    (args : list (bool * Z)) (project_directory : string) (out : list string) :
  exists self' out',
    inspect_many (map (fun a => (repo, fst a, snd a)) args) (__init__ project_directory) out
    = (Ok self', out')
    /\ map (@Lines_of_Code float) (_metrics self')
       = map (fun j => (N.of_nat j * total_lines (first_rows (history_of repo (Some 1%Z))))%N)
           (seq 1 (List.length args)).
Proof.
  destruct (inspect_many_same_repo repo args (__init__ project_directory) out)
    as (self' & out' & Hrun & Hloc).
  exists self', out'. split; [exact Hrun |].
  rewrite Hloc. reflexivity.
Qed.



Section Printing.
Context {F : Type} {A : Arith F} {E : Externals F}.


End Printing.


Lemma NoDup_map_Some {X : Type} (l : list X) : NoDup l -> NoDup (map Some l).
Proof.
  induction 1 as [| x l Hx _ IH]; cbn [map]; constructor.
  - intros Hin. apply in_map_iff in Hin. destruct Hin as (y & Hy & Hin).
    injection Hy as ->. exact (Hx Hin).
  - exact IH.
Qed.

Section PerFile.
Context {F : Type} {A : Arith F} {E : Externals F}.

Lemma first_rows_files (history : dict (Metrics F)) :
  Forall (fun kv => snd kv <> []) history ->
  map (@File F) (first_rows history) = map Some (keys history).
Proof.
  unfold first_rows, keys. induction 1 as [| [k vs] h Hk _ IH]; cbn [flat_map map fst].
  - reflexivity.
  - cbn [snd] in Hk. destruct vs as [| m vs]; [congruence |].
    cbn [app map set_File File]. rewrite IH. reflexivity.
Qed.

Lemma first_rows_from_values (history : dict (Metrics F)) (row : Metrics F) :
  In row (first_rows history) ->
  exists m k, In m (List.concat (values history)) /\ row = set_File m k.
Proof.
  unfold first_rows, values. induction history as [| [k vs] h IH]; cbn [flat_map map snd List.concat].
  - intros [].
  - intros Hin. apply in_app_or in Hin. destruct Hin as [Hin | Hin].
    + destruct vs as [| m vs]; [destruct Hin |]. destruct Hin as [<- | []].
      exists m, k. split; [| reflexivity]. apply in_or_app. left. left. reflexivity.
    + destruct (IH Hin) as (m & k' & Hm & ->). exists m, k'.
      split; [| reflexivity]. apply in_or_app. right. exact Hm.
Qed.

Lemma history_samples (repo : Repo) (max_count : option Z) (m : Metrics F) :
  In m (List.concat (values (history_of repo max_count))) ->
  exists e, In e (entries repo max_count) /\ contributes repo e = true
            /\ m = sample_of repo e.
Proof.
  unfold history_of. intros Hin.
  apply (Permutation_in _ (values_fold_add_perm repo _ [])) in Hin.
  cbn [values map List.concat app] in Hin.
  apply in_map_iff in Hin. destruct Hin as (e & <- & He).
  apply filter_In in He. exists e. tauto.
Qed.
End PerFile.

(** X6.  On a repository with a HEAD commit, the rows
    [_generate_project_metrics_by_file] appends carry, in order, the distinct
    stems of the history of the HEAD commit as their file labels, and all
    carry one date, the formatted commit time of the HEAD commit. *)
Theorem per_file_rows_labelled_and_dated {E : Externals float} (repo : Repo)
    (head : Commit) (older : list Commit)
    (self : CodeQualityInspector float) (out : list string) :
  log repo = head :: older ->
  exists rows out',
    _generate_project_metrics_by_file repo self out
    = (Ok {| _project_directory := _project_directory self;
             _metrics := _metrics self;
             _metrics_by_file := _metrics_by_file self ++ rows;
             _history_metrics := _history_metrics self;
             _history_metrics_by_file := _history_metrics_by_file self |}, out')
    /\ map (@File float) rows = map Some (keys (history_of repo (Some 1%Z)))
    /\ NoDup (map (@File float) rows)
    /\ Forall (fun row =>
                 Date row = Some (strftime (fromtimestamp (committed_date head)))) rows.
Proof.
  intros Hlog.
  exists (first_rows (history_of repo (Some 1%Z))). eexists.
  split; [apply _generate_project_metrics_by_file_state |].
  assert (Hfiles : map (@File float) (first_rows (history_of repo (Some 1%Z)))
                   = map Some (keys (history_of repo (Some 1%Z)))).
  { apply first_rows_files, history_of_nonempty. }
  split; [exact Hfiles |]. split.
  - rewrite Hfiles. apply NoDup_map_Some.
    unfold history_of. apply NoDup_keys_fold_add. constructor.
  - pose proof (entries_head repo) as Hhead.
    rewrite Hlog in Hhead.
    apply Forall_forall. intros row Hrow.
    destruct (first_rows_from_values _ _ Hrow) as (m & k & Hm & ->).
    destruct (history_samples _ _ _ Hm) as (e & He & _ & ->).
    rewrite Hhead in He. apply in_map_iff in He. destruct He as (item & <- & _).
    reflexivity.
Qed.

(** The two modules of [distinct_stem_repo] and its [setup.py]. *)
Lemma per_file_rows_labelled_and_dated_witness :
  exists rows out',
    _generate_project_metrics_by_file (E := stand_in) distinct_stem_repo (__init__ ".") []
    = (Ok {| _project_directory := "."; _metrics := [];
             _metrics_by_file := [] ++ rows;
             _history_metrics := []; _history_metrics_by_file := [] |}, out')
    /\ map (@File float) rows
       = map Some (keys (history_of (E := stand_in) distinct_stem_repo (Some 1%Z)))
    /\ NoDup (map (@File float) rows)
    /\ Forall (fun row => Date row = Some "2023-11-14 22:13:20"%string) rows.
Proof.
  exact (@per_file_rows_labelled_and_dated stand_in distinct_stem_repo
           (hd {| hexsha := ""; committed_date := 0; traverse := [] |}
               (log distinct_stem_repo))
           (tl (log distinct_stem_repo)) (__init__ ".") [] eq_refl).
Defined.

Lemma sum_indicator (d0 : string) (x : N) (ds : list string) :
  NoDup ds ->
  fold_right N.add 0%N (map (fun d => if String.eqb d0 d then x else 0%N) ds)
  = if existsb (String.eqb d0) ds then x else 0%N.
Proof.
  induction 1 as [| d ds Hd _ IH]; cbn [map fold_right existsb].
  - reflexivity.
  - rewrite IH. destruct (String.eqb_spec d0 d) as [-> | Hne]; cbn [orb].
    + replace (existsb (String.eqb d) ds) with false; [lia |].
      symmetry. apply not_true_is_false. intros Hex.
      apply existsb_eqb_In in Hex. exact (Hd Hex).
    + lia.
Qed.

Section Conservation.
Context {F : Type} {A : Arith F}.

Lemma total_lines_cons (m : Metrics F) (l : list (Metrics F)) :
  total_lines (m :: l) = (Lines_of_Code m + total_lines l)%N.
Proof. reflexivity. Qed.

(** Distinct dates that cover the samples split them without loss. *)
Lemma total_lines_by_date (ds : list string) (samples : list (Metrics F)) :
  NoDup ds ->
  Forall (fun m => exists d, Date m = Some d /\ In d ds) samples ->
  fold_right N.add 0%N (map (fun d => total_lines (filter (has_date d) samples)) ds)
  = total_lines samples.
Proof.
  intros Hnd. induction 1 as [| m samples (d0 & Hd0 & Hin) _ IH].
  - cbn [filter]. induction ds as [| d ds IHd]; cbn [map fold_right]; [reflexivity |].
    inversion Hnd; subst. rewrite IHd by assumption. reflexivity.
  - rewrite total_lines_cons, <- IH.
    transitivity
      (fold_right N.add 0%N
         (map (fun d => if String.eqb d0 d then Lines_of_Code m else 0%N) ds)
       + fold_right N.add 0%N
           (map (fun d => total_lines (filter (has_date d) samples)) ds))%N.
    + clear - Hd0. induction ds as [| d ds IHd]; cbn [map fold_right]; [reflexivity |].
      rewrite IHd. cbn [filter]. unfold has_date at 1. rewrite Hd0.
      destruct (String.eqb d0 d); [rewrite total_lines_cons |]; lia.
    + rewrite (sum_indicator d0 (Lines_of_Code m) Hnd).
      replace (existsb (String.eqb d0) ds) with true
        by (symmetry; apply existsb_eqb_In; exact Hin).
      reflexivity.
Qed.

Lemma total_lines_timeline_rows (ds : list string) (samples : list (Metrics F)) :
  total_lines
    (map (fun date => set_Date (spec_aggregate (filter (has_date date) samples)) date) ds)
  = fold_right N.add 0%N (map (fun d => total_lines (filter (has_date d) samples)) ds).
Proof.
  induction ds as [| d ds IH]; cbn [map fold_right].
  - reflexivity.
  - rewrite total_lines_cons, IH. reflexivity.
Qed.

Lemma by_date_keys (history : dict (Metrics F)) :
  Forall (fun m => Date m <> None) (List.concat (values history)) ->
  NoDup (keys (fold_left
                 (fun by_date metrics =>
                    match Date metrics with
                    | Some date => dict_append by_date date metrics
                    | None => by_date
                    end) (List.concat (values history)) []))
  /\ forall k,
       In k (keys (fold_left
                     (fun by_date metrics =>
                        match Date metrics with
                        | Some date => dict_append by_date date metrics
                        | None => by_date
                        end) (List.concat (values history)) []))
       <-> exists m, In m (List.concat (values history)) /\ Date m = Some k.
Proof.
  intros Hd.
  destruct (group_by_date_fold [] Hd) as (by_date & Hrun & _ & Hnd & Hkeys).
  change (group_by_date history = Ok by_date) in Hrun.
  rewrite (group_by_date_pure _ Hd) in Hrun. injection Hrun as ->.
  split; [apply Hnd; constructor |].
  intros k. rewrite Hkeys. cbn [keys map In]. tauto.
Qed.

Lemma total_lines_timeline (history : dict (Metrics F)) :
  Forall (fun m => Date m <> None) (List.concat (values history)) ->
  total_lines (timeline history) = total_lines (List.concat (values history)).
Proof.
  intros Hd. destruct (by_date_keys _ Hd) as [Hnd Hkeys].
  unfold timeline. rewrite total_lines_timeline_rows.
  apply total_lines_by_date.
  - eapply Permutation_NoDup; [apply sorted_reverse_perm | exact Hnd].
  - apply Forall_forall. intros m Hm.
    rewrite Forall_forall in Hd. specialize (Hd m Hm).
    destruct (Date m) as [d |] eqn:Edate; [| congruence].
    exists d. split; [reflexivity |].
    apply (Permutation_in _ (sorted_reverse_perm _)).
    apply Hkeys. exists m. tauto.
Qed.

Lemma group_by_date_raises (samples : list (Metrics F)) (d0 : dict (Metrics F)) :
  Exists (fun m => Date m = None) samples ->
  fold_left
    (fun acc metrics =>
       match acc with
       | Raise err => Raise err
       | Ok metrics_by_date =>
           match get_Date metrics with
           | Raise err => Raise err
           | Ok date => Ok (dict_append metrics_by_date date metrics)
           end
       end) samples (Ok d0) = Raise (KeyError "Date").
Proof.
  intros Hex. revert d0. induction Hex as [m samples Hm | m samples _ IH]; intros d0;
    cbn [fold_left].
  - unfold get_Date at 2. rewrite Hm.
    clear. induction samples as [| m' samples IH]; cbn [fold_left]; [reflexivity | exact IH].
  - unfold get_Date at 2. destruct (Date m) as [date |].
    + apply IH.
    + clear. induction samples as [| m' samples IH]; cbn [fold_left]; [reflexivity | exact IH].
Qed.
End Conservation.

(** X7.  Regrouping by date loses and invents nothing: for an inspector whose
    file history holds dated samples, the lines of code of the rows
    [_generate_history_metrics] appends sum to the lines of code of all the
    samples of the file history. *)
Theorem timeline_conserves_lines_of_code (self : CodeQualityInspector float)
    (out : list string) :
  Forall (fun m => Date m <> None) (List.concat (values (_history_metrics_by_file self))) ->
  exists rows,
    _generate_history_metrics self out
    = (Ok {| _project_directory := _project_directory self;
             _metrics := _metrics self;
             _metrics_by_file := _metrics_by_file self;
             _history_metrics := _history_metrics self ++ rows;
             _history_metrics_by_file := _history_metrics_by_file self |}, out)
    /\ total_lines rows
       = total_lines (List.concat (values (_history_metrics_by_file self))).
Proof.
  intros Hd. exists (timeline (_history_metrics_by_file self)).
  split; [apply _generate_history_metrics_state; exact Hd |].
  apply total_lines_timeline. exact Hd.
Qed.

Lemma timeline_conserves_lines_of_code_witness :
  exists rows,
    _generate_history_metrics
      {| _project_directory := "."; _metrics := []; _metrics_by_file := [];
         _history_metrics := []; _history_metrics_by_file := two_date_history |} []
    = (Ok {| _project_directory := "."; _metrics := []; _metrics_by_file := [];
             _history_metrics := [] ++ rows;
             _history_metrics_by_file := two_date_history |}, [])
    /\ total_lines rows = total_lines (List.concat (values two_date_history)).
Proof.
  apply (@timeline_conserves_lines_of_code
           {| _project_directory := "."; _metrics := []; _metrics_by_file := [];
              _history_metrics := []; _history_metrics_by_file := two_date_history |} []).
  cbn. repeat constructor; discriminate.
Defined.

(** X8.  A sample without a date in the file history makes
    [_generate_history_metrics] raise [KeyError('Date')] while it regroups,
    before any row is appended to the timeline. *)
Theorem undated_sample_raises_key_error {F : Type} {A : Arith F}
    (self : CodeQualityInspector F) (out : list string) :
  Exists (fun m => Date m = None) (List.concat (values (_history_metrics_by_file self))) ->
  _generate_history_metrics self out = (Raise (KeyError "Date"), out).
Proof.
  intros Hex.
  assert (Hg : group_by_date (_history_metrics_by_file self) = Raise (KeyError "Date"))
    by (apply group_by_date_raises; exact Hex).
  unfold _generate_history_metrics. unfold bind at 1. unfold lift at 1.
  rewrite Hg. reflexivity.
Qed.

Lemma undated_sample_raises_key_error_witness :
  _generate_history_metrics
    {| _project_directory := "."; _metrics := []; _metrics_by_file := [];
       _history_metrics := [];
       _history_metrics_by_file :=
         two_date_history
         ++ [("c"%string, [sample (PyInt 1) (PyFloat 90%float) 4])] |} []
  = (Raise (KeyError "Date"), []).
Proof.
  apply (@undated_sample_raises_key_error float binary64).
  cbn. do 3 apply Exists_cons_tl. apply Exists_cons_hd. reflexivity.
Defined.

Section Strings.
Local Open Scope string_scope.

Lemma length_append (s t : string) :
  String.length (s ++ t) = (String.length s + String.length t)%nat.
Proof. induction s as [| a s IH]; cbn; [reflexivity | rewrite IH; reflexivity]. Qed.

Lemma substring_all (s : string) : substring 0 (String.length s) s = s.
Proof. induction s as [| a s IH]; cbn; [reflexivity | rewrite IH; reflexivity]. Qed.

Lemma substring_prefix (s t : string) : substring 0 (String.length s) (s ++ t) = s.
Proof.
  induction s as [| a s IH]; cbn.
  - destruct t; reflexivity.
  - rewrite IH. reflexivity.
Qed.

Lemma substring_suffix (s t : string) :
  substring (String.length s) (String.length t) (s ++ t) = t.
Proof.
  induction s as [| a s IH]; cbn.
  - apply substring_all.
  - exact IH.
Qed.

Lemma substring_split (n : nat) (p : string) :
  (n <= String.length p)%nat ->
  substring 0 n p ++ substring n (String.length p - n) p = p.
Proof.
  revert n. induction p as [| a p IH]; intros n Hn.
  - cbn in Hn. replace n with 0%nat by lia. reflexivity.
  - destruct n as [| n].
    + cbn. rewrite substring_all. reflexivity.
    + cbn in Hn. cbn. rewrite IH by lia. reflexivity.
Qed.

Lemma rfind_from_bounds (c : ascii) (s : string) (i : Z) :
  (0 <= i)%Z ->
  rfind_from c s i = (-1)%Z
  \/ (i <= rfind_from c s i < i + Z.of_nat (String.length s))%Z.
Proof.
  revert i. induction s as [| a s IH]; intros i Hi; cbn [rfind_from String.length].
  - left. reflexivity.
  - destruct (@IH (i + 1)%Z ltac:(lia)) as [Hnone | Hsome].
    + rewrite Hnone. cbn. destruct (Ascii.eqb a c); [right; lia | left; reflexivity].
    + destruct (Z.leb_spec 0 (rfind_from c s (i + 1))); [right; lia | lia].
Qed.

Lemma rfind_from_absent (c : ascii) (s : string) (i : Z) :
  contains c s = false -> rfind_from c s i = (-1)%Z.
Proof.
  revert i. induction s as [| a s IH]; intros i Hc; cbn [rfind_from].
  - reflexivity.
  - cbn [contains] in Hc. apply orb_false_elim in Hc. destruct Hc as [Ha Hs].
    rewrite IH by exact Hs. rewrite Ha. reflexivity.
Qed.

Lemma rfind_from_last (c : ascii) (s t : string) (i : Z) :
  (0 <= i)%Z -> contains c t = false ->
  rfind_from c (s ++ String c t) i = (i + Z.of_nat (String.length s))%Z.
Proof.
  revert i. induction s as [| a s IH]; intros i Hi Ht; cbn [String.append rfind_from String.length].
  - rewrite rfind_from_absent by exact Ht. rewrite Ascii.eqb_refl. cbn. lia.
  - rewrite IH by (try lia; exact Ht).
    destruct (Z.leb_spec 0 (i + 1 + Z.of_nat (String.length s))); lia.
Qed.

Lemma contains_append (c : ascii) (s t : string) :
  contains c (s ++ t) = contains c s || contains c t.
Proof.
  induction s as [| a s IH]; cbn [String.append contains].
  - reflexivity.
  - rewrite IH, orb_assoc. reflexivity.
Qed.

Lemma has_non_dot_append (s t : string) (i fuel : nat) :
  (i + fuel <= String.length s)%nat ->
  has_non_dot (s ++ t) i fuel = has_non_dot s i fuel.
Proof.
  revert i. induction fuel as [| fuel IH]; intros i Hi; cbn [has_non_dot].
  - reflexivity.
  - rewrite <- (append_correct1 s t) by lia.
    rewrite IH by lia. reflexivity.
Qed.

(** [os.path.splitext] loses no character: root and extension make up the
    path. *)
Lemma splitext_round_trip (p : string) : fst (splitext p) ++ snd (splitext p) = p.
Proof.
  unfold splitext.
  destruct ((rfind "/" p <? rfind "." p)%Z
            && has_non_dot p (Z.to_nat (rfind "/" p + 1))
                 (Z.to_nat (rfind "." p - (rfind "/" p + 1)))) eqn:Hc; cbn [fst snd].
  - apply substring_split.
    apply andb_prop in Hc. destruct Hc as [Hlt _]. apply Z.ltb_lt in Hlt.
    unfold rfind in *.
    destruct (@rfind_from_bounds "." p 0%Z ltac:(lia)) as [Hn | Hb];
      destruct (@rfind_from_bounds "/" p 0%Z ltac:(lia)) as [Hn' | Hb']; lia.
  - clear. induction p as [| a p IH]; cbn; [reflexivity | rewrite IH; reflexivity].
Qed.

(** A name [base.py] without a slash, whose base is not made of dots only,
    splits into [base] and [.py]. *)
Lemma splitext_py (base : string) :
  contains "/" base = false ->
  has_non_dot base 0 (String.length base) = true ->
  splitext (base ++ ".py") = (base, ".py").
Proof.
  intros Hslash Hdots. unfold splitext, rfind.
  assert (Hsep : rfind_from "/" (base ++ ".py") 0 = (-1)%Z).
  { apply rfind_from_absent. rewrite contains_append, Hslash. reflexivity. }
  assert (Hdot : rfind_from "." (base ++ ".py") 0 = Z.of_nat (String.length base)).
  { change (base ++ ".py") with (base ++ String "." "py").
    rewrite rfind_from_last by (try lia; reflexivity). lia. }
  rewrite Hsep, Hdot.
  replace (-1 <? Z.of_nat (String.length base))%Z with true by (symmetry; apply Z.ltb_lt; lia).
  change (Z.to_nat (-1 + 1)) with 0%nat.
  replace (Z.to_nat (Z.of_nat (String.length base) - (-1 + 1))) with (String.length base) by lia.
  rewrite has_non_dot_append by lia. rewrite Hdots. cbn [andb].
  rewrite Nat2Z.id, length_append, substring_prefix.
  replace (String.length base + String.length ".py" - String.length base)%nat
    with (String.length ".py") by lia.
  rewrite substring_suffix. reflexivity.
Qed.
End Strings.

(** X9.  The key under which a file is tracked is a prefix of its name: stem
    and extension make up the name.  For a name [base.py] without a slash
    whose base is not made of dots only, the key is [base]; in particular a
    contributing entry named [base.py] has its sample in the series of
    [base]. *)
Theorem stem_of_source_file {F : Type} {A : Arith F} {E : Externals F} :
  (forall item : Item,
      (stem item ++ snd (splitext (name item)))%string = name item)
  /\ (forall (item : Item) (base : string),
         name item = (base ++ ".py")%string ->
         contains "/" base = false ->
         has_non_dot base 0 (String.length base) = true ->
         stem item = base)
  /\ (forall (repo : Repo) (max_count : option Z) (commit : Commit) (item : Item)
             (base : string),
         In (commit, item) (entries repo max_count) ->
         contributes repo (commit, item) = true ->
         name item = (base ++ ".py")%string ->
         contains "/" base = false ->
         has_non_dot base 0 (String.length base) = true ->
         In (sample_of repo (commit, item)) (dict_get (history_of repo max_count) base)).
Proof.
  assert (Hstem : forall (item : Item) (base : string),
             name item = (base ++ ".py")%string ->
             contains "/" base = false ->
             has_non_dot base 0 (String.length base) = true ->
             stem item = base).
  { intros item base Hname Hslash Hdots. unfold stem.
    rewrite Hname, (splitext_py base Hslash Hdots). reflexivity. }
  split; [| split].
  - intros item. unfold stem. apply splitext_round_trip.
  - exact Hstem.
  - intros repo max_count commit item base Hin Hc Hname Hslash Hdots.
    unfold history_of. rewrite dict_get_fold_add. cbn [dict_get app].
    apply in_map. apply filter_In. split.
    + apply filter_In. split; assumption.
    + cbn [snd]. rewrite (Hstem item base Hname Hslash Hdots). apply String.eqb_refl.
Qed.

(** [pkg/core.py] of [distinct_stem_repo] is tracked under [core]. *)
Lemma stem_of_source_file_witness :
  In {| File := None; Date := Some "2023-11-14 22:13:20"%string;
        Ciclomatic_Complexity := PyInt 1;
        Maintainability := PyFloat 100%float; Lines_of_Code := 1 |}
     (dict_get (history_of (E := stand_in) distinct_stem_repo None) "core").
Proof.
  refine (proj2 (proj2 (@stem_of_source_file float binary64 stand_in))
            distinct_stem_repo None
            {| hexsha := "9fceb02"; committed_date := 1700000000;
               traverse := _ |}
            {| type := "blob"; path := "pkg/core.py"; name := "core.py" |}
            "core"%string _ _ _ _ _).
  - cbn. do 4 right. left. reflexivity.
  - reflexivity.
  - reflexivity.
  - reflexivity.
  - reflexivity.
Defined.

Section OnlyExcluded.
Context {F : Type} {A : Arith F} {E : Externals F}.

Lemma no_contribution (repo : Repo) (max_count : option Z) :
  (forall commit item,
      In commit (log repo) -> In item (traverse commit) -> is_source item = true ->
      name item = "__init__.py"%string \/ content_at repo commit item = EmptyString) ->
  filter (contributes repo) (entries repo max_count) = [].
Proof.
  intros Hex.
  assert (Hall : forall e, In e (entries repo max_count) -> contributes repo e = false).
  { intros [commit item] Hin. unfold entries in Hin.
    apply in_flat_map in Hin. destruct Hin as (c & Hc & Hin).
    apply in_map_iff in Hin. destruct Hin as (i & Heq & Hi). injection Heq as <- <-.
    assert (Hlog : In c (log repo)).
    { unfold iter_commits in Hc. destruct max_count as [n |]; [| exact Hc].
      destruct (n <? 0)%Z; [exact Hc |].
      rewrite <- (firstn_skipn (Z.to_nat n) (log repo)).
      apply in_or_app. left. exact Hc. }
    unfold contributes, excluded. cbn [fst snd].
    destruct (is_source i) eqn:Hsrc; [| reflexivity]. cbn [andb].
    apply negb_false_iff.
    destruct (Hex c i Hlog Hi Hsrc) as [Hname | Hempty].
    - unfold stem. rewrite Hname. apply orb_true_r.
    - rewrite Hempty. reflexivity. }
  induction (entries repo max_count) as [| e es IH]; cbn [filter].
  - reflexivity.
  - rewrite (Hall e) by (left; reflexivity).
    apply IH. intros e' He'. apply Hall. right. exact He'.
Qed.
End OnlyExcluded.

(** X10.  On a repository all of whose source files are named [__init__.py]
    or are empty at every commit, an inspection run of a fresh inspector
    prints nothing, adds no per-file row, no file history and no timeline row,
    and the overall row is the all-zero row. *)
Theorem only_excluded_sources_give_empty_tables {E : Externals float} (repo : Repo)
    (project_directory : string) (inspect_history : bool) (max_history_count : Z)
    (out : list string) :
  (forall commit item,
      In commit (log repo) -> In item (traverse commit) -> is_source item = true ->
      name item = "__init__.py"%string \/ content_at repo commit item = EmptyString) ->
  inspect_project repo (__init__ project_directory) inspect_history max_history_count out
  = (Ok {| _project_directory := project_directory;
           _metrics := [ {| File := None; Date := None;
                            Ciclomatic_Complexity := PyInt 0;
                            Maintainability := PyInt 0; Lines_of_Code := 0 |} ];
           _metrics_by_file := [];
           _history_metrics := [];
           _history_metrics_by_file := [] |}, out).
Proof.
  intros Hex. rewrite inspect_project_state.
  unfold walk_output, history_of. rewrite !(no_contribution _ _ Hex).
  cbn [fold_left flat_map first_rows app __init__ _project_directory _metrics
         _metrics_by_file _history_metrics _history_metrics_by_file].
  destruct inspect_history; cbn [app]; rewrite ?app_nil_r; reflexivity.
Qed.

Lemma only_excluded_sources_give_empty_tables_witness :
  inspect_project (E := stand_in) markers_only_repo (__init__ ".") true 0 []
  = (Ok {| _project_directory := ".";
           _metrics := [ {| File := None; Date := None;
                            Ciclomatic_Complexity := PyInt 0;
                            Maintainability := PyInt 0; Lines_of_Code := 0 |} ];
           _metrics_by_file := [];
           _history_metrics := [];
           _history_metrics_by_file := [] |}, []).
Proof.
  apply (@only_excluded_sources_give_empty_tables stand_in markers_only_repo "." true 0%Z []).
  intros commit item [<- | []] Hitem Hsrc.
  cbn in Hitem.
  destruct Hitem as [<- | [<- | [<- | [<- | []]]]]; try discriminate Hsrc.
  - left. reflexivity.
  - right. reflexivity.
Defined.

(** ** The report files *)

Section Writer.
Context {F : Type} {O : SetOrder}.

Lemma filter_none {X : Type} (p : X -> bool) (l : list X) :
  forallb p l = true -> filter (fun x => negb (p x)) l = [].
Proof.
  induction l as [| x l IH]; cbn; [reflexivity |].
  intros H. apply andb_true_iff in H. destruct H as [Hx Hl].
  rewrite Hx. cbn. apply IH, Hl.
Qed.

Lemma filter_some {X : Type} (p : X -> bool) (l : list X) :
  forallb p l = false -> filter (fun x => negb (p x)) l <> [].
Proof.
  induction l as [| x l IH]; cbn; [discriminate |].
  destruct (p x); cbn; [exact IH | discriminate].
Qed.

Lemma get_item_header (fieldnames : list string) (key : string) :
  In key fieldnames ->
  get_item (map (fun k => (k, @Text F k)) fieldnames) key = Text key.
Proof.
  induction fieldnames as [| k l IH]; cbn; [contradiction |].
  intros Hin. destruct (String.eqb_spec k key) as [-> | Hne]; [reflexivity |].
  destruct Hin as [Heq | Hin]; [contradiction | exact (IH Hin)].
Qed.

Lemma writeheader_spec (fieldnames : list string) :
  writeheader (F := F) fieldnames = Ok (map Text fieldnames).
Proof.
  unfold writeheader, _dict_to_list.
  rewrite map_map. cbn [fst]. rewrite map_id.
  rewrite filter_none.
  - f_equal. apply map_ext_in. intros k Hk. apply get_item_header, Hk.
  - apply forallb_forall. intros k Hk. apply existsb_eqb_In, Hk.
Qed.

Lemma _dict_to_list_fits (fieldnames : list string) (row : Metrics F) :
  fits fieldnames row = true ->
  _dict_to_list fieldnames (items row) = Ok (record_of fieldnames row).
Proof.
  intros Hfit. unfold _dict_to_list. unfold fits in Hfit.
  rewrite (filter_none _ _ Hfit). reflexivity.
Qed.

Lemma _dict_to_list_misfit (fieldnames : list string) (row : Metrics F) :
  fits fieldnames row = false ->
  _dict_to_list fieldnames (items row)
  = Raise (Exception ("dict contains fields not in fieldnames: "
                      ++ String.concat ", "
                           (map repr
                              (set_iter
                                 (filter (fun k => negb (existsb (String.eqb k) fieldnames))
                                    (map fst (items row))))))).
Proof.
  intros Hfit. unfold _dict_to_list. unfold fits in Hfit.
  pose proof (filter_some _ _ Hfit) as Hne.
  destruct (filter _ (map fst (items row))); [contradiction | reflexivity].
Qed.

Lemma writerows_fits (fieldnames : list string) (rows : list (Metrics F))
    (written : list (list (cell F))) :
  Forall (fun row => fits fieldnames row = true) rows ->
  writerows fieldnames rows written
  = (Ok tt, written ++ map (record_of fieldnames) rows).
Proof.
  intros Hfit. revert written.
  induction Hfit as [| row rows Hrow _ IH]; intros written; cbn [writerows map].
  - rewrite app_nil_r. reflexivity.
  - rewrite (_dict_to_list_fits _ _ Hrow), IH, <- app_assoc. reflexivity.
Qed.

Lemma writerows_misfit (fieldnames : list string) (good rest : list (Metrics F))
    (bad : Metrics F) (written : list (list (cell F))) :
  Forall (fun row => fits fieldnames row = true) good ->
  fits fieldnames bad = false ->
  writerows fieldnames (good ++ bad :: rest) written
  = (Raise (Exception ("dict contains fields not in fieldnames: "
                       ++ String.concat ", "
                            (map repr
                               (set_iter
                                  (filter (fun k => negb (existsb (String.eqb k) fieldnames))
                                     (map fst (items bad))))))),
     written ++ map (record_of fieldnames) good).
Proof.
  intros Hgood Hbad. revert written.
  induction Hgood as [| row rows Hrow _ IH]; intros written; cbn [writerows map app].
  - rewrite (_dict_to_list_misfit _ _ Hbad), app_nil_r. reflexivity.
  - rewrite (_dict_to_list_fits _ _ Hrow), IH, <- app_assoc. reflexivity.
Qed.

Lemma _write_to_csv_fits (path : string) (fieldnames : list string)
    (content : list (Metrics F)) (fs : FileSystem F) :
  Forall (fun row => fits fieldnames row = true) content ->
  _write_to_csv path fieldnames content fs
  = (Ok tt, {| directories := directories fs;
               files := store (files fs) path (table fieldnames content) |}).
Proof.
  intros Hfit. unfold _write_to_csv.
  rewrite writeheader_spec, (@writerows_fits _ _ _ Hfit). reflexivity.
Qed.

Lemma read_store {V : Type} (files : list (string * V)) (path : string) (content : V) :
  read (store files path content) path = Some content.
Proof.
  induction files as [| [p old] files IH]; cbn.
  - rewrite String.eqb_refl. reflexivity.
  - destruct (String.eqb p path) eqn:Hp; cbn; rewrite Hp; [reflexivity | exact IH].
Qed.

Lemma read_store_other {V : Type} (files : list (string * V)) (path other : string)
    (content : V) :
  other <> path -> read (store files path content) other = read files other.
Proof.
  intros Hne. induction files as [| [p old] files IH]; cbn.
  - destruct (String.eqb_spec path other) as [<- | _]; [contradiction | reflexivity].
  - destruct (String.eqb_spec p path) as [-> | Hp]; cbn.
    + destruct (String.eqb_spec path other) as [<- | _]; [contradiction | reflexivity].
    + destruct (String.eqb p other); [reflexivity | exact IH].
Qed.
End Writer.

Section Paths.
Local Open Scope string_scope.

Lemma append_assoc (s t u : string) : (s ++ t) ++ u = s ++ t ++ u.
Proof. induction s as [| a s IH]; cbn; [reflexivity | rewrite IH; reflexivity]. Qed.

Lemma append_inj_l (s t u : string) : s ++ t = s ++ u -> t = u.
Proof.
  induction s as [| a s IH]; cbn; [trivial |].
  intros H. injection H as H. exact (IH H).
Qed.

Lemma append_inj_r (s1 s2 t : string) : s1 ++ t = s2 ++ t -> s1 = s2.
Proof.
  revert s2. induction s1 as [| a s1 IH]; intros [| b s2] H; cbn in H.
  - reflexivity.
  - apply (f_equal String.length) in H. cbn in H. rewrite length_append in H. lia.
  - apply (f_equal String.length) in H. cbn in H. rewrite length_append in H. lia.
  - injection H as -> H. f_equal. exact (IH _ H).
Qed.

Lemma substring_skip (s t : string) (i k : nat) :
  substring (String.length s + i) k (s ++ t) = substring i k t.
Proof. induction s as [| a s IH]; cbn; [reflexivity | exact IH]. Qed.

Lemma path_join_relative (a b : string) :
  startswith b "/" = false -> path_join a b = directory_prefix a ++ b.
Proof.
  intros Hb. unfold path_join, directory_prefix. rewrite Hb.
  destruct ((String.length a =? 0)%nat || endswith a "/"); [reflexivity |].
  rewrite append_assoc. reflexivity.
Qed.

Lemma startswith_plain (k suffix : string) :
  contains "/" k = false -> startswith suffix "/" = false ->
  startswith (k ++ suffix) "/" = false.
Proof.
  intros Hk Hs. destruct k as [| a k]; [exact Hs |].
  cbn in Hk. apply orb_false_iff in Hk. destruct Hk as [Ha _].
  unfold startswith. cbn [append String.prefix].
  destruct (Ascii.ascii_dec "/" a) as [Heq | Hne]; [| reflexivity].
  subst a. rewrite Ascii.eqb_refl in Ha. discriminate.
Qed.

Lemma history_directory (output_directory : string) :
  path_join output_directory "files_history"
  = directory_prefix output_directory ++ "files_history".
Proof. apply path_join_relative. reflexivity. Qed.

Lemma endswith_history_directory (s : string) :
  endswith (s ++ "files_history") "/" = false.
Proof.
  unfold endswith. rewrite length_append. cbn [String.length].
  replace (String.length s + 13 - 1)%nat with (String.length s + 12)%nat by lia.
  rewrite substring_skip. cbn. apply andb_false_r.
Qed.

Lemma history_file_plain (output_directory k : string) :
  contains "/" k = false ->
  history_file output_directory k
  = directory_prefix output_directory ++ "files_history/" ++ k ++ ".csv".
Proof.
  intros Hk. unfold history_file. rewrite history_directory.
  unfold path_join. rewrite (startswith_plain k ".csv" Hk eq_refl).
  rewrite endswith_history_directory, length_append. cbn [String.length].
  replace (String.length (directory_prefix output_directory) + 13 =? 0)%nat with false
    by (symmetry; apply Nat.eqb_neq; lia).
  cbn [orb]. rewrite append_assoc. reflexivity.
Qed.

Lemma history_file_inj (output_directory k1 k2 : string) :
  contains "/" k1 = false -> contains "/" k2 = false ->
  history_file output_directory k1 = history_file output_directory k2 -> k1 = k2.
Proof.
  intros H1 H2. rewrite !history_file_plain by assumption. intros H.
  apply append_inj_l in H. cbn in H. injection H as H.
  exact (append_inj_r _ _ _ H).
Qed.

Lemma history_file_not_table (output_directory k base : string) :
  contains "/" k = false ->
  In base ["metrics.csv"; "metrics_by_file.csv"; "history_metrics.csv"] ->
  path_join output_directory base <> history_file output_directory k.
Proof.
  intros Hk Hbase. rewrite history_file_plain by assumption.
  cbn in Hbase.
  destruct Hbase as [<- | [<- | [<- | []]]];
    (rewrite path_join_relative by reflexivity);
    intros H; apply append_inj_l in H; discriminate.
Qed.

Lemma tables_distinct (output_directory base1 base2 : string) :
  startswith base1 "/" = false -> startswith base2 "/" = false ->
  base1 <> base2 ->
  path_join output_directory base1 <> path_join output_directory base2.
Proof.
  intros H1 H2 Hne. rewrite !path_join_relative by assumption.
  intros H. apply append_inj_l in H. contradiction.
Qed.
End Paths.

Section Tables.
Context {F : Type} {O : SetOrder}.

Lemma Forall_concat_values {X : Type} (P : X -> Prop) (d : dict X) :
  Forall P (List.concat (values d)) -> Forall (fun entry => Forall P (snd entry)) d.
Proof.
  induction d as [| [k vs] d IH]; cbn; intros H; constructor.
  - apply Forall_app in H. exact (proj1 H).
  - apply IH. apply Forall_app in H. exact (proj2 H).
Qed.

Lemma for_each_do_history (output_directory : string) (history : dict (Metrics F))
    (fs : FileSystem F) :
  Forall (fun entry => Forall (fun row => fits dated_columns row = true) (snd entry)) history ->
  for_each_do
    (fun '(file_name, file_metrics) =>
       _write_to_csv
         (path_join (path_join output_directory "files_history") (file_name ++ ".csv"))
         [ "Date"; "Ciclomatic_Complexity"; "Maintainability"; "Lines_of_Code" ]%string
         file_metrics)
    history fs
  = (Ok tt, {| directories := directories fs;
               files := history_files output_directory history (files fs) |}).
Proof.
  intros Hfit. revert fs.
  induction Hfit as [| [k rows] history Hrows _ IH]; intros fs.
  - destruct fs. reflexivity.
  - cbn [for_each_do]. unfold and_then.
    cbn [snd] in Hrows.
    rewrite (@_write_to_csv_fits _ _ _ _ _ fs Hrows), IH. reflexivity.
Qed.

Lemma read_history_other (output_directory : string) (history : dict (Metrics F))
    (disk : list (string * list (list (cell F)))) (other : string) :
  (forall k, In k (keys history) -> other <> history_file output_directory k) ->
  read (history_files output_directory history disk) other = read disk other.
Proof.
  revert disk. induction history as [| [k rows] history IH]; intros disk Hother.
  - reflexivity.
  - unfold history_files. cbn [fold_left fst snd].
    fold (history_files output_directory history
            (store disk (history_file output_directory k) (table dated_columns rows))).
    rewrite IH.
    + apply read_store_other. apply Hother. left. reflexivity.
    + intros k' Hk'. apply Hother. right. exact Hk'.
Qed.

Lemma read_history_file (output_directory : string) (history : dict (Metrics F))
    (disk : list (string * list (list (cell F)))) (k : string) (rows : list (Metrics F)) :
  NoDup (keys history) ->
  Forall (fun k => contains "/" k = false) (keys history) ->
  In (k, rows) history ->
  read (history_files output_directory history disk) (history_file output_directory k)
  = Some (table dated_columns rows).
Proof.
  revert disk. induction history as [| [k0 rows0] history IH]; intros disk Hnd Hplain Hin.
  - contradiction.
  - unfold history_files. cbn [fold_left fst snd].
    fold (history_files output_directory history
            (store disk (history_file output_directory k0) (table dated_columns rows0))).
    cbn [keys map fst] in Hnd, Hplain.
    apply NoDup_cons_iff in Hnd. destruct Hnd as [Hfresh Hnd].
    apply Forall_cons_iff in Hplain. destruct Hplain as [Hk0 Hplain].
    destruct Hin as [Heq | Hin].
    + injection Heq as -> ->.
      rewrite read_history_other.
      * apply read_store.
      * intros k' Hk' Heq. apply Hfresh.
        rewrite Forall_forall in Hplain.
        rewrite (@history_file_inj output_directory _ _ Hk0 (Hplain _ Hk') Heq). exact Hk'.
    + apply IH; assumption.
Qed.

Lemma write_metrics_to_csv_tidy (self : CodeQualityInspector F)
    (output_directory : string) (fs : FileSystem F) :
  tidy self ->
  write_metrics_to_csv self output_directory fs
  = (Ok tt,
     {| directories := directories fs ++ [path_join output_directory "files_history"];
        files :=
          store
            (history_files output_directory (_history_metrics_by_file self)
               (store
                  (store (files fs) (path_join output_directory "metrics.csv")
                         (table overall_columns (_metrics self)))
                  (path_join output_directory "metrics_by_file.csv")
                  (table per_file_columns (_metrics_by_file self))))
            (path_join output_directory "history_metrics.csv")
            (table dated_columns (_history_metrics self)) |}).
Proof.
  intros (Hoverall & Htimeline & Hhistory).
  assert (Hper_file : Forall (fun row => fits per_file_columns row = true)
                        (_metrics_by_file self)).
  { apply Forall_forall. intros row _. unfold fits, items.
    destruct (Date row), (File row); reflexivity. }
  unfold write_metrics_to_csv, and_then, makedirs.
  rewrite (@_write_to_csv_fits _ _ _ _ _ _ Hoverall).
  rewrite (@_write_to_csv_fits _ _ _ _ _ _ Hper_file).
  rewrite (@for_each_do_history _ _ _ (Forall_concat_values _ Hhistory)).
  rewrite (@_write_to_csv_fits _ _ _ _ _ _ Htimeline).
  reflexivity.
Qed.
End Tables.

Section Fits.
Context {F : Type}.

Lemma fits_overall (row : Metrics F) :
  fits overall_columns row = true <-> File row = None /\ Date row = None.
Proof.
  unfold fits, items. destruct (Date row), (File row); cbn; split;
    try discriminate; try (intros [H1 H2]; discriminate); auto.
Qed.

Lemma fits_dated (row : Metrics F) :
  fits dated_columns row = true <-> File row = None.
Proof.
  unfold fits, items. destruct (Date row), (File row); cbn; split;
    try discriminate; auto.
Qed.

Lemma record_of_per_file (row : Metrics F) :
  record_of per_file_columns row
  = [ Text (match File row with Some file_name => file_name | None => EmptyString end);
      Text (match Date row with Some date => date | None => EmptyString end);
      Num (Ciclomatic_Complexity row);
      Num (Maintainability row);
      Num (PyInt (Z.of_N (Lines_of_Code row))) ].
Proof. unfold record_of, items. destruct (Date row), (File row); reflexivity. Qed.

Lemma record_of_dated (row : Metrics F) :
  record_of dated_columns row
  = [ Text (match Date row with Some date => date | None => EmptyString end);
      Num (Ciclomatic_Complexity row);
      Num (Maintainability row);
      Num (PyInt (Z.of_N (Lines_of_Code row))) ].
Proof. unfold record_of, items. destruct (Date row), (File row); reflexivity. Qed.
End Fits.

Section Reachable.
Context {F : Type} {A : Arith F} {L : @Lawful F A} {E : Externals F}.

Lemma In_entries (repo : Repo) (max_count : option Z) (e : Commit * Item) :
  In e (entries repo max_count) -> In (fst e) (log repo) /\ In (snd e) (traverse (fst e)).
Proof.
  unfold entries. intros He. apply in_flat_map in He.
  destruct He as (commit & Hc & He). apply in_map_iff in He.
  destruct He as (item & <- & Hi). cbn [fst snd]. split; [| exact Hi].
  destruct max_count as [n |]; cbn [iter_commits] in Hc; [| exact Hc].
  destruct (n <? 0)%Z; [exact Hc |].
  rewrite <- (firstn_skipn (Z.to_nat n) (log repo)). apply in_or_app. left. exact Hc.
Qed.

Lemma contains_stem (c : ascii) (item : Item) :
  contains c (name item) = false -> contains c (stem item) = false.
Proof.
  intros Hname. unfold stem.
  rewrite <- (splitext_round_trip (name item)), contains_append in Hname.
  apply orb_false_iff in Hname. exact (proj1 Hname).
Qed.

Lemma plain_history_keys (repo : Repo) (max_count : option Z) :
  plain_names repo ->
  Forall (fun k => contains "/" k = false) (keys (history_of repo max_count)).
Proof.
  intros Hplain. apply Forall_forall. intros k Hk.
  unfold history_of in Hk. apply In_keys_fold_add in Hk.
  destruct Hk as [[] | (e & He & <-)].
  apply filter_In in He. destruct He as [He _].
  apply In_entries in He. destruct He as [Hc Hi].
  apply contains_stem. exact (Hplain _ _ Hc Hi).
Qed.

Lemma history_of_fits (repo : Repo) (max_count : option Z) :
  Forall (fun row => fits dated_columns row = true)
    (List.concat (values (history_of repo max_count))).
Proof.
  apply Forall_forall. intros m Hm.
  destruct (history_samples _ _ _ Hm) as (e & _ & _ & ->).
  apply fits_dated. unfold sample_of, metrics_of.
  destruct (extract _) as [[[? ?] ?] | ?]; reflexivity.
Qed.

Lemma timeline_fits (history : dict (Metrics F)) :
  Forall (fun row => fits dated_columns row = true) (timeline history).
Proof.
  apply Forall_forall. intros row Hrow. unfold timeline in Hrow.
  apply in_map_iff in Hrow. destruct Hrow as (date & <- & _).
  apply fits_dated. reflexivity.
Qed.

Lemma inspect_project_tidy (repo : Repo) (self : CodeQualityInspector F)
    (inspect_history : bool) (max_history_count : Z) (out : list string) :
  tidy self -> NoDup (keys (_history_metrics_by_file self)) ->
  exists self' out',
    inspect_project repo self inspect_history max_history_count out = (Ok self', out')
    /\ tidy self' /\ NoDup (keys (_history_metrics_by_file self'))
    /\ List.length (_metrics self') = S (List.length (_metrics self))
    /\ (plain_names repo ->
        Forall (fun k => contains "/" k = false) (keys (_history_metrics_by_file self)) ->
        Forall (fun k => contains "/" k = false) (keys (_history_metrics_by_file self'))).
Proof.
  intros (Hoverall & Htimeline & Hhistory) Hnd.
  rewrite inspect_project_state. eexists. eexists. split; [reflexivity |].
  unfold tidy.
  cbn [_metrics _history_metrics _history_metrics_by_file].
  repeat split.
  - apply Forall_app. split; [exact Hoverall |].
    constructor; [| constructor]. apply fits_overall. split; reflexivity.
  - apply Forall_app. split; [exact Htimeline |].
    destruct inspect_history; [apply timeline_fits | constructor].
  - destruct inspect_history; [apply history_of_fits | exact Hhistory].
  - destruct inspect_history; [| exact Hnd].
    unfold history_of. apply NoDup_keys_fold_add. constructor.
  - rewrite length_app. cbn. lia.
  - intros Hplain Hkeys.
    destruct inspect_history; [apply plain_history_keys, Hplain | exact Hkeys].
Qed.

Lemma inspect_many_tidy (calls : list (Repo * bool * Z)) (self : CodeQualityInspector F)
    (out : list string) :
  tidy self -> NoDup (keys (_history_metrics_by_file self)) ->
  exists self' out',
    inspect_many calls self out = (Ok self', out')
    /\ tidy self' /\ NoDup (keys (_history_metrics_by_file self'))
    /\ List.length (_metrics self') = (List.length (_metrics self) + List.length calls)%nat
    /\ (Forall (fun call => plain_names (fst (fst call))) calls ->
        Forall (fun k => contains "/" k = false) (keys (_history_metrics_by_file self)) ->
        Forall (fun k => contains "/" k = false) (keys (_history_metrics_by_file self'))).
Proof.
  revert self out. induction calls as [| [[repo inspect_history] max_history_count] calls IH];
    intros self out Htidy Hnd.
  - exists self, out.
    split; [reflexivity |]. split; [exact Htidy |]. split; [exact Hnd |].
    split; [cbn; lia |]. intros _ Hkeys. exact Hkeys.
  - destruct (inspect_project_tidy repo inspect_history max_history_count out Htidy Hnd)
      as (self1 & out1 & Hrun & Htidy1 & Hnd1 & Hlen1 & Hplain1).
    destruct (IH self1 out1 Htidy1 Hnd1)
      as (self' & out' & Hrest & Htidy' & Hnd' & Hlen' & Hplain').
    exists self', out'.
    split; [| split; [exact Htidy' | split; [exact Hnd' | split]]].
    + unfold inspect_many in *. cbn [for_each]. unfold bind at 1.
      rewrite Hrun. exact Hrest.
    + rewrite Hlen', Hlen1. cbn. lia.
    + intros Hcalls Hkeys.
      apply Forall_cons_iff in Hcalls. destruct Hcalls as [Hrepo Hcalls].
      apply Hplain'; [exact Hcalls |]. apply Hplain1; [exact Hrepo | exact Hkeys].
Qed.
End Reachable.

(** X11.  When no row holds a key outside [fieldnames], [_write_to_csv]
    returns and leaves at [path] the header followed by one record per row,
    in order, whatever the file held before; every record has one field per
    column, a column whose key a row lacks being written as the empty
    string.  No other file and no directory is touched. *)
Theorem write_to_csv_writes_header_and_rows {F : Type} {O : SetOrder} (path : string)
    (fieldnames : list string) (content : list (Metrics F)) (fs : FileSystem F) :
  Forall (fun row => fits fieldnames row = true) content ->
  exists fs',
    _write_to_csv path fieldnames content fs = (Ok tt, fs')
    /\ read (files fs') path
       = Some (map Text fieldnames :: map (record_of fieldnames) content)
    /\ Forall (fun record => List.length record = List.length fieldnames)
         (table fieldnames content)
    /\ (forall row key,
          In row content -> ~ In key (map fst (items row)) ->
          get_item (items row) key = Text EmptyString)
    /\ (forall other, other <> path -> read (files fs') other = read (files fs) other)
    /\ directories fs' = directories fs.
Proof.
  intros Hfit. eexists. split; [apply _write_to_csv_fits, Hfit |].
  cbn [files directories]. split; [apply read_store |]. split; [| split; [| split]].
  - constructor.
    + apply length_map.
    + apply Forall_forall. intros record Hrecord. apply in_map_iff in Hrecord.
      destruct Hrecord as (row & <- & _). apply length_map.
  - intros row key _ Hkey. induction (items row) as [| [k v] rowdict IH]; [reflexivity |].
    cbn [get_item]. destruct (String.eqb_spec k key) as [-> | Hne].
    + exfalso. apply Hkey. left. reflexivity.
    + apply IH. intros Hin. apply Hkey. right. exact Hin.
  - intros other Hother. apply read_store_other, Hother.
  - reflexivity.
Qed.

(** A table of two dated rows written over a stale file. *)
Lemma write_to_csv_writes_header_and_rows_witness :
  exists fs',
    _write_to_csv (O := insertion_order) "out/metrics.csv" dated_columns
      (dict_get two_date_history "a") old_disk
    = (Ok tt, fs')
    /\ read (files fs') "out/metrics.csv"
       = Some (map Text dated_columns
               :: map (record_of dated_columns) (dict_get two_date_history "a"))
    /\ Forall (fun record => List.length record = List.length dated_columns)
         (table dated_columns (dict_get two_date_history "a"))
    /\ (forall row key,
          In row (dict_get two_date_history "a") -> ~ In key (map fst (items row)) ->
          get_item (items row) key = Text EmptyString)
    /\ (forall other, other <> "out/metrics.csv"%string ->
                      read (files fs') other = read (files old_disk) other)
    /\ directories fs' = directories old_disk.
Proof.
  apply (@write_to_csv_writes_header_and_rows float insertion_order "out/metrics.csv"
           dated_columns (dict_get two_date_history "a") old_disk).
  cbn. repeat constructor.
Defined.

(** X12.  The first row holding a key outside [fieldnames] makes
    [_write_to_csv] raise the [ValueError] of [csv.DictWriter]; its message
    joins the offending keys in the order their set is iterated, which the
    hash seed decides, and is the one message there is when a single key
    offends.  The file is left with the header and the records of the rows
    before that row, and the rows after it are never looked at. *)
Theorem write_to_csv_stops_at_extra_key {F : Type} {O : SetOrder} (path : string)
    (fieldnames : list string) (good rest : list (Metrics F)) (bad : Metrics F)
    (fs : FileSystem F) :
  Forall (fun row => fits fieldnames row = true) good ->
  fits fieldnames bad = false ->
  exists wrong_fields fs',
    wrong_fields
    = filter (fun k => negb (existsb (String.eqb k) fieldnames)) (map fst (items bad))
    /\ _write_to_csv path fieldnames (good ++ bad :: rest) fs
       = (Raise (Exception
                   ("dict contains fields not in fieldnames: "
                    ++ String.concat ", " (map repr (set_iter wrong_fields)))), fs')
    /\ ((forall keys, Permutation (set_iter keys) keys) ->
        forall key, wrong_fields = [key] ->
        String.concat ", " (map repr (set_iter wrong_fields)) = repr key)
    /\ read (files fs') path = Some (table fieldnames good)
    /\ (forall other, other <> path -> read (files fs') other = read (files fs) other)
    /\ forall rest', fst (_write_to_csv path fieldnames (good ++ bad :: rest') fs)
                     = fst (_write_to_csv path fieldnames (good ++ bad :: rest) fs).
Proof.
  intros Hgood Hbad.
  assert (Hrun : forall rest0,
             _write_to_csv path fieldnames (good ++ bad :: rest0) fs
             = (Raise (Exception
                         ("dict contains fields not in fieldnames: "
                          ++ String.concat ", "
                               (map repr
                                  (set_iter
                                     (filter
                                        (fun k => negb (existsb (String.eqb k) fieldnames))
                                        (map fst (items bad))))))),
                {| directories := directories fs;
                   files := store (files fs) path (table fieldnames good) |})).
  { intros rest0. unfold _write_to_csv.
    rewrite writeheader_spec, (@writerows_misfit _ _ _ _ rest0 _ _ Hgood Hbad).
    reflexivity. }
  eexists. eexists. split; [reflexivity |]. split; [apply Hrun |]. cbn [files].
  split; [| split; [apply read_store | split]].
  - intros Hperm key Hkey. rewrite Hkey.
    pose proof (Hperm [key]) as Hone. apply Permutation_sym in Hone.
    apply Permutation_length_1_inv in Hone. rewrite Hone. reflexivity.
  - intros other Hother. apply read_store_other, Hother.
  - intros rest'. rewrite !Hrun. reflexivity.
Qed.

(** An overall table handed a per-file row after an undated one, in a process
    whose sets iterate [File] before [Date]. *)
Lemma write_to_csv_stops_at_extra_key_witness :
  exists wrong_fields fs',
    wrong_fields = [ "Date"; "File" ]%string
    /\ _write_to_csv (O := reverse_order) "out/metrics.csv" overall_columns
         ([ sample (PyInt 1) (PyFloat 90%float) 4 ]
          ++ set_File (set_Date (sample (PyInt 2) (PyFloat 80%float) 7)
                                "2024-01-01 09:00:00") "a"
             :: [ sample (PyInt 3) (PyFloat 70%float) 9 ]) old_disk
       = (Raise (Exception "dict contains fields not in fieldnames: 'File', 'Date'"), fs')
    /\ ((forall keys, Permutation (set_iter (SetOrder := reverse_order) keys) keys) ->
        forall key, wrong_fields = [key] ->
        String.concat ", " (map repr (set_iter (SetOrder := reverse_order) wrong_fields))
        = repr key)
    /\ read (files fs') "out/metrics.csv"
       = Some (table overall_columns [ sample (PyInt 1) (PyFloat 90%float) 4 ])
    /\ (forall other, other <> "out/metrics.csv"%string ->
                      read (files fs') other = read (files old_disk) other)
    /\ forall rest',
         fst (_write_to_csv (O := reverse_order) "out/metrics.csv" overall_columns
                ([ sample (PyInt 1) (PyFloat 90%float) 4 ]
                 ++ set_File (set_Date (sample (PyInt 2) (PyFloat 80%float) 7)
                                       "2024-01-01 09:00:00") "a"
                    :: rest') old_disk)
         = fst (_write_to_csv (O := reverse_order) "out/metrics.csv" overall_columns
                  ([ sample (PyInt 1) (PyFloat 90%float) 4 ]
                   ++ set_File (set_Date (sample (PyInt 2) (PyFloat 80%float) 7)
                                         "2024-01-01 09:00:00") "a"
                      :: [ sample (PyInt 3) (PyFloat 70%float) 9 ]) old_disk).
Proof.
  destruct (@write_to_csv_stops_at_extra_key float reverse_order "out/metrics.csv"
              overall_columns
              [ sample (PyInt 1) (PyFloat 90%float) 4 ]
              [ sample (PyInt 3) (PyFloat 70%float) 9 ]
              (set_File (set_Date (sample (PyInt 2) (PyFloat 80%float) 7)
                                  "2024-01-01 09:00:00") "a")
              old_disk)
    as (wrong_fields & fs' & Hwrong & Hrun & Hone & Hread & Hother & Hrest).
  - repeat constructor.
  - reflexivity.
  - exists wrong_fields, fs'. rewrite Hwrong in Hrun.
    split; [exact Hwrong |]. split; [exact Hrun |]. split; [exact Hone |].
    split; [exact Hread |]. split; [exact Hother | exact Hrest].
Defined.

Section Exported.
Context {F : Type}.

Lemma exported_files (output_directory : string) (history : dict (Metrics F))
    (disk : list (string * list (list (cell F))))
    (overall per_file timeline_table : list (list (cell F))) :
  NoDup (keys history) ->
  Forall (fun k => contains "/" k = false) (keys history) ->
  let final :=
    store
      (history_files output_directory history
         (store (store disk (path_join output_directory "metrics.csv") overall)
                (path_join output_directory "metrics_by_file.csv") per_file))
      (path_join output_directory "history_metrics.csv") timeline_table in
  read final (path_join output_directory "metrics.csv") = Some overall
  /\ read final (path_join output_directory "metrics_by_file.csv") = Some per_file
  /\ read final (path_join output_directory "history_metrics.csv") = Some timeline_table
  /\ (forall file_name file_metrics,
         In (file_name, file_metrics) history ->
         read final (history_file output_directory file_name)
         = Some (table dated_columns file_metrics))
  /\ (forall other,
         other <> path_join output_directory "metrics.csv" ->
         other <> path_join output_directory "metrics_by_file.csv" ->
         other <> path_join output_directory "history_metrics.csv" ->
         (forall file_name, In file_name (keys history) ->
                            other <> history_file output_directory file_name) ->
         read final other = read disk other).
Proof.
  intros Hnd Hplain final. subst final.
  rewrite Forall_forall in Hplain.
  assert (Htable : forall base file_name,
             In base ["metrics.csv"; "metrics_by_file.csv"; "history_metrics.csv"]%string ->
             In file_name (keys history) ->
             path_join output_directory base <> history_file output_directory file_name).
  { intros base k Hbase Hk. apply history_file_not_table; [apply Hplain, Hk | exact Hbase]. }
  split; [| split; [| split; [| split]]].
  - rewrite read_store_other
      by (apply tables_distinct; [reflexivity | reflexivity | discriminate]).
    rewrite read_history_other by (intros k Hk; apply Htable; [cbn; auto | exact Hk]).
    rewrite read_store_other
      by (apply tables_distinct; [reflexivity | reflexivity | discriminate]).
    apply read_store.
  - rewrite read_store_other
      by (apply tables_distinct; [reflexivity | reflexivity | discriminate]).
    rewrite read_history_other by (intros k Hk; apply Htable; [cbn; auto | exact Hk]).
    apply read_store.
  - apply read_store.
  - intros k rows Hin.
    assert (Hk : In k (keys history)) by (apply in_map_iff; exists (k, rows); auto).
    rewrite read_store_other
      by (intros Heq; symmetry in Heq; revert Heq; apply Htable; [cbn; auto | exact Hk]).
    apply read_history_file; [exact Hnd | apply Forall_forall, Hplain | exact Hin].
  - intros other H1 H2 H3 Hk.
    rewrite read_store_other by exact H3.
    rewrite read_history_other by exact Hk.
    rewrite read_store_other by exact H2.
    apply read_store_other. exact H1.
Qed.
End Exported.

(** X13.  For an inspector whose rows hold the keys the methods give them
    and whose history keys are distinct base names, [write_metrics_to_csv]
    returns, makes the directory [files_history] under the output directory,
    and leaves four kinds of files: [metrics.csv], [metrics_by_file.csv] and
    [history_metrics.csv] hold their header and one record per row of
    [_metrics], [_metrics_by_file] and [_history_metrics]; every key of the
    file history has its series in [files_history/<key>.csv].  Every other
    file is left as it was. *)
Theorem export_writes_the_four_tables {F : Type} {O : SetOrder}
    (self : CodeQualityInspector F)
    (output_directory : string) (fs : FileSystem F) :
  tidy self ->
  NoDup (keys (_history_metrics_by_file self)) ->
  Forall (fun k => contains "/" k = false) (keys (_history_metrics_by_file self)) ->
  exists fs',
    write_metrics_to_csv self output_directory fs = (Ok tt, fs')
    /\ directories fs' = directories fs ++ [path_join output_directory "files_history"]
    /\ read (files fs') (path_join output_directory "metrics.csv")
       = Some (table overall_columns (_metrics self))
    /\ read (files fs') (path_join output_directory "metrics_by_file.csv")
       = Some (table per_file_columns (_metrics_by_file self))
    /\ read (files fs') (path_join output_directory "history_metrics.csv")
       = Some (table dated_columns (_history_metrics self))
    /\ (forall file_name file_metrics,
           In (file_name, file_metrics) (_history_metrics_by_file self) ->
           history_file output_directory file_name
           = (directory_prefix output_directory ++ "files_history/" ++ file_name ++ ".csv")%string
           /\ read (files fs') (history_file output_directory file_name)
              = Some (table dated_columns file_metrics))
    /\ (forall other,
           other <> path_join output_directory "metrics.csv" ->
           other <> path_join output_directory "metrics_by_file.csv" ->
           other <> path_join output_directory "history_metrics.csv" ->
           (forall file_name, In file_name (keys (_history_metrics_by_file self)) ->
                              other <> history_file output_directory file_name) ->
           read (files fs') other = read (files fs) other).
Proof.
  intros Htidy Hnd Hplain.
  eexists. split; [apply write_metrics_to_csv_tidy, Htidy |].
  cbn [directories files]. split; [reflexivity |].
  destruct (@exported_files F output_directory (_history_metrics_by_file self) (files fs)
              (table overall_columns (_metrics self))
              (table per_file_columns (_metrics_by_file self))
              (table dated_columns (_history_metrics self)) Hnd Hplain)
    as (H1 & H2 & H3 & Hhistory & Hother).
  split; [exact H1 |]. split; [exact H2 |]. split; [exact H3 |].
  split; [| exact Hother].
  intros k rows Hin. split; [| exact (Hhistory k rows Hin)].
  apply history_file_plain. rewrite Forall_forall in Hplain. apply Hplain.
  apply in_map_iff. exists (k, rows). auto.
Qed.

(** The export of [inspected] into [out], over a stale [out/metrics.csv]. *)
Lemma export_writes_the_four_tables_witness :
  exists fs',
    write_metrics_to_csv (O := insertion_order) inspected "out" old_disk = (Ok tt, fs')
    /\ directories fs' = [ "out"; "out/files_history" ]%string
    /\ read (files fs') "out/metrics.csv" = Some (table overall_columns (_metrics inspected))
    /\ read (files fs') "out/files_history/b.csv"
       = Some (table dated_columns (dict_get two_date_history "b"))
    /\ read (files fs') "notes.txt" = Some [].
Proof.
  destruct (@export_writes_the_four_tables float insertion_order inspected "out" old_disk)
    as (fs' & Hrun & Hdirs & Hoverall & _ & _ & Hhistory & Hother).
  - cbn. repeat constructor.
  - cbn. repeat constructor; cbn; intuition discriminate.
  - cbn. repeat constructor.
  - exists fs'. split; [exact Hrun |]. split; [exact Hdirs |]. split; [exact Hoverall |].
    split.
    + apply (Hhistory "b"%string (dict_get two_date_history "b")).
      cbn. right. left. reflexivity.
    + rewrite Hother.
      * reflexivity.
      * discriminate.
      * discriminate.
      * discriminate.
      * cbn. intros k [<- | [<- | []]]; discriminate.
Defined.

(** X14.  No row an inspection builds makes [csv.DictWriter] raise: after
    any calls of [inspect_project] on a fresh instance, [writerows] returns
    on the rows of [_metrics], of [_metrics_by_file], of [_history_metrics]
    and of every series of the file history, under the columns of the table
    each is written to, with one record per row.  [_metrics] holds one row
    per call, the keys of the file history are distinct, and they are base
    names when the tree entries are.  Whether the files can be opened is
    another matter, and no part of this. *)
Theorem inspected_rows_fit_their_tables {E : Externals float} {O : SetOrder}
    (calls : list (Repo * bool * Z)) (project_directory : string) (out : list string) :
  exists self' out',
    inspect_many calls (__init__ project_directory) out = (Ok self', out')
    /\ (forall written,
          writerows overall_columns (_metrics self') written
          = (Ok tt, written ++ map (record_of overall_columns) (_metrics self')))
    /\ (forall written,
          writerows per_file_columns (_metrics_by_file self') written
          = (Ok tt, written ++ map (record_of per_file_columns) (_metrics_by_file self')))
    /\ (forall written,
          writerows dated_columns (_history_metrics self') written
          = (Ok tt, written ++ map (record_of dated_columns) (_history_metrics self')))
    /\ (forall file_name file_metrics written,
          In (file_name, file_metrics) (_history_metrics_by_file self') ->
          writerows dated_columns file_metrics written
          = (Ok tt, written ++ map (record_of dated_columns) file_metrics))
    /\ List.length (_metrics self') = List.length calls
    /\ NoDup (keys (_history_metrics_by_file self'))
    /\ (Forall (fun call => plain_names (fst (fst call))) calls ->
        Forall (fun k => contains "/" k = false) (keys (_history_metrics_by_file self'))).
Proof.
  destruct (@inspect_many_tidy float binary64 _ E calls (__init__ project_directory) out)
    as (self' & out' & Hrun & (Hoverall & Htimeline & Hhistory) & Hnd & Hlen & Hplain).
  { repeat split; constructor. }
  { constructor. }
  exists self', out'. split; [exact Hrun |].
  split; [intros written; apply writerows_fits, Hoverall |].
  split.
  { intros written. apply writerows_fits.
    apply Forall_forall. intros row _. unfold fits, items.
    destruct (Date row), (File row); reflexivity. }
  split; [intros written; apply writerows_fits, Htimeline |].
  split.
  { intros k rows written Hin. apply writerows_fits.
    pose proof (Forall_concat_values _ Hhistory) as Hall.
    rewrite Forall_forall in Hall. exact (Hall (k, rows) Hin). }
  split; [exact Hlen |]. split; [exact Hnd |].
  intros Hcalls. apply Hplain; [exact Hcalls | constructor].
Qed.

(** X15.  A failure in one table ends the export.  When a row of [_metrics]
    holds a key outside the columns of [metrics.csv] (no row built by
    [_generate_project_metrics] does), [write_metrics_to_csv] raises after
    making the directory and writing the records before that row to
    [metrics.csv]; the other tables are not written. *)
Theorem export_stops_at_first_failure {F : Type} {O : SetOrder}
    (self : CodeQualityInspector F)
    (output_directory : string) (fs : FileSystem F) (good rest : list (Metrics F))
    (bad : Metrics F) :
  _metrics self = good ++ bad :: rest ->
  Forall (fun row => fits overall_columns row = true) good ->
  fits overall_columns bad = false ->
  exists msg fs',
    write_metrics_to_csv self output_directory fs = (Raise (Exception msg), fs')
    /\ directories fs' = directories fs ++ [path_join output_directory "files_history"]
    /\ read (files fs') (path_join output_directory "metrics.csv")
       = Some (table overall_columns good)
    /\ forall other, other <> path_join output_directory "metrics.csv" ->
                     read (files fs') other = read (files fs) other.
Proof.
  intros Hrows Hgood Hbad. eexists. eexists. split.
  - unfold write_metrics_to_csv, and_then, makedirs. rewrite Hrows.
    unfold _write_to_csv at 1.
    rewrite writeheader_spec.
    change [ "Ciclomatic_Complexity"; "Maintainability"; "Lines_of_Code" ]%string
      with overall_columns.
    rewrite (@writerows_misfit _ _ _ _ rest _ _ Hgood Hbad). reflexivity.
  - cbn [directories files]. split; [reflexivity |]. split; [apply read_store |].
    intros other Hother. apply read_store_other, Hother.
Qed.

(** An overall row that carries a date, as [_metrics] never holds. *)
Lemma export_stops_at_first_failure_witness :
  exists msg fs',
    write_metrics_to_csv (O := insertion_order)
      {| _project_directory := ".";
         _metrics := [ sample (PyInt 1) (PyFloat 90%float) 4;
                       set_Date (sample (PyInt 2) (PyFloat 80%float) 7)
                                "2024-01-01 09:00:00" ];
         _metrics_by_file := []; _history_metrics := [];
         _history_metrics_by_file := two_date_history |} "out" old_disk
    = (Raise (Exception msg), fs')
    /\ directories fs' = directories old_disk ++ [path_join "out" "files_history"]
    /\ read (files fs') (path_join "out" "metrics.csv")
       = Some (table overall_columns [ sample (PyInt 1) (PyFloat 90%float) 4 ])
    /\ forall other, other <> path_join "out" "metrics.csv" ->
                     read (files fs') other = read (files old_disk) other.
Proof.
  apply (@export_stops_at_first_failure float insertion_order
           {| _project_directory := ".";
              _metrics := [ sample (PyInt 1) (PyFloat 90%float) 4;
                            set_Date (sample (PyInt 2) (PyFloat 80%float) 7)
                                     "2024-01-01 09:00:00" ];
              _metrics_by_file := []; _history_metrics := [];
              _history_metrics_by_file := two_date_history |} "out" old_disk
           [ sample (PyInt 1) (PyFloat 90%float) 4 ] []
           (set_Date (sample (PyInt 2) (PyFloat 80%float) 7) "2024-01-01 09:00:00")).
  - reflexivity.
  - repeat constructor.
  - reflexivity.
Defined.

(** X16.  A repository all of whose source files are named [__init__.py] or
    are empty, inspected once on a fresh instance and exported: the run
    goes through, [metrics.csv] holds one row of zeros, [metrics_by_file.csv]
    and [history_metrics.csv] hold their header alone, and no file is written
    into [files_history]. *)
Theorem export_of_excluded_sources {E : Externals float} {O : SetOrder} (repo : Repo)
    (project_directory : string) (inspect_history : bool) (max_history_count : Z)
    (out : list string) (output_directory : string) (fs : FileSystem float) :
  (forall commit item,
      In commit (log repo) -> In item (traverse commit) -> is_source item = true ->
      name item = "__init__.py"%string \/ content_at repo commit item = EmptyString) ->
  exists self',
    inspect_project repo (__init__ project_directory) inspect_history max_history_count out
    = (Ok self', out)
    /\ write_metrics_to_csv self' output_directory fs
       = (Ok tt,
          {| directories := directories fs ++ [path_join output_directory "files_history"];
             files :=
               store
                 (store
                    (store (files fs) (path_join output_directory "metrics.csv")
                       [ map Text overall_columns;
                         [ Num (PyInt 0); Num (PyInt 0); Num (PyInt 0) ] ])
                    (path_join output_directory "metrics_by_file.csv")
                    [ map Text per_file_columns ])
                 (path_join output_directory "history_metrics.csv")
                 [ map Text dated_columns ] |}).
Proof.
  intros Hex. rewrite inspect_project_state.
  unfold walk_output, history_of. rewrite !(no_contribution _ _ Hex).
  cbn [fold_left flat_map first_rows app __init__ _project_directory _metrics
         _metrics_by_file _history_metrics _history_metrics_by_file].
  eexists. split.
  - destruct inspect_history; cbn [app]; rewrite ?app_nil_r; reflexivity.
  - rewrite write_metrics_to_csv_tidy.
    + cbn [_metrics _metrics_by_file _history_metrics _history_metrics_by_file].
      destruct inspect_history; reflexivity.
    + unfold tidy.
      cbn [_metrics _metrics_by_file _history_metrics _history_metrics_by_file].
      destruct inspect_history; repeat split; repeat constructor.
Qed.

(** [markers_only_repo] inspected with its history and exported to [out]. *)
Lemma export_of_excluded_sources_witness :
  exists self',
    inspect_project (E := stand_in) markers_only_repo (__init__ ".") true 0 []
    = (Ok self', [])
    /\ write_metrics_to_csv (O := insertion_order) self' "out" old_disk
       = (Ok tt,
          {| directories := [ "out"; "out/files_history" ]%string;
             files :=
               [ ("out/metrics.csv"%string,
                  [ map Text overall_columns;
                    [ Num (PyInt 0); Num (PyInt 0); Num (PyInt 0) ] ]);
                 ("notes.txt"%string, []);
                 ("out/metrics_by_file.csv"%string, [ map Text per_file_columns ]);
                 ("out/history_metrics.csv"%string, [ map Text dated_columns ]) ] |}).
Proof.
  apply (@export_of_excluded_sources stand_in insertion_order markers_only_repo "." true 0 []
           "out" old_disk).
  intros commit item Hc Hi Hsrc.
  cbn in Hc. destruct Hc as [<- | []].
  cbn in Hi. destruct Hi as [<- | [<- | [<- | [<- | []]]]];
    try discriminate Hsrc; [left | right]; reflexivity.
Defined.

Section Complete.
Context {F : Type} {A : Arith F} {L : @Lawful F A} {E : Externals F}.

Lemma inspect_project_complete (repo : Repo) (self : CodeQualityInspector F)
    (inspect_history : bool) (max_history_count : Z) (out : list string) :
  complete self ->
  exists self' out',
    inspect_project repo self inspect_history max_history_count out = (Ok self', out')
    /\ complete self'.
Proof.
  intros (Hper_file & Htimeline & Hhistory).
  rewrite inspect_project_state. eexists. eexists. split; [reflexivity |].
  unfold complete. cbn [_metrics_by_file _history_metrics _history_metrics_by_file].
  split; [| split].
  - apply Forall_app. split; [exact Hper_file |].
    apply Forall_forall. intros row Hrow.
    destruct (first_rows_from_values _ _ Hrow) as (m & k & Hm & ->).
    destruct (history_samples _ _ _ Hm) as (e & _ & _ & ->).
    split; discriminate.
  - apply Forall_app. split; [exact Htimeline |].
    destruct inspect_history; [| constructor].
    apply Forall_forall. intros row Hrow. unfold timeline in Hrow.
    apply in_map_iff in Hrow. destruct Hrow as (date & <- & _). discriminate.
  - destruct inspect_history; [apply history_of_dated | exact Hhistory].
Qed.

Lemma inspect_many_complete (calls : list (Repo * bool * Z)) (self : CodeQualityInspector F)
    (out : list string) :
  complete self ->
  exists self' out', inspect_many calls self out = (Ok self', out') /\ complete self'.
Proof.
  revert self out.
  induction calls as [| [[repo inspect_history] max_history_count] calls IH];
    intros self out Hcomplete.
  - exists self, out. split; [reflexivity | exact Hcomplete].
  - destruct (inspect_project_complete repo inspect_history max_history_count out Hcomplete)
      as (self1 & out1 & Hrun & Hcomplete1).
    destruct (IH self1 out1 Hcomplete1) as (self' & out' & Hrest & Hcomplete').
    exists self', out'. split; [| exact Hcomplete'].
    unfold inspect_many in *. cbn [for_each]. unfold bind at 1.
    rewrite Hrun. exact Hrest.
Qed.
End Complete.

(** X17.  The tables of an inspected project have no blank field: after any
    calls of [inspect_project] on a fresh instance, every per-file row holds
    a file label and a date, every row of the timeline and every sample of
    the file history holds a date, so every record written for them carries
    the label, the date and the three numbers of its row, and the empty
    string [csv.DictWriter] writes for a missing key never appears. *)
Theorem exported_records_are_complete {E : Externals float}
    (calls : list (Repo * bool * Z)) (project_directory : string) (out : list string) :
  exists self' out',
    inspect_many calls (__init__ project_directory) out = (Ok self', out')
    /\ Forall (fun row =>
                 exists file_name date,
                   File row = Some file_name /\ Date row = Some date
                   /\ record_of per_file_columns row
                      = [ Text file_name; Text date;
                          Num (Ciclomatic_Complexity row); Num (Maintainability row);
                          Num (PyInt (Z.of_N (Lines_of_Code row))) ])
         (_metrics_by_file self')
    /\ Forall (fun row =>
                 exists date,
                   Date row = Some date
                   /\ record_of dated_columns row
                      = [ Text date;
                          Num (Ciclomatic_Complexity row); Num (Maintainability row);
                          Num (PyInt (Z.of_N (Lines_of_Code row))) ])
         (_history_metrics self'
          ++ List.concat (values (_history_metrics_by_file self'))).
Proof.
  destruct (@inspect_many_complete float binary64 _ E calls (__init__ project_directory) out)
    as (self' & out' & Hrun & Hper_file & Htimeline & Hhistory).
  { repeat split; constructor. }
  exists self', out'. split; [exact Hrun |]. split.
  - apply Forall_forall. intros row Hrow.
    rewrite Forall_forall in Hper_file. destruct (Hper_file row Hrow) as [Hfile Hdate].
    rewrite record_of_per_file.
    destruct (File row) as [file_name |]; [| contradiction].
    destruct (Date row) as [date |]; [| contradiction].
    exists file_name, date. repeat split.
  - assert (Hdated : Forall (fun row : Metrics float => Date row <> None)
                       (_history_metrics self'
                        ++ List.concat (values (_history_metrics_by_file self')))).
    { apply Forall_app. split; assumption. }
    apply Forall_forall. intros row Hrow.
    rewrite Forall_forall in Hdated. specialize (Hdated row Hrow).
    rewrite record_of_dated.
    destruct (Date row) as [date |]; [| contradiction].
    exists date. split; reflexivity.
Qed.
